(** * ModelDay backend: the user-context builder (services/contextService.js)

    A shallow embedding of [ContextService] and the properties of its
    section formatters, statistics aggregator, calendar merger and
    assembler.

    Modelling conventions
    - JavaScript strings are [string]s holding the UTF-8 encoding of the
      text, as the request bodies carry it. White space is the white space
      and the line terminators of ECMAScript, Unicode's included; the case
      mapping is the host's.
    - JavaScript numbers are the kernel's binary64 [float]s; their decimal
      renderings ([Number::toString], [toFixed]) and readings ([parseFloat],
      [ToNumber]) are computed exactly over [Z].
    - A record is a property list; a missing property reads [JUndefined].
      Property values are primitives (undefined, null, booleans, numbers,
      strings).
    - A collection of the bundle is [undefined], [null] or an array. An
      array element is [Some o] for an object and [None] for a null or
      undefined element, on which a property read throws.
    - What depends on the host (time zone, locale data, the date-string
      parser, the Unicode case mapping) is a field of the class [Host].
    - The wall clock is a sequence of readings; a computation threads the
      number of readings made so far.
    - [console.log] / [console.error] diagnostics are not modelled. *)

From Stdlib Require Import ZArith List String Ascii Bool Lia.
From Stdlib Require Import DecimalString.
From Stdlib Require Import PrimFloat FloatOps SpecFloat Uint63.
From Stdlib Require Import Permutation Sorted.
Import ListNotations.

Local Open Scope string_scope.
Local Open Scope Z_scope.

(** ** Strings *)

Definition nl : string := String "010" EmptyString.

(** [s.includes(p)] *)
Fixpoint includes (p s : string) : bool :=
  if prefix p s then true
  else match s with
       | EmptyString => false
       | String _ s' => includes p s'
       end.

(** The text before the first line feed. *)
Fixpoint first_line (s : string) : string :=
  match s with
  | EmptyString => EmptyString
  | String c s' => if Ascii.eqb c "010" then EmptyString else String c (first_line s')
  end.

Definition is_digit (c : ascii) : bool :=
  let n := nat_of_ascii c in (Nat.leb 48 n && Nat.leb n 57)%bool.

Fixpoint all_digits (s : string) : bool :=
  match s with
  | EmptyString => true
  | String c s' => (is_digit c && all_digits s')%bool
  end.

Definition string_of_nat (n : nat) : string := NilZero.string_of_uint (Nat.to_uint n).

Definition string_of_Z (z : Z) : string := NilZero.string_of_int (Z.to_int z).

(** [s.split('.').pop()]: the text after the last full stop. *)
Fixpoint last_dot_segment_aux (acc s : string) : string :=
  match s with
  | EmptyString => acc
  | String c s' =>
      if Ascii.eqb c "." then last_dot_segment_aux s' s'
      else last_dot_segment_aux acc s'
  end.

Definition last_dot_segment (s : string) : string := last_dot_segment_aux s s.

(** [s.padStart(2, '0')] *)
Definition padStart2 (s : string) : string :=
  match String.length s with
  | O => "00"
  | S O => "0" ++ s
  | _ => s
  end.

Fixpoint repeat_string (n : nat) (s : string) : string :=
  match n with
  | O => EmptyString
  | S n' => s ++ repeat_string n' s
  end.

(** The number of bytes of the white space character or line terminator
    at the head of [s], 0 when there is none: TAB, LF, VT, FF, CR and
    SPACE in one byte; U+00A0 in two; U+1680, U+2000 to U+200A, U+2028,
    U+2029, U+202F, U+205F, U+3000 and U+FEFF in three. *)
Definition space_width (s : string) : nat :=
  match s with
  | String a s1 =>
      let a := nat_of_ascii a in
      if (Nat.leb 9 a && Nat.leb a 13 || Nat.eqb a 32)%bool then 1%nat
      else if Nat.ltb a 194 then 0%nat
      else
        match s1 with
        | String b s2 =>
            let b := nat_of_ascii b in
            if (Nat.eqb a 194 && Nat.eqb b 160)%bool then 2%nat
            else
              match s2 with
              | String c _ =>
                  let c := nat_of_ascii c in
                  if (Nat.eqb a 225 && Nat.eqb b 154 && Nat.eqb c 128
                      || Nat.eqb a 226 && Nat.eqb b 128
                         && (Nat.leb 128 c && Nat.leb c 138 || Nat.eqb c 168
                             || Nat.eqb c 169 || Nat.eqb c 175)
                      || Nat.eqb a 226 && Nat.eqb b 129 && Nat.eqb c 159
                      || Nat.eqb a 227 && Nat.eqb b 128 && Nat.eqb c 128
                      || Nat.eqb a 239 && Nat.eqb b 187 && Nat.eqb c 191)%bool
                  then 3%nat else 0%nat
              | EmptyString => 0%nat
              end
        | EmptyString => 0%nat
        end
  | EmptyString => 0%nat
  end.

(** [s.trimStart()] *)
Fixpoint trim_start (s : string) : string :=
  match space_width s, s with
  | 1%nat, String _ r => trim_start r
  | 2%nat, String _ (String _ r) => trim_start r
  | 3%nat, String _ (String _ (String _ r)) => trim_start r
  | _, _ => s
  end.

(** [s.trim().length === 0] *)
Fixpoint all_space (s : string) : bool :=
  match s with
  | EmptyString => true
  | _ =>
      match space_width s, s with
      | 1%nat, String _ r => all_space r
      | 2%nat, String _ (String _ r) => all_space r
      | 3%nat, String _ (String _ (String _ r)) => all_space r
      | _, _ => false
      end
  end.

(** The code point encoded at the head of [s] and the number of its
    bytes; [None] when [s] does not start with a UTF-8 sequence. *)
Definition code_point_at (s : string) : option (Z * nat) :=
  let byte c := Z.of_nat (nat_of_ascii c) in
  let continues b := (128 <=? b) && (b <=? 191) in
  match s with
  | String a s1 =>
      let a := byte a in
      if a <? 128 then Some (a, 1%nat)
      else
        match s1 with
        | String b s2 =>
            let b := byte b in
            if negb (continues b) then None
            else if (194 <=? a) && (a <=? 223)
            then Some ((a - 192) * 64 + (b - 128), 2%nat)
            else
              match s2 with
              | String c s3 =>
                  let c := byte c in
                  if negb (continues c) then None
                  else if (224 <=? a) && (a <=? 239) then
                    let cp := (a - 224) * 4096 + (b - 128) * 64 + (c - 128) in
                    if 2048 <=? cp then Some (cp, 3%nat) else None
                  else
                    match s3 with
                    | String d _ =>
                        let d := byte d in
                        if continues d && (240 <=? a) && (a <=? 244) then
                          let cp := (a - 240) * 262144 + (b - 128) * 4096
                                    + (c - 128) * 64 + (d - 128) in
                          if (65536 <=? cp) && (cp <=? 1114111) then Some (cp, 4%nat)
                          else None
                        else None
                    | EmptyString => None
                    end
              | EmptyString => None
              end
        | EmptyString => None
        end
  | EmptyString => None
  end.

(** The UTF-8 encoding of a code point, and of a text. *)
Definition utf8_of_code_point (cp : Z) : string :=
  let byte z := String (ascii_of_nat (Z.to_nat z)) EmptyString in
  if cp <? 128 then byte cp
  else if cp <? 2048 then byte (192 + cp / 64) ++ byte (128 + cp mod 64)
  else if cp <? 65536 then
    byte (224 + cp / 4096) ++ byte (128 + (cp / 64) mod 64) ++ byte (128 + cp mod 64)
  else
    byte (240 + cp / 262144) ++ byte (128 + (cp / 4096) mod 64)
    ++ byte (128 + (cp / 64) mod 64) ++ byte (128 + cp mod 64).

Definition utf8 (text : list Z) : string := String.concat "" (map utf8_of_code_point text).

(** ** Numbers *)

Module JsNumber.

Definition float_of_Z (q : Z) : float := of_uint63 (Uint63.of_Z q).

(** The double nearest to [num / den] (ties to even), for [0 <= num]
    and [0 < den]. *)
Definition round_ratio (num den : Z) : float :=
  if num =? 0 then zero
  else
    let e0 := Z.log2 num - Z.log2 den - 53 in
    let quo e := (num * 2 ^ Z.max 0 (- e)) / (den * 2 ^ Z.max 0 e) in
    let e1 := if 2 ^ 53 <=? quo e0 then e0 + 1 else e0 in
    let e := Z.max e1 (-1074) in
    let n' := num * 2 ^ Z.max 0 (- e) in
    let d' := den * 2 ^ Z.max 0 e in
    let q := n' / d' in
    let r := n' mod d' in
    let q' := if d' <? 2 * r then q + 1
              else if d' =? 2 * r then q + q mod 2
              else q in
    Z.ldexp (float_of_Z q') e.

(** The double nearest to [d * 10 ^ k], for [0 <= d]. *)
Definition round_decimal (d k : Z) : float :=
  if d =? 0 then zero
  else if 310 <? k then infinity
  else if Z.of_nat (String.length (string_of_Z d)) + k <? -330 then zero
  else if 0 <=? k then round_ratio (d * 10 ^ k) 1
  else round_ratio d (10 ^ (- k)).

(** [num / den >= 10 ^ t] *)
Definition ge_pow10 (num den t : Z) : bool :=
  if 0 <=? t then den * 10 ^ t <=? num else den <=? num * 10 ^ (- t).

(** The [n] with [10 ^ (n - 1) <= num / den < 10 ^ n]. *)
Definition decimal_exponent (num den : Z) : Z :=
  let est := ((Z.log2 num - Z.log2 den) * 30103) / 100000 in
  if ge_pow10 num den (est + 2) then est + 3
  else if ge_pow10 num den (est + 1) then est + 2
  else if ge_pow10 num den est then est + 1
  else if ge_pow10 num den (est - 1) then est
  else est - 1.

(** Shortest digits: the first [k] in 1..17 for which some [k]-digit
    [s] has [s * 10 ^ (n - k)] rounding to [x]; of two such [s] the
    one nearer to [x]. Returns [(s, n)]. *)
Fixpoint shortest_from (fuel : nat) (k : Z) (x : float) (num den n : Z) : Z * Z :=
  let p := n - k in
  let lo := if 0 <=? p then num / (den * 10 ^ p) else (num * 10 ^ (- p)) / den in
  let hi := lo + 1 in
  let ok s := PrimFloat.eqb (round_decimal s p) x in
  (* whether [hi] is strictly nearer to [x] than [lo], or as near and even *)
  let twice_x_num := if 0 <=? p then 2 * num else 2 * num * 10 ^ (- p) in
  let mid_scaled := if 0 <=? p then (2 * lo + 1) * den * 10 ^ p else (2 * lo + 1) * den in
  let hi_nearer :=
    if mid_scaled <? twice_x_num then true
    else if mid_scaled =? twice_x_num then Z.even hi
    else false in
  let norm s := if s =? 10 ^ k then (10 ^ (k - 1), n + 1) else (s, n) in
  let finish := if hi_nearer then norm hi else norm lo in
  match fuel with
  | O => finish
  | S fuel' =>
      match ok lo, ok hi with
      | true, true => finish
      | true, false => norm lo
      | false, true => norm hi
      | false, false => shortest_from fuel' (k + 1) x num den n
      end
  end.

Definition exact_ratio (m : positive) (e : Z) : Z * Z :=
  (Zpos m * 2 ^ Z.max 0 e, 2 ^ Z.max 0 (- e)).

(** [Number::toString] on a positive finite value [m * 2 ^ e]. *)
Definition positive_toString (x : float) (m : positive) (e : Z) : string :=
  let '(num, den) := exact_ratio m e in
  let n0 := decimal_exponent num den in
  let '(s, n) := shortest_from 16 1 x num den n0 in
  let digits := string_of_Z s in
  let k := Z.of_nat (String.length digits) in
  if (k <=? n) && (n <=? 21) then
    digits ++ repeat_string (Z.to_nat (n - k)) "0"
  else if (0 <? n) && (n <=? 21) then
    substring 0 (Z.to_nat n) digits ++ "." ++
    substring (Z.to_nat n) (Z.to_nat (k - n)) digits
  else if (-6 <? n) && (n <=? 0) then
    "0." ++ repeat_string (Z.to_nat (- n)) "0" ++ digits
  else
    let ex := n - 1 in
    let sign := if ex <? 0 then "-" else "+" in
    let mant :=
      if k =? 1 then digits
      else substring 0 1 digits ++ "." ++ substring 1 (Z.to_nat (k - 1)) digits in
    mant ++ "e" ++ sign ++ string_of_Z (Z.abs ex).

(** [Number::toString(x)] (radix 10). *)
Definition toString (x : float) : string :=
  match Prim2SF x with
  | S754_nan => "NaN"
  | S754_zero _ => "0"
  | S754_infinity false => "Infinity"
  | S754_infinity true => "-Infinity"
  | S754_finite sg m e =>
      (if sg then "-" else "") ++ positive_toString (abs x) m e
  end.

(** The integer [n] for which [n / 100] is nearest to [m * 2 ^ e], the
    larger one on a tie. *)
Definition hundredths (m : positive) (e : Z) : Z :=
  let '(num, den) := exact_ratio m e in
  (200 * num + den) / (2 * den).

(** The digits of [n] with a point before the last two, padded with
    zeros to at least three digits. *)
Definition fixed2_digits (n : Z) : string :=
  let d := string_of_Z n in
  let d := repeat_string (3 - String.length d) "0" ++ d in
  let k := String.length d in
  substring 0 (k - 2) d ++ "." ++ substring (k - 2) 2 d.

(** [x.toFixed(2)] *)
Definition toFixed2 (x : float) : string :=
  match Prim2SF x with
  | S754_finite sg m e =>
      let '(num, den) := exact_ratio m e in
      if den * 10 ^ 21 <=? num then toString x
      else (if sg then "-" else "") ++ fixed2_digits (hundredths m e)
  | S754_zero _ => fixed2_digits 0
  | _ => toString x
  end.

(** *** Reading decimal literals *)

Fixpoint take_digits (s : string) : string * string :=
  match s with
  | String c s' =>
      if is_digit c then let '(d, r) := take_digits s' in (String c d, r)
      else (EmptyString, s)
  | EmptyString => (EmptyString, EmptyString)
  end.

Fixpoint digits_value (acc : Z) (s : string) : Z :=
  match s with
  | EmptyString => acc
  | String c s' => digits_value (10 * acc + (Z.of_nat (nat_of_ascii c) - 48)) s'
  end.

(** An [ExponentPart] at the head of [s], when complete: its value and
    what follows it. *)
Definition take_exponent (s : string) : option (Z * string) :=
  match s with
  | String c s1 =>
      if (Ascii.eqb c "e" || Ascii.eqb c "E")%bool then
        let '(neg, s2) :=
          match s1 with
          | String "-" t => (true, t)
          | String "+" t => (false, t)
          | _ => (false, s1)
          end in
        let '(d, r) := take_digits s2 in
        match d with
        | EmptyString => None
        | _ => Some (if neg then - digits_value 0 d else digits_value 0 d, r)
        end
      else None
  | EmptyString => None
  end.

(** The longest prefix of [s] that is a [StrUnsignedDecimalLiteral]:
    its value and the rest of [s]. *)
Definition take_unsigned_decimal (s : string) : option (float * string) :=
  if prefix "Infinity" s then
    Some (infinity, substring 8 (String.length s - 8) s)
  else
    let '(ip, r1) := take_digits s in
    let '(fp, r2, dotted) :=
      match r1 with
      | String "." t => let '(f, r) := take_digits t in (f, r, true)
      | _ => (EmptyString, r1, false)
      end in
    match ip, fp with
    | EmptyString, EmptyString => None
    | _, _ =>
        let mant := digits_value 0 (ip ++ fp) in
        let scale := - Z.of_nat (String.length fp) in
        match take_exponent r2 with
        | Some (ex, r3) => Some (round_decimal mant (scale + ex), r3)
        | None => Some (round_decimal mant scale, r2)
        end
    end.

(** The longest prefix that is a [StrDecimalLiteral]. *)
Definition take_decimal (s : string) : option (float * string) :=
  match s with
  | String "-" t =>
      match take_unsigned_decimal t with
      | Some (v, r) => Some ((- v)%float, r)
      | None => None
      end
  | String "+" t => take_unsigned_decimal t
  | _ => take_unsigned_decimal s
  end.

(** [parseFloat(s)] on a string. *)
Definition parseFloat (s : string) : float :=
  match take_decimal (trim_start s) with
  | Some (v, _) => v
  | None => nan
  end.

Definition radix_digit (radix : Z) (c : ascii) : option Z :=
  let n := Z.of_nat (nat_of_ascii c) in
  let v := if (48 <=? n) && (n <=? 57) then n - 48
           else if (97 <=? n) && (n <=? 102) then n - 87
           else if (65 <=? n) && (n <=? 70) then n - 55
           else 99 in
  if v <? radix then Some v else None.

Fixpoint radix_value (radix acc : Z) (s : string) : option Z :=
  match s with
  | EmptyString => Some acc
  | String c s' =>
      match radix_digit radix c with
      | Some v => radix_value radix (radix * acc + v) s'
      | None => None
      end
  end.

Definition radix_literal (radix : Z) (s : string) : float :=
  match s with
  | EmptyString => nan
  | _ => match radix_value radix 0 s with
         | Some v => round_ratio v 1
         | None => nan
         end
  end.

(** Removes trailing white space. *)
Fixpoint trim_end (s : string) : string :=
  match s with
  | EmptyString => EmptyString
  | String c s' => if all_space s then EmptyString else String c (trim_end s')
  end.

(** [StringToNumber(s)]: the whole trimmed string must be a numeric
    literal; the empty string reads as 0. *)
Definition ofString (s : string) : float :=
  let t := trim_end (trim_start s) in
  match t with
  | EmptyString => zero
  | String "0" (String c r) =>
      if (Ascii.eqb c "x" || Ascii.eqb c "X")%bool then radix_literal 16 r
      else if (Ascii.eqb c "o" || Ascii.eqb c "O")%bool then radix_literal 8 r
      else if (Ascii.eqb c "b" || Ascii.eqb c "B")%bool then radix_literal 2 r
      else match take_decimal t with
           | Some (v, EmptyString) => v
           | _ => nan
           end
  | _ => match take_decimal t with
         | Some (v, EmptyString) => v
         | _ => nan
         end
  end.

(** [ToIntegerOrInfinity] followed by [TimeClip]: the time value a
    number denotes, [None] for an invalid date. *)
Definition timeClip (x : float) : option Z :=
  match Prim2SF x with
  | S754_zero _ => Some 0
  | S754_finite sg m e =>
      let '(num, den) := exact_ratio m e in
      if 8640000000000000 * den <? num then None
      else Some (if sg then - (num / den) else num / den)
  | _ => None
  end.

End JsNumber.


(** ** Values and records *)

Inductive JsVal : Type :=
| JUndefined
| JNull
| JBool (b : bool)
| JNum (x : float)
| JStr (s : string).

(** A value that may be absent ([undefined]) or [null]. *)
Inductive Nullable (A : Type) : Type :=
| Undefined
| Null
| Val (a : A).
Arguments Undefined {A}.
Arguments Null {A}.
Arguments Val {A} a.

(** A destructuring or parameter default: it replaces [undefined] only. *)
Definition default_to {A : Type} (d : A) (x : Nullable A) : Nullable A :=
  match x with
  | Undefined => Val d
  | _ => x
  end.

Definition JsObj : Type := list (string * JsVal).

(** [o.k] *)
Fixpoint prop (o : JsObj) (k : string) : JsVal :=
  match o with
  | [] => JUndefined
  | (k', v) :: o' => if String.eqb k k' then v else prop o' k
  end.

(** An array of records; [None] is a null or undefined element. *)
Definition JsArray : Type := list (option JsObj).

Definition truthy (v : JsVal) : bool :=
  match v with
  | JUndefined | JNull => false
  | JBool b => b
  | JNum x => negb (PrimFloat.is_zero x || PrimFloat.is_nan x)
  | JStr s => negb (String.eqb s "")
  end.

Definition ToString (v : JsVal) : string :=
  match v with
  | JUndefined => "undefined"
  | JNull => "null"
  | JBool true => "true"
  | JBool false => "false"
  | JNum x => JsNumber.toString x
  | JStr s => s
  end.

Definition ToNumber (v : JsVal) : float :=
  match v with
  | JUndefined => nan
  | JNull => zero
  | JBool true => one
  | JBool false => zero
  | JNum x => x
  | JStr s => JsNumber.ofString s
  end.

(** [v || d] *)
Definition or_else (v d : JsVal) : JsVal := if truthy v then v else d.

(** [`${v || 'd'}`] *)
Definition show_or (v : JsVal) (d : string) : string := ToString (or_else v (JStr d)).

(** [parseFloat(v) || 0] *)
Definition parseFloat_or_0 (v : JsVal) : float :=
  let p := JsNumber.parseFloat (ToString v) in
  if (PrimFloat.is_zero p || PrimFloat.is_nan p)%bool then zero else p.

(** ** Dates and the host *)

(** A [Date] object: its time value in milliseconds since the epoch,
    [None] for an invalid date (time value NaN). *)
Definition Date : Type := option Z.

Class Host : Type := {
  (** [Date.parse]: the time value a string denotes *)
  Date_parse : string -> option Z;
  (** the year and the month (0..11) of a time value in local time *)
  YearFromLocalTime : Z -> Z;
  MonthFromLocalTime : Z -> Z;
  (** [toLocaleDateString('en-US', {weekday: 'long', year: 'numeric',
      month: 'long', day: 'numeric'})] on a valid date *)
  formatLongDate : Z -> string;
  (** [toLocaleTimeString('en-US', {hour: '2-digit', minute: '2-digit',
      hour12: false})] on a valid date *)
  formatHourMinute : Z -> string;
  (** [String.prototype.toUpperCase]: the default case conversion of the
      host's version of Unicode *)
  toUpperCase : string -> string
}.

(** [new Date(v)] *)
Definition newDate `{Host} (v : JsVal) : Date :=
  match v with
  | JStr s => Date_parse s
  | _ => JsNumber.timeClip (ToNumber v)
  end.

(** [a > b] on dates: false when either side is invalid. *)
Definition date_gt (a b : Date) : bool :=
  match a, b with
  | Some x, Some y => y <? x
  | _, _ => false
  end.

(** A number that is an integer or NaN. *)
Definition getFullYear `{Host} (d : Date) : option Z := option_map YearFromLocalTime d.
Definition getMonth `{Host} (d : Date) : option Z := option_map MonthFromLocalTime d.

Definition string_of_intnum (n : option Z) : string :=
  match n with
  | Some z => string_of_Z z
  | None => "NaN"
  end.

Definition toLocaleDateString `{Host} (d : Date) : string :=
  match d with
  | Some t => formatLongDate t
  | None => "Invalid Date"
  end.

Definition toLocaleTimeString `{Host} (d : Date) : string :=
  match d with
  | Some t => formatHourMinute t
  | None => "Invalid Date"
  end.

(** What the date formatters are handed: a [Date] object or some other
    value. *)
Inductive DateArg : Type :=
| ADate (d : Date)
| AValue (v : JsVal).

Definition _formatDisplayDate `{Host} (date : DateArg) : string :=
  match date with
  | AValue _ => "Date TBD"
  | ADate d => toLocaleDateString d
  end.

Definition _formatTime `{Host} (date : DateArg) : string :=
  match date with
  | AValue _ => "Time TBD"
  | ADate d => toLocaleTimeString d
  end.

(** Nothing in the [try] block throws, so its [catch] branch (which
    would return the raw string) has no counterpart here. *)
Definition _formatJobDate `{Host} (date : JsVal) : string :=
  if negb (truthy date) then "Date TBD"
  else
    let dateObj := match date with
                   | JStr s => ADate (newDate (JStr s))
                   | _ => AValue date
                   end in
    _formatDisplayDate dateObj.

(** ** Computations: exceptions and the clock *)

Inductive completion (A : Type) : Type :=
| Normal (a : A)
| Throw.
Arguments Normal {A} a.
Arguments Throw {A}.

Definition Clock : Type := nat -> Z.

(** A computation reads the clock, whose [n]-th reading is [clock n],
    and returns or throws; it also returns the number of readings made. *)
Definition M (A : Type) : Type := Clock -> nat -> completion A * nat.

Definition ret {A : Type} (a : A) : M A := fun _ n => (Normal a, n).

Definition throw {A : Type} : M A := fun _ n => (Throw, n).

Definition bind {A B : Type} (m : M A) (k : A -> M B) : M B :=
  fun clock n =>
    match m clock n with
    | (Normal a, n') => k a clock n'
    | (Throw, n') => (Throw, n')
    end.

Notation "x <- m ;; k" := (bind m (fun x => k))
  (at level 61, m at next level, right associativity).

(** [new Date()] with the current time. *)
Definition now : M Date := fun clock n => (Normal (Some (clock n)), S n).

(** [try { m } catch (e) { return h }] *)
Definition try_catch {A : Type} (m : M A) (h : A) : M A :=
  fun clock n =>
    match m clock n with
    | (Normal a, n') => (Normal a, n')
    | (Throw, n') => (Normal h, n')
    end.

Definition lift {A : Type} (c : completion A) : M A := fun _ n => (c, n).

(** Reading a property of an array element. *)
Definition the_object (e : option JsObj) : completion JsObj :=
  match e with
  | Some o => Normal o
  | None => Throw
  end.

(** [l.forEach(f)] over a loop state [s]; stops at the first throw. *)
Fixpoint forEach {A S : Type} (f : S -> A -> completion S) (l : list A) (s : S)
  : completion S :=
  match l with
  | [] => Normal s
  | a :: l' =>
      match f s a with
      | Normal s' => forEach f l' s'
      | Throw => Throw
      end
  end.

(** [x.forEach] on a value that may be [null] or [undefined]. *)
Definition forEach_on {A S : Type} (f : S -> A -> completion S)
  (x : Nullable (list A)) (s : S) : completion S :=
  match x with
  | Val l => forEach f l s
  | _ => Throw
  end.

(** [!x || x.length === 0] *)
Definition none_or_empty {A : Type} (x : Nullable (list A)) : bool :=
  match x with
  | Val (_ :: _) => false
  | _ => true
  end.

Definition elements {A : Type} (x : Nullable (list A)) : list A :=
  match x with
  | Val l => l
  | _ => []
  end.

(** [l.slice(0, n)] *)
Definition slice0 {A : Type} (n : nat) (l : list A) : list A := firstn n l.

(** [l.slice(-n)] *)
Definition slice_last {A : Type} (n : nat) (l : list A) : list A :=
  skipn (List.length l - n) l.

Definition cbind {A B : Type} (c : completion A) (k : A -> completion B) : completion B :=
  match c with
  | Normal a => k a
  | Throw => Throw
  end.

(** [try { c } catch (e) { }] around a loop body that leaves the state
    [s] as it was when it throws. *)
Definition or_skip {S : Type} (c : completion S) (s : S) : completion S :=
  match c with
  | Normal s' => Normal s'
  | Throw => Normal s
  end.

(** The loop body [section += block(element)]. *)
Definition append_block (block : JsObj -> string) (section : string) (e : option JsObj)
  : completion string :=
  cbind (the_object e) (fun o => Normal (section ++ block o)).

(** [cond ? text : ''], and an [if (cond) section += text]. *)
Definition when (cond : bool) (text : string) : string := if cond then text else "".

(** ** Section formatters *)

Section Formatters.
Context `{Host}.

Definition _buildUserProfileSection (userProfile : Nullable JsObj) : string :=
  match userProfile with
  | Val ((_ :: _) as o) =>
      "USER PROFILE:" ++ nl
      ++ "- Name: " ++ show_or (prop o "name") "Not specified" ++ nl
      ++ "- Email: " ++ show_or (prop o "email") "Not specified" ++ nl
      ++ when (truthy (prop o "phone")) ("- Phone: " ++ ToString (prop o "phone") ++ nl)
      ++ when (truthy (prop o "displayName"))
           ("- Display Name: " ++ ToString (prop o "displayName") ++ nl)
      ++ nl
  | _ => "USER PROFILE: Profile not found."
  end.

Definition job_block (job : JsObj) : string :=
  let dateStr := _formatJobDate (prop job "date") in
  "- " ++ dateStr ++ ": " ++ show_or (prop job "clientName") "Unknown Client"
  ++ " (" ++ show_or (prop job "type") "Job" ++ ")" ++ nl
  ++ "  Rate: " ++ show_or (prop job "rate") "TBD" ++ " "
  ++ show_or (prop job "currency") "USD"
  ++ " | Status: " ++ show_or (prop job "status") "Unknown"
  ++ " | Payment: " ++ show_or (prop job "paymentStatus") "Unknown" ++ nl
  ++ "  Location: " ++ show_or (prop job "location") "TBD" ++ nl
  ++ when (truthy (prop job "notes")) ("  Notes: " ++ ToString (prop job "notes") ++ nl)
  ++ nl.

(** The loop state of [_buildJobsSection]: the text so far and the
    three running totals. *)
Record JobsLoop : Type := {
  jl_section : string;
  jl_totalEarnings : float;
  jl_upcomingJobs : nat;
  jl_completedJobs : nat
}.

Definition jobs_loop_body (now_ : Date) (st : JobsLoop) (e : option JsObj)
  : completion JobsLoop :=
  cbind (the_object e) (fun job =>
    let totalEarnings :=
      if truthy (prop job "rate")
      then (jl_totalEarnings st + parseFloat_or_0 (prop job "rate"))%float
      else jl_totalEarnings st in
    let '(upcomingJobs, completedJobs) :=
      if truthy (prop job "date") then
        let jobDate := newDate (prop job "date") in
        if date_gt jobDate now_
        then (S (jl_upcomingJobs st), jl_completedJobs st)
        else (jl_upcomingJobs st, S (jl_completedJobs st))
      else (jl_upcomingJobs st, jl_completedJobs st) in
    Normal {| jl_section := jl_section st ++ job_block job;
              jl_totalEarnings := totalEarnings;
              jl_upcomingJobs := upcomingJobs;
              jl_completedJobs := completedJobs |}).

Definition jobs_summary (st : JobsLoop) : string :=
  "SUMMARY:" ++ nl
  ++ "- Total Earnings: $" ++ JsNumber.toFixed2 (jl_totalEarnings st) ++ " USD" ++ nl
  ++ "- Upcoming Jobs: " ++ string_of_nat (jl_upcomingJobs st) ++ nl
  ++ "- Completed Jobs: " ++ string_of_nat (jl_completedJobs st) ++ nl.

Definition _buildJobsSection (jobs : Nullable JsArray) : M string :=
  if none_or_empty jobs then ret "JOBS: No jobs found."
  else
    let l := elements jobs in
    let section := "JOBS (" ++ string_of_nat (List.length l) ++ " total):" ++ nl in
    now_ <- now ;;
    st <- lift (forEach (jobs_loop_body now_) l
                  {| jl_section := section; jl_totalEarnings := zero;
                     jl_upcomingJobs := 0; jl_completedJobs := 0 |}) ;;
    ret (jl_section st ++ jobs_summary st).

Definition event_block (event : JsObj) : string :=
  let dateStr := _formatJobDate (prop event "date") in
  let timeStr := show_or (prop event "startTime") "Time TBD" in
  let location := show_or (prop event "location") "Location TBD" in
  let eventType :=
    if truthy (prop event "type") then toUpperCase (ToString (prop event "type"))
    else "EVENT" in
  "- " ++ dateStr ++ " at " ++ timeStr ++ ": " ++ eventType ++ nl
  ++ "  Client: " ++ show_or (prop event "clientName") "Unknown Client" ++ nl
  ++ "  Location: " ++ location ++ nl
  ++ when (truthy (prop event "dayRate"))
       ("  Day Rate: " ++ ToString (prop event "dayRate") ++ " "
        ++ show_or (prop event "currency") "USD" ++ nl)
  ++ when (truthy (prop event "notes")) ("  Notes: " ++ ToString (prop event "notes") ++ nl)
  ++ nl.

Definition _buildEventsSection (events : Nullable JsArray) : completion string :=
  if none_or_empty events then Normal "EVENTS: No events found."
  else
    let l := elements events in
    let section := "EVENTS (" ++ string_of_nat (List.length l) ++ " total):" ++ nl in
    let limitedEvents := slice0 20 l in
    forEach (append_block event_block) limitedEvents section.

Definition aiJob_block (job : JsObj) : string :=
  let dateStr := _formatJobDate (prop job "date") in
  let rate :=
    if truthy (prop job "rate")
    then ToString (prop job "rate") ++ " " ++ show_or (prop job "currency") "USD"
    else "Rate TBD" in
  "- " ++ dateStr ++ ": " ++ show_or (prop job "clientName") "Unknown Client"
  ++ " (" ++ show_or (prop job "type") "AI Job" ++ ")" ++ nl
  ++ "  Rate: " ++ rate
  ++ " | Status: " ++ show_or (prop job "status") "Unknown"
  ++ " | Payment: " ++ show_or (prop job "paymentStatus") "Unknown" ++ nl
  ++ when (truthy (prop job "location"))
       ("  Location: " ++ ToString (prop job "location") ++ nl)
  ++ nl.

Definition _buildAiJobsSection (aiJobs : Nullable JsArray) : completion string :=
  if none_or_empty aiJobs then Normal "AI JOBS: No AI jobs found."
  else
    let l := elements aiJobs in
    let section := "AI JOBS:" ++ nl in
    let limitedJobs := slice0 5 l in
    forEach (append_block aiJob_block) limitedJobs section.

(** [`${x.city}${x.country ? `, ${x.country}` : ''}`] *)
Definition city_country (o : JsObj) : string :=
  ToString (prop o "city")
  ++ when (truthy (prop o "country")) (", " ++ ToString (prop o "country")).

Definition agency_block (agency : JsObj) : string :=
  "- " ++ show_or (prop agency "name") "Unknown Agency" ++ nl
  ++ when (truthy (prop agency "city")) ("  Location: " ++ city_country agency ++ nl)
  ++ when (truthy (prop agency "commissionRate")
           && PrimFloat.ltb zero (ToNumber (prop agency "commissionRate")))
       ("  Commission Rate: " ++ ToString (prop agency "commissionRate") ++ "%" ++ nl)
  ++ nl.

Definition _buildAgenciesSection (agencies : Nullable JsArray) : completion string :=
  if none_or_empty agencies then Normal "AGENCIES: No agencies found."
  else
    let l := elements agencies in
    let section := "AGENCIES (" ++ string_of_nat (List.length l) ++ " total):" ++ nl in
    forEach (append_block agency_block) l section.

Definition agent_block (agent : JsObj) : string :=
  "- " ++ show_or (prop agent "name") "Unknown Agent" ++ nl
  ++ when (truthy (prop agent "email")) ("  Email: " ++ ToString (prop agent "email") ++ nl)
  ++ when (truthy (prop agent "phone")) ("  Phone: " ++ ToString (prop agent "phone") ++ nl)
  ++ when (truthy (prop agent "city")) ("  Location: " ++ city_country agent ++ nl)
  ++ nl.

Definition _buildAgentsSection (agents : Nullable JsArray) : completion string :=
  if none_or_empty agents then Normal "AGENTS: No agents found."
  else
    let l := elements agents in
    let section := "AGENTS (" ++ string_of_nat (List.length l) ++ " total):" ++ nl in
    forEach (append_block agent_block) l section.

Definition meeting_block (meeting : JsObj) : string :=
  let dateStr := _formatJobDate (prop meeting "date") in
  "- " ++ dateStr ++ ": " ++ show_or (prop meeting "clientName") "Unknown Client" ++ nl
  ++ when (truthy (prop meeting "time")) ("  Time: " ++ ToString (prop meeting "time") ++ nl)
  ++ when (truthy (prop meeting "location"))
       ("  Location: " ++ ToString (prop meeting "location") ++ nl)
  ++ nl.

Definition _buildMeetingsSection (meetings : Nullable JsArray) : completion string :=
  if none_or_empty meetings then Normal "MEETINGS: No meetings found."
  else
    let l := elements meetings in
    let section := "MEETINGS (" ++ string_of_nat (List.length l) ++ " total):" ++ nl in
    let limitedMeetings := slice0 10 l in
    forEach (append_block meeting_block) limitedMeetings section.

Definition stay_block (stay : JsObj) : string :=
  "- " ++ show_or (prop stay "locationName") "Unknown Location" ++ nl
  ++ when (truthy (prop stay "checkInDate"))
       ("  Check-in: " ++ _formatDisplayDate (ADate (newDate (prop stay "checkInDate"))) ++ nl)
  ++ when (truthy (prop stay "checkOutDate"))
       ("  Check-out: " ++ _formatDisplayDate (ADate (newDate (prop stay "checkOutDate"))) ++ nl)
  ++ "  Cost: " ++ show_or (prop stay "cost") "TBD" ++ " "
  ++ show_or (prop stay "currency") "USD" ++ nl
  ++ nl.

Definition _buildOnStaysSection (onStays : Nullable JsArray) : completion string :=
  if none_or_empty onStays then Normal "ON STAYS: No stays found."
  else
    let l := elements onStays in
    let section := "ON STAYS (" ++ string_of_nat (List.length l) ++ " total):" ++ nl in
    let limitedStays := slice0 10 l in
    forEach (append_block stay_block) limitedStays section.

Definition shooting_block (shooting : JsObj) : string :=
  let dateStr := _formatJobDate (prop shooting "date") in
  "- " ++ dateStr ++ ": " ++ show_or (prop shooting "clientName") "Unknown Client" ++ nl
  ++ when (truthy (prop shooting "location"))
       ("  Location: " ++ ToString (prop shooting "location") ++ nl)
  ++ when (truthy (prop shooting "rate"))
       ("  Rate: " ++ ToString (prop shooting "rate") ++ " "
        ++ show_or (prop shooting "currency") "USD" ++ nl)
  ++ nl.

Definition _buildShootingsSection (shootings : Nullable JsArray) : completion string :=
  if none_or_empty shootings then Normal "SHOOTINGS: No shootings found."
  else
    let l := elements shootings in
    let section := "SHOOTINGS (" ++ string_of_nat (List.length l) ++ " total):" ++ nl in
    let limitedShootings := slice0 10 l in
    forEach (append_block shooting_block) limitedShootings section.

End Formatters.

(** ** Sorting *)

(** [Array.prototype.sort] is stable; with a consistent comparator its
    result is the stable ascending arrangement, computed here by
    insertion. *)
Fixpoint insert_sorted {A : Type} (le : A -> A -> bool) (x : A) (l : list A) : list A :=
  match l with
  | [] => [x]
  | y :: l' => if le x y then x :: y :: l' else y :: insert_sorted le x l'
  end.

Definition stable_sort {A : Type} (le : A -> A -> bool) (l : list A) : list A :=
  fold_right (insert_sorted le) [] l.

(** ** Aggregator *)

(** [eventsByMonth]: month keys with their counts, in insertion order. *)
Definition Histogram : Type := list (string * nat).

(** [h[k] = (h[k] || 0) + 1] *)
Fixpoint increment (k : string) (h : Histogram) : Histogram :=
  match h with
  | [] => [(k, 1%nat)]
  | (k', n) :: h' =>
      if String.eqb k k' then (k', S n) :: h' else (k', n) :: increment k h'
  end.

(** [h[k]] *)
Fixpoint count_of (h : Histogram) (k : string) : nat :=
  match h with
  | [] => 0%nat
  | (k', n) :: h' => if String.eqb k k' then n else count_of h' k
  end.

(** [Object.keys(h)] *)
Definition keys (h : Histogram) : list string := map fst h.

(** [[...x]] *)
Definition spread {A : Type} (x : Nullable (list A)) : completion (list A) :=
  match x with
  | Val l => Normal l
  | _ => Throw
  end.

Section Aggregator.
Context `{Host}.

Record StatsLoop : Type := {
  sl_totalIncome : float;
  sl_upcomingJobs : nat;
  sl_completedJobs : nat
}.

Definition stats_loop_body (now_ : Date) (st : StatsLoop) (e : option JsObj)
  : completion StatsLoop :=
  cbind (the_object e) (fun job =>
    let totalIncome :=
      if truthy (prop job "rate")
      then (sl_totalIncome st + parseFloat_or_0 (prop job "rate"))%float
      else sl_totalIncome st in
    if truthy (prop job "date") then
      let jobDate := newDate (prop job "date") in
      if date_gt jobDate now_
      then Normal {| sl_totalIncome := totalIncome;
                     sl_upcomingJobs := S (sl_upcomingJobs st);
                     sl_completedJobs := sl_completedJobs st |}
      else Normal {| sl_totalIncome := totalIncome;
                     sl_upcomingJobs := sl_upcomingJobs st;
                     sl_completedJobs := S (sl_completedJobs st) |}
    else Normal {| sl_totalIncome := totalIncome;
                   sl_upcomingJobs := sl_upcomingJobs st;
                   sl_completedJobs := sl_completedJobs st |}).

(** [`${date.getFullYear()}-${String(date.getMonth() + 1).padStart(2, '0')}`] *)
Definition monthKey (date : Date) : string :=
  string_of_intnum (getFullYear date) ++ "-"
  ++ padStart2 (string_of_intnum (option_map (fun m => m + 1) (getMonth date))).

Definition month_loop_body (eventsByMonth : Histogram) (e : option JsObj)
  : completion Histogram :=
  cbind (the_object e) (fun event =>
    let dateStr := if truthy (prop event "date") then prop event "date" else JNull in
    if truthy dateStr then
      let date := newDate dateStr in
      Normal (increment (monthKey date) eventsByMonth)
    else Normal eventsByMonth).

Definition month_line (eventsByMonth : Histogram) (month : string) : string :=
  "  " ++ month ++ ": " ++ string_of_nat (count_of eventsByMonth month) ++ " events" ++ nl.

Definition activity_by_month (eventsByMonth : Histogram) : string :=
  match keys eventsByMonth with
  | [] => ""
  | _ =>
      let sortedMonths := stable_sort String.leb (keys eventsByMonth) in
      "- Activity by Month:" ++ nl
      ++ String.concat "" (map (month_line eventsByMonth) (slice_last 6 sortedMonths))
  end.

Definition statistics_text (st : StatsLoop) (njobs nevents : nat)
  (eventsByMonth : Histogram) : string :=
  "STATISTICS:" ++ nl
  ++ "- Total Income: $" ++ JsNumber.toFixed2 (sl_totalIncome st) ++ " USD" ++ nl
  ++ "- Total Jobs: " ++ string_of_nat njobs ++ nl
  ++ "- Upcoming Jobs: " ++ string_of_nat (sl_upcomingJobs st) ++ nl
  ++ "- Completed Jobs: " ++ string_of_nat (sl_completedJobs st) ++ nl
  ++ "- Total Events: " ++ string_of_nat nevents ++ nl
  ++ activity_by_month eventsByMonth.

(** The body of the [try] block, once the clock has been read. *)
Definition statistics_body (now_ : Date) (jobs events : Nullable JsArray)
  : completion string :=
  cbind (forEach_on (stats_loop_body now_) jobs
           {| sl_totalIncome := zero; sl_upcomingJobs := 0; sl_completedJobs := 0 |})
    (fun st =>
  cbind (spread jobs) (fun js =>
  cbind (spread events) (fun es =>
  let allEvents := (js ++ es)%list in
  cbind (forEach month_loop_body allEvents []) (fun eventsByMonth =>
  Normal (statistics_text st (List.length js) (List.length es) eventsByMonth))))).

Definition _calculateStatistics (jobs events : Nullable JsArray) : M string :=
  let jobs := default_to [] jobs in
  let events := default_to [] events in
  try_catch
    (now_ <- now ;; lift (statistics_body now_ jobs events))
    "STATISTICS: Error calculating statistics.".

End Aggregator.

(** ** Calendar merger *)

Record CalItem : Type := {
  item_type : string;
  item_title : JsVal;
  item_date : Date;
  item_time : JsVal;
  item_location : JsVal
}.

(** [(a, b) => a.date - b.date] is not positive. *)
Definition date_le (a b : CalItem) : bool :=
  match item_date a, item_date b with
  | Some x, Some y => x <=? y
  | _, _ => true
  end.

Section Calendar.
Context `{Host}.

Definition job_item (job : JsObj) (jobDate : Date) : CalItem :=
  {| item_type := "job";
     item_title := or_else (prop job "clientName") (JStr "Unknown Client");
     item_date := jobDate;
     item_time := or_else (prop job "time") (JStr "");
     item_location := or_else (prop job "location") (JStr "") |}.

Definition event_item (event : JsObj) (eventDate : Date) : CalItem :=
  {| item_type := if truthy (prop event "type")
                  then last_dot_segment (ToString (prop event "type"))
                  else "event";
     item_title := or_else (prop event "clientName") (JStr "Event");
     item_date := eventDate;
     item_time := or_else (prop event "startTime") (JStr "");
     item_location := or_else (prop event "location") (JStr "") |}.

Definition meeting_item (meeting : JsObj) (meetingDate : Date) : CalItem :=
  {| item_type := "meeting";
     item_title := or_else (prop meeting "clientName") (JStr "Unknown Client");
     item_date := meetingDate;
     item_time := or_else (prop meeting "time") (JStr "");
     item_location := or_else (prop meeting "location") (JStr "") |}.

(** The body shared in shape by the three loops: inside its own [try],
    push an item when the record's date is later than [now_]. *)
Definition push_upcoming (mk : JsObj -> Date -> CalItem) (now_ : Date)
  (upcomingEvents : list CalItem) (e : option JsObj) : completion (list CalItem) :=
  or_skip
    (cbind (the_object e) (fun r =>
       if truthy (prop r "date") then
         let d := newDate (prop r "date") in
         if date_gt d now_ then Normal (upcomingEvents ++ [mk r d])%list
         else Normal upcomingEvents
       else Normal upcomingEvents))
    upcomingEvents.

Definition calendar_line (event : CalItem) : string :=
  let dateStr := _formatDisplayDate (ADate (item_date event)) in
  let timeStr := item_time event in
  let location := item_location event in
  "- " ++ dateStr ++ when (truthy timeStr) (" at " ++ ToString timeStr) ++ ": "
  ++ toUpperCase (item_type event) ++ " - " ++ ToString (item_title event) ++ nl
  ++ when (truthy location) ("  Location: " ++ ToString location ++ nl)
  ++ nl.

Definition calendar_text (topEvents : list CalItem) : string :=
  match topEvents with
  | [] => "UPCOMING CALENDAR: No upcoming events scheduled."
  | _ =>
      "UPCOMING CALENDAR (Next " ++ string_of_nat (List.length topEvents) ++ " Events):" ++ nl
      ++ String.concat "" (map calendar_line topEvents)
  end.

Definition calendar_body (now_ : Date) (jobs events meetings : Nullable JsArray)
  : completion string :=
  cbind (forEach_on (push_upcoming job_item now_) jobs []) (fun up1 =>
  cbind (forEach_on (push_upcoming event_item now_) events up1) (fun up2 =>
  cbind (forEach_on (push_upcoming meeting_item now_) meetings up2) (fun upcomingEvents =>
  let sorted := stable_sort date_le upcomingEvents in
  let topEvents := slice0 10 sorted in
  Normal (calendar_text topEvents)))).

Definition _getCalendarSummary (jobs events meetings : Nullable JsArray) : M string :=
  let jobs := default_to [] jobs in
  let events := default_to [] events in
  let meetings := default_to [] meetings in
  try_catch
    (now_ <- now ;; lift (calendar_body now_ jobs events meetings))
    "UPCOMING CALENDAR: Error loading calendar data.".

End Calendar.

(** ** Context assembler *)

Record Bundle : Type := {
  userProfile : Nullable JsObj;
  jobs : Nullable JsArray;
  events : Nullable JsArray;
  aiJobs : Nullable JsArray;
  agencies : Nullable JsArray;
  agents : Nullable JsArray;
  meetings : Nullable JsArray;
  onStays : Nullable JsArray;
  shootings : Nullable JsArray
}.

(** The object [{}]. *)
Definition empty_bundle : Bundle :=
  {| userProfile := Undefined; jobs := Undefined; events := Undefined;
     aiJobs := Undefined; agencies := Undefined; agents := Undefined;
     meetings := Undefined; onStays := Undefined; shootings := Undefined |}.

Definition context_intro : string :=
  nl ++ "You are an AI assistant for a modeling professional using Model Day. You have access to ONLY their data and can help analyze it and provide insights." ++ nl ++ nl ++ "CURRENT USER DATA CONTEXT:" ++ nl.

Definition context_outro : string :=
  nl ++ nl ++ "Provide helpful, professional responses based on the actual data. Consider:" ++ nl ++ "1. Financial insights: Total earnings, booking rates, job trends" ++ nl ++ "2. Calendar management: Upcoming events, schedule conflicts, busy periods" ++ nl ++ "3. Career development: Patterns in castings, successful job types, agent relationships" ++ nl ++ "4. Network analysis: Industry contacts, agency relationships" ++ nl ++ "5. Activity trends: Monthly or seasonal patterns in bookings and events" ++ nl ++ nl ++ "If calculating totals or analyzing trends, show actual numbers. If asked about something not in the data, let them know politely. Maintain a friendly, professional tone." ++ nl.

(** The text of every section, in the order of the template. *)
Record Sections : Type := {
  userProfileSection : string;
  jobsSection : string;
  eventsSection : string;
  aiJobsSection : string;
  agenciesSection : string;
  agentsSection : string;
  meetingsSection : string;
  onStaysSection : string;
  shootingsSection : string;
  statistics : string;
  calendarSummary : string
}.

Definition context_template (s : Sections) (currentDate currentTime : string) : string :=
  context_intro
  ++ userProfileSection s
  ++ nl ++ nl ++ "JOBS DATA:" ++ nl
  ++ jobsSection s
  ++ nl ++ nl ++ "EVENTS DATA:" ++ nl
  ++ eventsSection s
  ++ nl ++ nl ++ "AI JOBS DATA:" ++ nl
  ++ aiJobsSection s
  ++ nl ++ nl ++ "AGENCIES DATA:" ++ nl
  ++ agenciesSection s
  ++ nl ++ nl ++ "AGENTS DATA:" ++ nl
  ++ agentsSection s
  ++ nl ++ nl ++ "MEETINGS DATA:" ++ nl
  ++ meetingsSection s
  ++ nl ++ nl ++ "ON STAYS DATA:" ++ nl
  ++ onStaysSection s
  ++ nl ++ nl ++ "SHOOTINGS DATA:" ++ nl
  ++ shootingsSection s
  ++ nl ++ nl ++ "STATISTICS:" ++ nl
  ++ statistics s
  ++ nl ++ nl ++ "UPCOMING CALENDAR (Next 10 Events):" ++ nl
  ++ calendarSummary s
  ++ nl ++ nl ++ "Current Date: "
  ++ currentDate
  ++ nl ++ "Current Time: "
  ++ currentTime
  ++ context_outro.

Section Assembler.
Context `{Host}.

(** The sections, built in the order of the source. *)
Definition build_sections (b : Bundle) : M Sections :=
  let userProfile_ := default_to [] (userProfile b) in
  let jobs_ := default_to [] (jobs b) in
  let events_ := default_to [] (events b) in
  let aiJobs_ := default_to [] (aiJobs b) in
  let agencies_ := default_to [] (agencies b) in
  let agents_ := default_to [] (agents b) in
  let meetings_ := default_to [] (meetings b) in
  let onStays_ := default_to [] (onStays b) in
  let shootings_ := default_to [] (shootings b) in
  let s1 := _buildUserProfileSection userProfile_ in
  s2 <- _buildJobsSection jobs_ ;;
  s3 <- lift (_buildEventsSection events_) ;;
  s4 <- lift (_buildAiJobsSection aiJobs_) ;;
  s5 <- lift (_buildAgenciesSection agencies_) ;;
  s6 <- lift (_buildAgentsSection agents_) ;;
  s7 <- lift (_buildMeetingsSection meetings_) ;;
  s8 <- lift (_buildOnStaysSection onStays_) ;;
  s9 <- lift (_buildShootingsSection shootings_) ;;
  s10 <- _calculateStatistics jobs_ events_ ;;
  s11 <- _getCalendarSummary jobs_ events_ meetings_ ;;
  ret {| userProfileSection := s1; jobsSection := s2; eventsSection := s3;
         aiJobsSection := s4; agenciesSection := s5; agentsSection := s6;
         meetingsSection := s7; onStaysSection := s8; shootingsSection := s9;
         statistics := s10; calendarSummary := s11 |}.

Definition buildUserContext (userData : Nullable Bundle) : M string :=
  try_catch
    (let safeUserData :=
       match default_to empty_bundle userData with
       | Val b => b
       | _ => empty_bundle
       end in
     s <- build_sections safeUserData ;;
     d1 <- now ;;
     d2 <- now ;;
     ret (context_template s (_formatDisplayDate (ADate d1)) (_formatTime (ADate d2))))
    "Error gathering user data. Please try again.".

End Assembler.

(** ** A reference host

    A conforming host in the UTC time zone whose [Date.parse] accepts
    the ECMAScript date-time string format and nothing else (the
    fallback to other formats is optional for a host), and whose case
    mapping is that of Unicode 14.0. *)

Module RefHost.

Definition msPerDay : Z := 86400000.

(** Days from the epoch to the civil date [y]-[m]-[d] (months 1..12). *)
Definition days_from_civil (y m d : Z) : Z :=
  let y' := if m <=? 2 then y - 1 else y in
  let era := y' / 400 in
  let yoe := y' - era * 400 in
  let doy := (153 * (if 2 <? m then m - 3 else m + 9) + 2) / 5 + d - 1 in
  let doe := yoe * 365 + yoe / 4 - yoe / 100 + doy in
  era * 146097 + doe - 719468.

(** The civil date (year, month 1..12, day) of a day number. *)
Definition civil_from_days (z : Z) : Z * Z * Z :=
  let z := z + 719468 in
  let era := z / 146097 in
  let doe := z - era * 146097 in
  let yoe := (doe - doe / 1460 + doe / 36524 - doe / 146096) / 365 in
  let doy := doe - (365 * yoe + yoe / 4 - yoe / 100) in
  let mp := (5 * doy + 2) / 153 in
  let d := doy - (153 * mp + 2) / 5 + 1 in
  let m := if mp <? 10 then mp + 3 else mp - 9 in
  let y := yoe + era * 400 in
  (if m <=? 2 then y + 1 else y, m, d).

(** Exactly [n] digits at the head of [s]. *)
Fixpoint take_n_digits (n : nat) (acc : Z) (s : string) : option (Z * string) :=
  match n with
  | O => Some (acc, s)
  | S n' =>
      match s with
      | String c s' =>
          if is_digit c
          then take_n_digits n' (10 * acc + (Z.of_nat (nat_of_ascii c) - 48)) s'
          else None
      | EmptyString => None
      end
  end.

Definition in_range (lo x hi : Z) : bool := (lo <=? x) && (x <=? hi).

(** [Z], [+HH:mm], [-HH:mm] or nothing, up to the end of the string:
    the offset in minutes, when one is written. *)
Definition parse_offset (s : string) : option (option Z) :=
  match s with
  | EmptyString => Some None
  | String "Z" EmptyString => Some (Some 0)
  | String c s1 =>
      if (Ascii.eqb c "+" || Ascii.eqb c "-")%bool then
        match take_n_digits 2 0 s1 with
        | Some (h, String ":" s2) =>
            match take_n_digits 2 0 s2 with
            | Some (m, EmptyString) =>
                if in_range 0 h 23 && in_range 0 m 59
                then Some (Some (if Ascii.eqb c "-" then - (60 * h + m) else 60 * h + m))
                else None
            | _ => None
            end
        | _ => None
        end
      else None
  end.

(** [THH:mm], [THH:mm:ss] or [THH:mm:ss.sss] and an offset: the
    milliseconds into the day and the offset. *)
Definition parse_time (s : string) : option (Z * option Z) :=
  match take_n_digits 2 0 s with
  | Some (h, String ":" s1) =>
      match take_n_digits 2 0 s1 with
      | Some (m, s2) =>
          let '(sec, ms, s4, ok) :=
            match s2 with
            | String ":" s3 =>
                match take_n_digits 2 0 s3 with
                | Some (sec, String "." s5) =>
                    match take_n_digits 3 0 s5 with
                    | Some (ms, s6) => (sec, ms, s6, true)
                    | None => (0, 0, s5, false)
                    end
                | Some (sec, s5) => (sec, 0, s5, true)
                | None => (0, 0, s3, false)
                end
            | _ => (0, 0, s2, true)
            end in
          if ok && in_range 0 m 59 && in_range 0 sec 59
             && (in_range 0 h 23 || (h =? 24) && (m =? 0) && (sec =? 0) && (ms =? 0))
          then
            match parse_offset s4 with
            | Some off => Some (((h * 60 + m) * 60 + sec) * 1000 + ms, off)
            | None => None
            end
          else None
      | None => None
      end
  | _ => None
  end.

(** [YYYY], [+YYYYYY] or [-YYYYYY] *)
Definition parse_year (s : string) : option (Z * string) :=
  match s with
  | String "+" s' => take_n_digits 6 0 s'
  | String "-" s' =>
      match take_n_digits 6 0 s' with
      | Some (y, r) => if y =? 0 then None else Some (- y, r)
      | None => None
      end
  | _ => take_n_digits 4 0 s
  end.

Definition clip (t : Z) : option Z :=
  if in_range (-8640000000000000) t 8640000000000000 then Some t else None.

Definition finish_date (y m d : Z) (rest : string) : option Z :=
  if in_range 1 m 12 && in_range 1 d 31 then
    match rest with
    | EmptyString => clip (days_from_civil y m d * msPerDay)
    | String "T" s =>
        match parse_time s with
        | Some (ms, off) =>
            let offset := match off with Some o => o | None => 0 end in
            clip (days_from_civil y m d * msPerDay + ms - offset * 60000)
        | None => None
        end
    | _ => None
    end
  else None.

Definition parse (s : string) : option Z :=
  match parse_year s with
  | Some (y, String "-" s1) =>
      match take_n_digits 2 0 s1 with
      | Some (m, String "-" s2) =>
          match take_n_digits 2 0 s2 with
          | Some (d, rest) => finish_date y m d rest
          | None => None
          end
      | Some (m, rest) => finish_date y m 1 rest
      | None => None
      end
  | Some (y, rest) => finish_date y 1 1 rest
  | None => None
  end.

(** The case mapping of Unicode 14.0, [UnicodeData.txt] and the
    unconditional mappings of [SpecialCasing.txt]. A simple mapping is
    given by range: the code points [lo], [lo + step], ... up to [hi]
    map to themselves plus [delta]. *)
Definition upper_ranges : list (Z * Z * Z * Z) :=
  [
   (97, 122, 1, -32); (181, 181, 1, 743); (224, 246, 1, -32); (248, 254, 1, -32);
   (255, 255, 1, 121); (257, 303, 2, -1); (305, 305, 1, -232); (307, 311, 2, -1);
   (314, 328, 2, -1); (331, 375, 2, -1); (378, 382, 2, -1); (383, 383, 1, -300);
   (384, 384, 1, 195); (387, 389, 2, -1); (392, 392, 1, -1); (396, 396, 1, -1);
   (402, 402, 1, -1); (405, 405, 1, 97); (409, 409, 1, -1); (410, 410, 1, 163);
   (414, 414, 1, 130); (417, 421, 2, -1); (424, 424, 1, -1); (429, 429, 1, -1);
   (432, 432, 1, -1); (436, 438, 2, -1); (441, 441, 1, -1); (445, 445, 1, -1);
   (447, 447, 1, 56); (453, 453, 1, -1); (454, 454, 1, -2); (456, 456, 1, -1);
   (457, 457, 1, -2); (459, 459, 1, -1); (460, 460, 1, -2); (462, 476, 2, -1);
   (477, 477, 1, -79); (479, 495, 2, -1); (498, 498, 1, -1); (499, 499, 1, -2);
   (501, 501, 1, -1); (505, 543, 2, -1); (547, 563, 2, -1); (572, 572, 1, -1);
   (575, 576, 1, 10815); (578, 578, 1, -1); (583, 591, 2, -1); (592, 592, 1, 10783);
   (593, 593, 1, 10780); (594, 594, 1, 10782); (595, 595, 1, -210); (596, 596, 1, -206);
   (598, 599, 1, -205); (601, 601, 1, -202); (603, 603, 1, -203); (604, 604, 1, 42319);
   (608, 608, 1, -205); (609, 609, 1, 42315); (611, 611, 1, -207); (613, 613, 1, 42280);
   (614, 614, 1, 42308); (616, 616, 1, -209); (617, 617, 1, -211); (618, 618, 1, 42308);
   (619, 619, 1, 10743); (620, 620, 1, 42305); (623, 623, 1, -211); (625, 625, 1, 10749);
   (626, 626, 1, -213); (629, 629, 1, -214); (637, 637, 1, 10727); (640, 640, 1, -218);
   (642, 642, 1, 42307); (643, 643, 1, -218); (647, 647, 1, 42282); (648, 648, 1, -218);
   (649, 649, 1, -69); (650, 651, 1, -217); (652, 652, 1, -71); (658, 658, 1, -219);
   (669, 669, 1, 42261); (670, 670, 1, 42258); (837, 837, 1, 84); (881, 883, 2, -1);
   (887, 887, 1, -1); (891, 893, 1, 130); (940, 940, 1, -38); (941, 943, 1, -37);
   (945, 961, 1, -32); (962, 962, 1, -31); (963, 971, 1, -32); (972, 972, 1, -64);
   (973, 974, 1, -63); (976, 976, 1, -62); (977, 977, 1, -57); (981, 981, 1, -47);
   (982, 982, 1, -54); (983, 983, 1, -8); (985, 1007, 2, -1); (1008, 1008, 1, -86);
   (1009, 1009, 1, -80); (1010, 1010, 1, 7); (1011, 1011, 1, -116); (1013, 1013, 1, -96);
   (1016, 1016, 1, -1); (1019, 1019, 1, -1); (1072, 1103, 1, -32); (1104, 1119, 1, -80);
   (1121, 1153, 2, -1); (1163, 1215, 2, -1); (1218, 1230, 2, -1); (1231, 1231, 1, -15);
   (1233, 1327, 2, -1); (1377, 1414, 1, -48); (4304, 4346, 1, 3008); (4349, 4351, 1, 3008);
   (5112, 5117, 1, -8); (7296, 7296, 1, -6254); (7297, 7297, 1, -6253); (7298, 7298, 1, -6244);
   (7299, 7300, 1, -6242); (7301, 7301, 1, -6243); (7302, 7302, 1, -6236); (7303, 7303, 1, -6181);
   (7304, 7304, 1, 35266); (7545, 7545, 1, 35332); (7549, 7549, 1, 3814); (7566, 7566, 1, 35384);
   (7681, 7829, 2, -1); (7835, 7835, 1, -59); (7841, 7935, 2, -1); (7936, 7943, 1, 8);
   (7952, 7957, 1, 8); (7968, 7975, 1, 8); (7984, 7991, 1, 8); (8000, 8005, 1, 8);
   (8017, 8023, 2, 8); (8032, 8039, 1, 8); (8048, 8049, 1, 74); (8050, 8053, 1, 86);
   (8054, 8055, 1, 100); (8056, 8057, 1, 128); (8058, 8059, 1, 112); (8060, 8061, 1, 126);
   (8112, 8113, 1, 8); (8126, 8126, 1, -7205); (8144, 8145, 1, 8); (8160, 8161, 1, 8);
   (8165, 8165, 1, 7); (8526, 8526, 1, -28); (8560, 8575, 1, -16); (8580, 8580, 1, -1);
   (9424, 9449, 1, -26); (11312, 11359, 1, -48); (11361, 11361, 1, -1); (11365, 11365, 1, -10795);
   (11366, 11366, 1, -10792); (11368, 11372, 2, -1); (11379, 11379, 1, -1); (11382, 11382, 1, -1);
   (11393, 11491, 2, -1); (11500, 11502, 2, -1); (11507, 11507, 1, -1); (11520, 11557, 1, -7264);
   (11559, 11559, 1, -7264); (11565, 11565, 1, -7264); (42561, 42605, 2, -1); (42625, 42651, 2, -1);
   (42787, 42799, 2, -1); (42803, 42863, 2, -1); (42874, 42876, 2, -1); (42879, 42887, 2, -1);
   (42892, 42892, 1, -1); (42897, 42899, 2, -1); (42900, 42900, 1, 48); (42903, 42921, 2, -1);
   (42933, 42947, 2, -1); (42952, 42954, 2, -1); (42961, 42961, 1, -1); (42967, 42969, 2, -1);
   (42998, 42998, 1, -1); (43859, 43859, 1, -928); (43888, 43967, 1, -38864); (65345, 65370, 1, -32);
   (66600, 66639, 1, -40); (66776, 66811, 1, -40); (66967, 67003, 2, -39); (66968, 66977, 1, -39);
   (66980, 66993, 1, -39); (66996, 67001, 1, -39); (67004, 67004, 1, -39); (68800, 68850, 1, -64);
   (71872, 71903, 1, -32); (93792, 93823, 1, -32); (125218, 125251, 1, -34)
  ].

(** The code points whose upper case is more than one code point. *)
Definition upper_special : list (Z * list Z) :=
  [
   (223, [83; 83]); (329, [700; 78]); (496, [74; 780]);
   (912, [921; 776; 769]); (944, [933; 776; 769]); (1415, [1333; 1362]);
   (7830, [72; 817]); (7831, [84; 776]); (7832, [87; 778]);
   (7833, [89; 778]); (7834, [65; 702]); (8016, [933; 787]);
   (8018, [933; 787; 768]); (8020, [933; 787; 769]); (8022, [933; 787; 834]);
   (8064, [7944; 921]); (8065, [7945; 921]); (8066, [7946; 921]);
   (8067, [7947; 921]); (8068, [7948; 921]); (8069, [7949; 921]);
   (8070, [7950; 921]); (8071, [7951; 921]); (8072, [7944; 921]);
   (8073, [7945; 921]); (8074, [7946; 921]); (8075, [7947; 921]);
   (8076, [7948; 921]); (8077, [7949; 921]); (8078, [7950; 921]);
   (8079, [7951; 921]); (8080, [7976; 921]); (8081, [7977; 921]);
   (8082, [7978; 921]); (8083, [7979; 921]); (8084, [7980; 921]);
   (8085, [7981; 921]); (8086, [7982; 921]); (8087, [7983; 921]);
   (8088, [7976; 921]); (8089, [7977; 921]); (8090, [7978; 921]);
   (8091, [7979; 921]); (8092, [7980; 921]); (8093, [7981; 921]);
   (8094, [7982; 921]); (8095, [7983; 921]); (8096, [8040; 921]);
   (8097, [8041; 921]); (8098, [8042; 921]); (8099, [8043; 921]);
   (8100, [8044; 921]); (8101, [8045; 921]); (8102, [8046; 921]);
   (8103, [8047; 921]); (8104, [8040; 921]); (8105, [8041; 921]);
   (8106, [8042; 921]); (8107, [8043; 921]); (8108, [8044; 921]);
   (8109, [8045; 921]); (8110, [8046; 921]); (8111, [8047; 921]);
   (8114, [8122; 921]); (8115, [913; 921]); (8116, [902; 921]);
   (8118, [913; 834]); (8119, [913; 834; 921]); (8124, [913; 921]);
   (8130, [8138; 921]); (8131, [919; 921]); (8132, [905; 921]);
   (8134, [919; 834]); (8135, [919; 834; 921]); (8140, [919; 921]);
   (8146, [921; 776; 768]); (8147, [921; 776; 769]); (8150, [921; 834]);
   (8151, [921; 776; 834]); (8162, [933; 776; 768]); (8163, [933; 776; 769]);
   (8164, [929; 787]); (8166, [933; 834]); (8167, [933; 776; 834]);
   (8178, [8186; 921]); (8179, [937; 921]); (8180, [911; 921]);
   (8182, [937; 834]); (8183, [937; 834; 921]); (8188, [937; 921]);
   (64256, [70; 70]); (64257, [70; 73]); (64258, [70; 76]);
   (64259, [70; 70; 73]); (64260, [70; 70; 76]); (64261, [83; 84]);
   (64262, [83; 84]); (64275, [1348; 1350]); (64276, [1348; 1333]);
   (64277, [1348; 1339]); (64278, [1358; 1350]); (64279, [1348; 1341])
  ].

Definition upper_code_point (cp : Z) : list Z :=
  match find (fun e => fst e =? cp) upper_special with
  | Some (_, l) => l
  | None =>
      match find (fun r => let '(lo, hi, step, _) := r in
                           (lo <=? cp) && (cp <=? hi) && ((cp - lo) mod step =? 0))
              upper_ranges with
      | Some (_, _, _, delta) => [cp + delta]
      | None => [cp]
      end
  end.

(** [s.toUpperCase()], code point by code point; a byte that is not
    part of a UTF-8 sequence stays. *)
Fixpoint upper_case (s : string) : string :=
  match code_point_at s, s with
  | Some (cp, 1%nat), String _ r => utf8 (upper_code_point cp) ++ upper_case r
  | Some (cp, 2%nat), String _ (String _ r) => utf8 (upper_code_point cp) ++ upper_case r
  | Some (cp, 3%nat), String _ (String _ (String _ r)) =>
      utf8 (upper_code_point cp) ++ upper_case r
  | Some (cp, 4%nat), String _ (String _ (String _ (String _ r))) =>
      utf8 (upper_code_point cp) ++ upper_case r
  | _, String c r => String c (upper_case r)
  | _, EmptyString => EmptyString
  end.

Definition year (t : Z) : Z := fst (fst (civil_from_days (t / msPerDay))).
Definition month (t : Z) : Z := snd (fst (civil_from_days (t / msPerDay))) - 1.
Definition day (t : Z) : Z := snd (civil_from_days (t / msPerDay)).
Definition weekday (t : Z) : Z := (t / msPerDay + 4) mod 7.

Definition weekday_name (w : Z) : string :=
  nth (Z.to_nat w)
    ["Sunday"; "Monday"; "Tuesday"; "Wednesday"; "Thursday"; "Friday"; "Saturday"] "".

Definition month_name (m : Z) : string :=
  nth (Z.to_nat m)
    ["January"; "February"; "March"; "April"; "May"; "June"; "July"; "August";
     "September"; "October"; "November"; "December"] "".

Definition long_date (t : Z) : string :=
  weekday_name (weekday t) ++ ", " ++ month_name (month t) ++ " "
  ++ string_of_Z (day t) ++ ", " ++ string_of_Z (year t).

Definition hour_minute (t : Z) : string :=
  let ms := t mod msPerDay in
  padStart2 (string_of_Z (ms / 3600000)) ++ ":"
  ++ padStart2 (string_of_Z ((ms / 60000) mod 60)).

#[export] Instance host : Host := {|
  Date_parse := parse;
  YearFromLocalTime := year;
  MonthFromLocalTime := month;
  formatLongDate := long_date;
  formatHourMinute := hour_minute;
  toUpperCase := upper_case
|}.

End RefHost.

(** ** Characterisations used by the statements below *)

Section Characterisations.
Context `{Host}.

(** A record is upcoming at [now_] when it has a date and that date
    is later than [now_]. *)
Definition is_upcoming (now_ : Date) (r : JsObj) : bool :=
  truthy (prop r "date") && date_gt (newDate (prop r "date")) now_.

(** A record is completed at [now_] when it has a date and that date
    is not later than [now_]. *)
Definition is_completed (now_ : Date) (r : JsObj) : bool :=
  truthy (prop r "date") && negb (date_gt (newDate (prop r "date")) now_).

(** The numeric values of the rates of the jobs that have one. *)
Definition rate_terms (l : list JsObj) : list float :=
  flat_map (fun job => if truthy (prop job "rate")
                       then [parseFloat_or_0 (prop job "rate")] else []) l.

(** The left-to-right sum of doubles. *)
Definition float_sum_from (acc : float) (l : list float) : float :=
  fold_left PrimFloat.add l acc.

Definition float_sum (l : list float) : float := float_sum_from zero l.

(** The state of the jobs loop after the jobs [l], from [st]. *)
Definition jobs_loop_result (now_ : Date) (st : JobsLoop) (l : list JsObj) : JobsLoop :=
  {| jl_section := jl_section st ++ String.concat "" (map job_block l);
     jl_totalEarnings := float_sum_from (jl_totalEarnings st) (rate_terms l);
     jl_upcomingJobs := jl_upcomingJobs st + List.length (filter (is_upcoming now_) l);
     jl_completedJobs := jl_completedJobs st + List.length (filter (is_completed now_) l) |}.

Definition jobs_loop_start (n : nat) : JobsLoop :=
  {| jl_section := "JOBS (" ++ string_of_nat n ++ " total):" ++ nl;
     jl_totalEarnings := zero; jl_upcomingJobs := 0; jl_completedJobs := 0 |}.

(** The state of the statistics loop after the jobs [l], from [st]. *)
Definition stats_loop_result (now_ : Date) (st : StatsLoop) (l : list JsObj) : StatsLoop :=
  {| sl_totalIncome := float_sum_from (sl_totalIncome st) (rate_terms l);
     sl_upcomingJobs := sl_upcomingJobs st + List.length (filter (is_upcoming now_) l);
     sl_completedJobs := sl_completedJobs st + List.length (filter (is_completed now_) l) |}.

Definition stats_loop_start : StatsLoop :=
  {| sl_totalIncome := zero; sl_upcomingJobs := 0; sl_completedJobs := 0 |}.

End Characterisations.

(** A header line that names the number [n]. *)
Definition header_has_count (section : string) (n : nat) : bool :=
  includes (string_of_nat n) (first_line section).

Definition has_no_newline (s : string) : bool := negb (includes nl s).


(** [`TITLE (${n} total):`] *)
Definition counted_header (title : string) (n : nat) : string :=
  title ++ " (" ++ string_of_nat n ++ " total):".

(** The nine section labels of the template. *)
Definition section_labels : list string :=
  ["JOBS DATA:"; "EVENTS DATA:"; "AI JOBS DATA:"; "AGENCIES DATA:"; "AGENTS DATA:";
   "MEETINGS DATA:"; "ON STAYS DATA:"; "SHOOTINGS DATA:"; "STATISTICS:"].

(** The bundle [{ jobs: js, events: es }]. *)
Definition jobs_events_bundle (js es : Nullable JsArray) : Bundle :=
  {| userProfile := Undefined; jobs := js; events := es;
     aiJobs := Undefined; agencies := Undefined; agents := Undefined;
     meetings := Undefined; onStays := Undefined; shootings := Undefined |}.

(** The text of a completion, empty when it throws. *)
Definition text_of (c : completion string) : string :=
  match c with
  | Normal s => s
  | Throw => ""
  end.


Section HistogramCharacterisation.
Context `{Host}.

(** The histogram after the records [l], from [h]: every record with
    a date adds one to the key of its month. *)
Definition month_histogram_from (h : Histogram) (l : list JsObj) : Histogram :=
  fold_left (fun acc r =>
               if truthy (prop r "date")
               then increment (monthKey (newDate (prop r "date"))) acc
               else acc) l h.

End HistogramCharacterisation.


(** [x] is finite and smaller than 10^21 in magnitude. *)
Definition fixed_range (x : float) : bool :=
  match Prim2SF x with
  | S754_zero _ => true
  | S754_finite _ m e =>
      let '(num, den) := JsNumber.exact_ratio m e in
      negb (den * 10 ^ 21 <=? num)
  | _ => false
  end.

(** [s] is an optional minus sign, one or more digits, a point and
    exactly two digits. *)
Definition two_decimals (s : string) : Prop :=
  exists sign a b,
    s = sign ++ a ++ "." ++ b
    /\ (sign = "" \/ sign = "-")
    /\ a <> "" /\ all_digits a = true
    /\ all_digits b = true /\ String.length b = 2%nat.

(** A job whose only property is its rate. *)
Definition job_with_rate (rate : JsVal) : JsObj := [("rate", rate)].


(** The time value of an item's date (0 when invalid). *)
Definition item_ms (x : CalItem) : Z :=
  match item_date x with
  | Some t => t
  | None => 0
  end.

(** The item's date is the instant [t]. *)
Definition dated (t : Z) (x : CalItem) : bool :=
  match item_date x with
  | Some u => u =? t
  | None => false
  end.

Section CalendarCharacterisation.
Context `{Host}.

(** The items of the upcoming records of one category, in the order
    of the records. *)
Definition upcoming_items (mk : JsObj -> Date -> CalItem) (now_ : Date)
  (l : list JsObj) : list CalItem :=
  map (fun r => mk r (newDate (prop r "date"))) (filter (is_upcoming now_) l).

(** The merged list before sorting: the upcoming jobs, then the
    upcoming events, then the upcoming meetings. *)
Definition merged_upcoming (now_ : Date) (js es ms : list JsObj) : list CalItem :=
  (upcoming_items job_item now_ js
   ++ upcoming_items event_item now_ es
   ++ upcoming_items meeting_item now_ ms)%list.

End CalendarCharacterisation.


(** [m] reads the clock at most [k] times: started after [n] readings
    it makes between 0 and [k] more, and its outcome depends on those
    samples only. *)
Definition reads_at_most {A : Type} (k : nat) (m : M A) : Prop :=
  forall (c1 c2 : Clock) (n : nat),
    (forall i, (i < k)%nat -> c1 (n + i)%nat = c2 (n + i)%nat) ->
    m c1 n = m c2 n /\ (n <= snd (m c1 n) <= n + k)%nat.

(** The bundle [{ jobs: [{ date: "1970-01-02" }] }]. *)
Definition one_dated_job_bundle : Bundle :=
  jobs_events_bundle (Val [Some [("date", JStr "1970-01-02")]]) Undefined.


Section MonthCharacterisation.
Context `{Host}.

(** The record has a date whose month key is [k]. *)
Definition in_month (k : string) (r : JsObj) : bool :=
  truthy (prop r "date") && String.eqb (monthKey (newDate (prop r "date"))) k.

End MonthCharacterisation.

(** Three records of one date, one per calendar category. *)
Definition same_day_job : JsObj := [("date", JStr "2030-01-01"); ("clientName", JStr "J")].
Definition same_day_event : JsObj := [("date", JStr "2030-01-01"); ("clientName", JStr "E")].
Definition same_day_meeting : JsObj := [("date", JStr "2030-01-01"); ("clientName", JStr "M")].


(** ** Null elements and failures *)

(** An element that is null or undefined. *)
Definition is_null_element (e : option JsObj) : bool :=
  match e with
  | None => true
  | Some _ => false
  end.

(** The array holds a null or undefined element. *)
Definition has_null (l : JsArray) : bool := existsb is_null_element l.

(** The records of an array, its null elements left out. *)
Fixpoint objects (l : JsArray) : list JsObj :=
  match l with
  | [] => []
  | Some o :: l' => o :: objects l'
  | None :: l' => objects l'
  end.

Definition is_null {A : Type} (x : Nullable A) : bool :=
  match x with
  | Null => true
  | _ => false
  end.

(** Some formatter of the bundle meets a null element: one anywhere in
    jobs, agencies or agents, or one within the cap of the others. *)
Definition formatter_fails (b : Bundle) : bool :=
  has_null (elements (jobs b))
  || has_null (firstn 20 (elements (events b)))
  || has_null (firstn 5 (elements (aiJobs b)))
  || has_null (elements (agencies b))
  || has_null (elements (agents b))
  || has_null (firstn 10 (elements (meetings b)))
  || has_null (firstn 10 (elements (onStays b)))
  || has_null (firstn 10 (elements (shootings b))).

(** The clock readings of the jobs formatter. *)
Definition jobs_reads (js : Nullable JsArray) : nat :=
  if none_or_empty js then 0 else 1.

Definition generic_error_line : string := "Error gathering user data. Please try again.".
Section ExpectedSections.
Context `{Host}.

(** What each formatter returns for the bundle [b], the jobs formatter
    started after [n] clock readings and the statistics and the calendar
    after it. *)
Definition sections_of (b : Bundle) (clock : Clock) (n : nat) : Sections :=
  let r := jobs_reads (jobs b) in
  {| userProfileSection := _buildUserProfileSection (default_to [] (userProfile b));
     jobsSection := text_of (fst (_buildJobsSection (jobs b) clock n));
     eventsSection := text_of (_buildEventsSection (events b));
     aiJobsSection := text_of (_buildAiJobsSection (aiJobs b));
     agenciesSection := text_of (_buildAgenciesSection (agencies b));
     agentsSection := text_of (_buildAgentsSection (agents b));
     meetingsSection := text_of (_buildMeetingsSection (meetings b));
     onStaysSection := text_of (_buildOnStaysSection (onStays b));
     shootingsSection := text_of (_buildShootingsSection (shootings b));
     statistics := text_of (fst (_calculateStatistics (jobs b) (events b) clock (n + r)%nat));
     calendarSummary :=
       text_of (fst (_getCalendarSummary (jobs b) (events b) (meetings b) clock (n + r + 1)%nat)) |}.

End ExpectedSections.

(** The statistics cannot be computed: a collection is null or holds a
    null element. *)
Definition statistics_fails (js es : Nullable JsArray) : bool :=
  is_null js || is_null es || has_null (elements js) || has_null (elements es).

Definition statistics_error_line : string := "STATISTICS: Error calculating statistics.".

Definition calendar_error_line : string := "UPCOMING CALENDAR: Error loading calendar data.".

(** The record has a date. *)
Definition has_date (r : JsObj) : bool := truthy (prop r "date").

(** ** The chat and context endpoints (server.js)

    The handlers of [/api/chat], [/api/context] and
    [/api/chat-with-context]. A request body is the object parsed from
    JSON. [message], [context] and the properties of a conversation
    entry other than [userData] are any JSON values: primitives, arrays
    or objects. [conversation] is an array, [null] or absent, and its
    entries are [null] or objects; an entry that is neither reads as the
    object of its own properties. A [userData] value that is falsy is
    [null]; one that is truthy is given by the collections it holds under
    the recognised keys and by the number of its other keys (the keys of
    an array or of a string are its indices, a number or [true] has
    none). The OpenAI client is an oracle answering one request with a
    completion, of which the handlers read
    [choices[0]?.message?.content], [usage] and [model], or with a thrown
    error, of which they read [code] and [message]; the handlers' effects
    are the clock readings and the requests sent to the client. *)

(** [String(n).padStart(k, '0')] on the digits of [z]. *)
Definition pad_zeros (k : nat) (z : Z) : string :=
  let s := string_of_Z z in repeat_string (k - String.length s) "0" ++ s.

(** [new Date(t).toISOString()] for a valid time value. *)
Definition toISOString (t : Z) : string :=
  let '(y, m, d) := RefHost.civil_from_days (t / RefHost.msPerDay) in
  let ms := t mod RefHost.msPerDay in
  let year :=
    if (0 <=? y) && (y <=? 9999) then pad_zeros 4 y
    else (if y <? 0 then "-" else "+") ++ pad_zeros 6 (Z.abs y) in
  year ++ "-" ++ pad_zeros 2 m ++ "-" ++ pad_zeros 2 d
  ++ "T" ++ pad_zeros 2 (ms / 3600000) ++ ":" ++ pad_zeros 2 ((ms / 60000) mod 60)
  ++ ":" ++ pad_zeros 2 ((ms / 1000) mod 60) ++ "." ++ pad_zeros 3 (ms mod 1000) ++ "Z".

(** A value of a request body. *)
#[local] Unset Elimination Schemes.
Inductive Json : Type :=
| JPrim (v : JsVal)
| JArr (elements : list Json)
| JObj (fields : list (string * Json)).
#[local] Set Elimination Schemes.

(** [Boolean(j)] *)
Definition truthy_json (j : Json) : bool :=
  match j with
  | JPrim v => truthy v
  | _ => true
  end.

(** [o.k] on the properties of a parsed object. *)
Fixpoint json_prop (o : list (string * Json)) (k : string) : Json :=
  match o with
  | [] => JPrim JUndefined
  | (k', v) :: o' => if String.eqb k k' then v else json_prop o' k
  end.

(** A [userData] object: the recognised collections and the number of
    its other keys. *)
Record UserData : Type := {
  ud_bundle : Bundle;
  ud_other_keys : nat
}.

(** A key of a parsed object is present unless its value is [undefined]. *)
Definition present {A : Type} (x : Nullable A) : nat :=
  match x with
  | Undefined => 0
  | _ => 1
  end.

(** [Object.keys(userData).length] *)
Definition key_count (u : UserData) : nat :=
  let b := ud_bundle u in
  (present (userProfile b) + present (jobs b) + present (events b) + present (aiJobs b)
   + present (agencies b) + present (agents b) + present (meetings b)
   + present (onStays b) + present (shootings b) + ud_other_keys u)%nat.

(** [userData && Object.keys(userData).length > 0] *)
Definition has_keys (userData : Nullable UserData) : bool :=
  match userData with
  | Val u => Nat.ltb 0 (key_count u)
  | _ => false
  end.

(** The truthiness of a value that is an object, [null] or absent. *)
Definition is_object {A : Type} (x : Nullable A) : bool :=
  match x with
  | Val _ => true
  | _ => false
  end.

(** An entry of [conversation]: its properties ([role], [content],
    [message], [context]) and its [userData]. *)
Record ConvMsg : Type := {
  msg_fields : list (string * Json);
  msg_userData : Nullable UserData
}.

Definition Conversation : Type := list (option ConvMsg).

(** The default [= null] of a destructured property. *)
Definition null_if_absent {A : Type} (x : Nullable A) : Nullable A :=
  match x with
  | Undefined => Null
  | _ => x
  end.

Definition null_if_undefined (v : Json) : Json :=
  match v with
  | JPrim JUndefined => JPrim JNull
  | _ => v
  end.

(** The body of a chat request. *)
Record ChatRequest : Type := {
  req_message : Json;
  req_conversation : Nullable Conversation;
  req_userData : Nullable UserData;
  req_context : Json
}.

(** A message sent to the model. *)
Record ChatMessage : Type := {
  cm_role : Json;
  cm_content : Json
}.

(** What a handler can throw or catch. *)
Inductive JsError : Type :=
| TypeError (site : string)
| PlainError (message : string)
| ApiError (code message : JsVal).

Inductive outcome (A : Type) : Type :=
| Ok (a : A)
| Raise (e : JsError).
Arguments Ok {A} a.
Arguments Raise {A} e.

(** The environment of the process. *)
Record Env : Type := {
  env_api_key : bool;
  env_openai : bool;
  env_development : bool
}.

Definition fallback_context : string :=
  "You are ModelDay AI, a helpful assistant for the ModelDay platform." ++ nl
  ++ nl ++ "IMPORTANT CONTEXT LIMITATIONS:" ++ nl
  ++ "- You currently have NO ACCESS to the user's personal modeling data (jobs, events, bookings, etc.)" ++ nl
  ++ "- You cannot provide specific insights about their career, earnings, or schedule" ++ nl
  ++ "- You cannot analyze their booking patterns, agent relationships, or financial data" ++ nl
  ++ "- You should NOT make up or assume any personal information about the user" ++ nl
  ++ nl ++ "What you CAN help with:" ++ nl
  ++ "1. General modeling industry advice and guidance" ++ nl
  ++ "2. Portfolio creation tips and best practices" ++ nl
  ++ "3. Career development strategies in fashion and modeling" ++ nl
  ++ "4. Industry insights and trends" ++ nl
  ++ "5. Professional networking advice" ++ nl
  ++ "6. Casting preparation and audition tips" ++ nl
  ++ "7. General business advice for models" ++ nl
  ++ nl ++ "If the user asks about their specific data, politely explain that you need access to their ModelDay account data to provide personalized insights. Suggest they ensure their data is properly synced or contact support if needed." ++ nl
  ++ nl ++ "Be professional, encouraging, and provide practical general advice while being transparent about your current limitations.".

(** The eight counts of [dataStats]. *)
Record DataStats : Type := {
  ds_jobs : nat; ds_events : nat; ds_aiJobs : nat; ds_agencies : nat;
  ds_agents : nat; ds_meetings : nat; ds_onStays : nat; ds_shootings : nat
}.

(** [x?.length || 0] *)
Definition length_or_0 {A : Type} (x : Nullable (list A)) : nat := List.length (elements x).

Section Endpoints.
Context `{Host}.

(** The type of [completion.usage], the text of the engine's
    [TypeError] raised at a given expression, and the OpenAI client. *)
Variable Usage : Type.
Variable engine_text : string -> string.

Inductive ApiResult : Type :=
| Completion (content : JsVal) (usage : Usage) (model : JsVal)
| Failure (code message : JsVal).

Variable openai_create : list ChatMessage -> ApiResult.

(** The JSON body of a response. The constant members ([success: true],
    [dataFormat], [usage] hints) are not listed. *)
Inductive Body : Type :=
| ErrorBody (error code : string) (message : option JsVal)
| ChatBody (response : JsVal) (usage : Usage) (model : JsVal) (timestamp : string)
    (hasUserData contextLimited : bool) (contextSource : string)
| ContextBody (context : string) (timestamp : string) (dataStats : DataStats)
| Redirect (location : string).

Record Response : Type := {
  res_status : nat;
  res_body : Body
}.

(** The effects of a handler so far: the number of clock readings and
    the requests sent to the model, oldest first. *)
Record World : Type := {
  w_reads : nat;
  w_calls : list (list ChatMessage)
}.

Definition Handler (A : Type) : Type := Clock -> World -> outcome A * World.

Definition hret {A : Type} (a : A) : Handler A := fun _ w => (Ok a, w).

Definition hraise {A : Type} (e : JsError) : Handler A := fun _ w => (Raise e, w).

Definition hbind {A B : Type} (m : Handler A) (k : A -> Handler B) : Handler B :=
  fun clock w =>
    match m clock w with
    | (Ok a, w') => k a clock w'
    | (Raise e, w') => (Raise e, w')
    end.

Definition hlift {A : Type} (o : outcome A) : Handler A := fun _ w => (o, w).

(** A call into [ContextService]. *)
Definition run {A : Type} (m : M A) : Handler A :=
  fun clock w =>
    match m clock (w_reads w) with
    | (Normal a, n) => (Ok a, {| w_reads := n; w_calls := w_calls w |})
    | (Throw, n) => (Raise (TypeError "ContextService"), {| w_reads := n; w_calls := w_calls w |})
    end.

(** [new Date().toISOString()] *)
Definition timestamp_now : Handler string :=
  fun clock w =>
    (Ok (toISOString (clock (w_reads w))),
     {| w_reads := S (w_reads w); w_calls := w_calls w |}).

(** [await openai.chat.completions.create({ ..., messages })] *)
Definition create (messages : list ChatMessage) : Handler (JsVal * Usage * JsVal) :=
  fun _ w =>
    let w' := {| w_reads := w_reads w; w_calls := (w_calls w ++ [messages])%list |} in
    match openai_create messages with
    | Completion content usage model => (Ok (content, usage, model), w')
    | Failure code message => (Raise (ApiError code message), w')
    end.

(** [context && typeof context === 'string' && context.trim().length > 0] *)
Definition usable_context (context : Json) : bool :=
  match context with
  | JPrim (JStr s) => negb (all_space s)
  | _ => false
  end.

(** [msg.userData || msg.context] *)
Definition carries_context (m : ConvMsg) : bool :=
  is_object (msg_userData m) || truthy_json (json_prop (msg_fields m) "context").

(** [conversation.find(msg => msg.userData || msg.context)] *)
Fixpoint find_context_message (l : Conversation) : outcome (option ConvMsg) :=
  match l with
  | [] => Ok None
  | None :: _ => Raise (TypeError "msg.userData")
  | Some m :: l' => if carries_context m then Ok (Some m) else find_context_message l'
  end.

(** The choice of the system context, [undefined] when none is found. *)
Definition select_context (context : Json) (userData : Nullable UserData)
  (conversation : Nullable Conversation) : Handler Json :=
  if usable_context context then hret context
  else if has_keys userData then
    match userData with
    | Val u =>
        hbind (run (buildUserContext (Val (ud_bundle u)))) (fun s => hret (JPrim (JStr s)))
    | _ => hret (JPrim JUndefined)
    end
  else
    match conversation with
    | Val ((_ :: _) as l) =>
        hbind (hlift (find_context_message l)) (fun found =>
          match found with
          | Some m =>
              match msg_userData m with
              | Val u =>
                  hbind (run (buildUserContext (Val (ud_bundle u))))
                    (fun s => hret (JPrim (JStr s)))
              | _ =>
                  if truthy_json (json_prop (msg_fields m) "context")
                  then hret (json_prop (msg_fields m) "context")
                  else hret (JPrim JUndefined)
              end
          | None => hret (JPrim JUndefined)
          end)
    | _ => hret (JPrim JUndefined)
    end.

(** [{ role: msg.role || 'user', content: msg.content || msg.message }] *)
Definition chat_message_of (m : ConvMsg) : ChatMessage :=
  {| cm_role := if truthy_json (json_prop (msg_fields m) "role")
                then json_prop (msg_fields m) "role"
                else JPrim (JStr "user");
     cm_content := if truthy_json (json_prop (msg_fields m) "content")
                   then json_prop (msg_fields m) "content"
                   else json_prop (msg_fields m) "message" |}.

(** [conversation.map(msg => ...)] *)
Fixpoint map_conversation (l : Conversation) : outcome (list ChatMessage) :=
  match l with
  | [] => Ok []
  | None :: _ => Raise (TypeError "msg.role")
  | Some m :: l' =>
      match map_conversation l' with
      | Ok ms => Ok (chat_message_of m :: ms)
      | Raise e => Raise e
      end
  end.

Definition prepare_messages (systemContext : Json) (conversation : Nullable Conversation)
  (message : Json) : outcome (list ChatMessage) :=
  match conversation with
  | Val l =>
      match map_conversation l with
      | Ok ms =>
          Ok ({| cm_role := JPrim (JStr "system"); cm_content := systemContext |} :: ms
              ++ [{| cm_role := JPrim (JStr "user"); cm_content := message |}])%list
      | Raise e => Raise e
      end
  | _ => Raise (TypeError "conversation.map")
  end.

(** The element is the string ['USER PROFILE:']. *)
Definition is_profile_label (j : Json) : bool :=
  match j with
  | JPrim (JStr s) => String.eqb s "USER PROFILE:"
  | _ => false
  end.

(** [v && v.includes('USER PROFILE:')]: a string is searched for the
    text and an array for an element equal to it; a number, [true] and an
    object have no method [includes], and the call throws. *)
Definition mentions_profile (v : Json) : outcome bool :=
  if truthy_json v then
    match v with
    | JPrim (JStr s) => Ok (includes "USER PROFILE:" s)
    | JArr elements => Ok (existsb is_profile_label elements)
    | _ => Raise (TypeError "context.includes")
    end
  else Ok false.

(** [conversation.some(msg => msg.userData ||
    (msg.context && msg.context.includes('USER PROFILE:')))] *)
Fixpoint some_has_data (l : Conversation) : outcome bool :=
  match l with
  | [] => Ok false
  | None :: _ => Raise (TypeError "msg.userData")
  | Some m :: l' =>
      if is_object (msg_userData m) then Ok true
      else match mentions_profile (json_prop (msg_fields m) "context") with
           | Ok true => Ok true
           | Ok false => some_has_data l'
           | Raise e => Raise e
           end
  end.

(** The value of [hasUserData]. It is computed after [conversation.map]
    has returned, so [conversation] is an array and the value is a
    boolean. *)
Definition has_user_data (userData : Nullable UserData) (context : Json)
  (conversation : Nullable Conversation) : outcome bool :=
  if has_keys userData then Ok true
  else match mentions_profile context with
       | Ok true => Ok true
       | Ok false =>
           match conversation with
           | Val l => some_has_data l
           | _ => Ok false
           end
       | Raise e => Raise e
       end.

(** [conversation.some(msg => msg.userData || msg.context)] *)
Fixpoint some_carries_context (l : Conversation) : outcome bool :=
  match l with
  | [] => Ok false
  | None :: _ => Raise (TypeError "msg.userData")
  | Some m :: l' => if carries_context m then Ok true else some_carries_context l'
  end.

(** The value of [contextSource]. *)
Definition context_source (context : Json) (userData : Nullable UserData)
  (conversation : Nullable Conversation) : outcome string :=
  if truthy_json context then Ok "pre-built"
  else if is_object userData then Ok "userData"
  else match conversation with
       | Val l =>
           match some_carries_context l with
           | Ok true => Ok "conversation"
           | Ok false => Ok "fallback"
           | Raise e => Raise e
           end
       | _ => Raise (TypeError "conversation.some")
       end.

Definition error_code (e : JsError) : JsVal :=
  match e with
  | ApiError code _ => code
  | _ => JUndefined
  end.

Definition error_message (e : JsError) : JsVal :=
  match e with
  | TypeError site => JStr (engine_text site)
  | PlainError message => JStr message
  | ApiError _ message => message
  end.

(** [v === 'text'] *)
Definition is_string (v : JsVal) (text : string) : bool :=
  match v with
  | JStr s => String.eqb s text
  | _ => false
  end.

(** The [catch] block shared by the endpoints that call the model, with
    the code of its last resort. *)
Definition error_response (env : Env) (last_code : string) (e : JsError) : Response :=
  if is_string (error_code e) "insufficient_quota" then
    {| res_status := 429;
       res_body := ErrorBody "API quota exceeded. Please try again later." "QUOTA_EXCEEDED" None |}
  else if is_string (error_code e) "invalid_api_key" then
    {| res_status := 401; res_body := ErrorBody "Invalid API key" "INVALID_API_KEY" None |}
  else if is_string (error_code e) "rate_limit_exceeded" then
    {| res_status := 429;
       res_body := ErrorBody "Rate limit exceeded. Please try again later."
                     "RATE_LIMIT_EXCEEDED" None |}
  else
    {| res_status := 500;
       res_body := ErrorBody "Internal server error" last_code
                     (Some (if env_development env then error_message e
                            else JStr "Something went wrong")) |}.

(** The [try] block of [/api/chat] after the two checks. *)
Definition chat_body (message context : Json) (userData : Nullable UserData)
  (conversation : Nullable Conversation) : Handler Response :=
  hbind (select_context context userData conversation) (fun selected =>
  let systemContext :=
    if truthy_json selected then selected else JPrim (JStr fallback_context) in
  hbind (hlift (prepare_messages systemContext conversation message)) (fun messages =>
  hbind (create messages) (fun completion =>
  let '(aiResponse, usage, model) := completion in
  if negb (truthy aiResponse) then hraise (PlainError "No response from OpenAI")
  else
    hbind (hlift (has_user_data userData context conversation)) (fun hasUserData =>
    let contextLimited := negb hasUserData in
    hbind timestamp_now (fun timestamp =>
    hbind (hlift (context_source context userData conversation)) (fun contextSource =>
    hret {| res_status := 200;
            res_body := ChatBody aiResponse usage model timestamp hasUserData
                          contextLimited contextSource |})))))).

(** [app.post('/api/chat', ...)] *)
Definition chat_handler (env : Env) (req : ChatRequest) (clock : Clock) (w : World)
  : Response * World :=
  let message := req_message req in
  let conversation := default_to [] (req_conversation req) in
  let userData := null_if_absent (req_userData req) in
  let context := null_if_undefined (req_context req) in
  if negb (truthy_json message) then
    ({| res_status := 400; res_body := ErrorBody "Message is required" "MISSING_MESSAGE" None |},
     w)
  else if negb (env_api_key env) || negb (env_openai env) then
    ({| res_status := 500;
        res_body := ErrorBody "OpenAI API key not configured" "MISSING_API_KEY" None |},
     w)
  else
    match chat_body message context userData conversation clock w with
    | (Ok response, w') => (response, w')
    | (Raise e, w') => (error_response env "INTERNAL_ERROR" e, w')
    end.

(** [app.post('/api/context', ...)] *)
Definition context_handler (env : Env) (userData : Nullable UserData) (clock : Clock)
  (w : World) : Response * World :=
  match userData with
  | Val u =>
      let b := ud_bundle u in
      match hbind (run (buildUserContext (Val b))) (fun context =>
            hbind timestamp_now (fun timestamp =>
            hret {| res_status := 200;
                    res_body := ContextBody context timestamp
                      {| ds_jobs := length_or_0 (jobs b);
                         ds_events := length_or_0 (events b);
                         ds_aiJobs := length_or_0 (aiJobs b);
                         ds_agencies := length_or_0 (agencies b);
                         ds_agents := length_or_0 (agents b);
                         ds_meetings := length_or_0 (meetings b);
                         ds_onStays := length_or_0 (onStays b);
                         ds_shootings := length_or_0 (shootings b) |} |})) clock w with
      | (Ok response, w') => (response, w')
      | (Raise e, w') =>
          ({| res_status := 500;
              res_body := ErrorBody "Internal server error" "CONTEXT_ERROR"
                            (Some (if env_development env then error_message e
                                   else JStr "Something went wrong")) |}, w')
      end
  | _ =>
      ({| res_status := 400;
          res_body := ErrorBody "User data is required" "MISSING_USER_DATA" None |}, w)
  end.

(** [app.post('/api/chat-with-context', ...)] *)
Definition chat_with_context_handler (env : Env) (message : Json)
  (userData : Nullable UserData) (clock : Clock) (w : World) : Response * World :=
  if negb (truthy_json message) then
    ({| res_status := 400; res_body := ErrorBody "Message is required" "MISSING_MESSAGE" None |},
     w)
  else
    match userData with
    | Val u =>
        match run (buildUserContext (Val (ud_bundle u))) clock w with
        | (Ok _, w') => ({| res_status := 307; res_body := Redirect "/api/chat" |}, w')
        | (Raise e, w') =>
            ({| res_status := 500;
                res_body := ErrorBody "Internal server error" "CHAT_CONTEXT_ERROR"
                              (Some (if env_development env then error_message e
                                     else JStr "Something went wrong")) |}, w')
        end
    | _ =>
        ({| res_status := 400;
            res_body := ErrorBody "User data is required for this endpoint"
                          "MISSING_USER_DATA" None |}, w)
    end.

End Endpoints.

Arguments Completion {Usage} content usage model.
Arguments Failure {Usage} code message.
Arguments ErrorBody {Usage} error code message.
Arguments ChatBody {Usage} response usage model timestamp hasUserData contextLimited
  contextSource.
Arguments ContextBody {Usage} context timestamp dataStats.
Arguments Redirect {Usage} location.
Arguments Build_Response {Usage} res_status res_body.
Arguments res_status {Usage} r.
Arguments res_body {Usage} r.

(** The two messages that frame a conversation. *)
Definition system_message (content : Json) : ChatMessage :=
  {| cm_role := JPrim (JStr "system"); cm_content := content |}.

Definition user_message (content : Json) : ChatMessage :=
  {| cm_role := JPrim (JStr "user"); cm_content := content |}.

(** ** Sample requests

    A configured server whose client answers [Hello] to every request,
    and a world in which nothing has happened yet. *)

Definition sample_env : Env :=
  {| env_api_key := true; env_openai := true; env_development := true |}.

Definition sample_engine_text (site : string) : string := site ++ " is not a function".

Definition hello_client (messages : list ChatMessage) : ApiResult unit :=
  Completion (JStr "Hello") tt (JStr "gpt-3.5-turbo").

Definition fresh_world : World := {| w_reads := 0; w_calls := [] |}.

Definition epoch_clock : Clock := fun _ => 0.

(** The request [{ message: "Hi" }]. *)
Definition bare_request : ChatRequest :=
  {| req_message := JPrim (JStr "Hi"); req_conversation := Undefined;
     req_userData := Undefined; req_context := JPrim JUndefined |}.

(** The [userData] object [{ jobs: [{ date: "1970-01-02" }] }]. *)
Definition sample_user : UserData :=
  {| ud_bundle := one_dated_job_bundle; ud_other_keys := 0 |}.

(** The object [{}]. *)
Definition empty_user : UserData := {| ud_bundle := empty_bundle; ud_other_keys := 0 |}.

(** A conversation entry that carries a context. *)
Definition context_entry : ConvMsg :=
  {| msg_fields := [("role", JPrim (JStr "assistant")); ("content", JPrim (JStr "Welcome"));
                    ("context", JPrim (JStr "USER PROFILE: a model"))];
     msg_userData := Undefined |}.

(** * Properties *)

(** ** Strings *)

Lemma append_nil_r (s : string) : s ++ "" = s.
Proof. induction s as [|c s IH]; simpl; [reflexivity | now rewrite IH]. Qed.

Lemma append_assoc (a b c : string) : (a ++ b) ++ c = a ++ (b ++ c).
Proof. induction a as [|x a IH]; simpl; [reflexivity | now rewrite IH]. Qed.

Lemma length_append (a b : string) :
  String.length (a ++ b) = (String.length a + String.length b)%nat.
Proof. induction a as [|x a IH]; simpl; [reflexivity | now rewrite IH]. Qed.

Lemma concat_cons (x : string) (l : list string) :
  String.concat "" (x :: l) = x ++ String.concat "" l.
Proof.
  destruct l as [|y l]; simpl; [now rewrite append_nil_r | reflexivity].
Qed.

Lemma prefix_nil (s : string) : prefix "" s = true.
Proof. destruct s; reflexivity. Qed.

Lemma prefix_append (p s : string) : prefix p (p ++ s) = true.
Proof.
  induction p as [|c p IH]; [apply prefix_nil|].
  simpl. destruct (ascii_dec c c) as [_|N]; [exact IH | now elim N].
Qed.

Lemma includes_here (p s : string) : prefix p s = true -> includes p s = true.
Proof. intros E. destruct s; cbn [includes]; rewrite E; reflexivity. Qed.

Lemma includes_append_r (p a s : string) :
  includes p s = true -> includes p (a ++ s) = true.
Proof.
  intros Hs. induction a as [|c a IH]; [exact Hs|].
  cbn [append includes]. rewrite IH. now destruct (prefix p (String c (a ++ s))).
Qed.

Lemma includes_middle (p a b : string) : includes p (a ++ p ++ b) = true.
Proof. apply includes_append_r, includes_here, prefix_append. Qed.

(** ** Numbers and dates: sample values *)

Example toString_examples :
  map JsNumber.toString
    [1 / 10; 1 / 10 + 2 / 10; 1e21; 1e20; 2500; 1 / 3; -15 / 10; 1 / 10000000;
     9007199254740992; infinity; nan; neg_zero]%float
  = ["0.1"; "0.30000000000000004"; "1e+21"; "100000000000000000000"; "2500";
     "0.3333333333333333"; "-1.5"; "1e-7"; "9007199254740992"; "Infinity"; "NaN"; "0"].
Proof. vm_compute. reflexivity. Qed.

Example toFixed2_examples :
  map JsNumber.toFixed2
    [10500; 1005 / 1000; 8345 / 1000; 5 / 1000; -15 / 10; 0; -1 / 1000; 1e21; nan]%float
  = ["10500.00"; "1.00"; "8.35"; "0.01"; "-1.50"; "0.00"; "-0.00"; "1e+21"; "NaN"].
Proof. vm_compute. reflexivity. Qed.

Example parseFloat_examples :
  map JsNumber.parseFloat ["2500"; "  12abc"; ".5"; "5."; "-1.5e3x"; "1e"; "0x10"]
  = [2500; 12; 5 / 10; 5; -1500; 1; 0]%float
  /\ map (fun s => PrimFloat.is_nan (JsNumber.parseFloat s)) ["abc"; ""; "."; "+.e1"; "TBD"]
     = [true; true; true; true; true].
Proof. split; vm_compute; reflexivity. Qed.

Example Date_parse_examples :
  map RefHost.parse
    ["2025-08-15"; "1970-01-02"; "2025-08-05T10:00:00Z"; "2025-08-05T10:00+02:00";
     "not-a-date"; "2025-13-01"; ""]
  = [Some 1755216000000; Some 86400000; Some 1754388000000; Some 1754380800000;
     None; None; None].
Proof. vm_compute. reflexivity. Qed.

(** White space: a no-break space, a line separator and a byte order
    mark are trimmed; a zero width space and a next-line character are
    not. *)
Example white_space_examples :
  all_space (utf8 [9; 160; 5760; 8192; 8202; 8232; 8233; 8239; 8287; 12288; 65279; 32]) = true
  /\ map (fun cp => all_space (utf8 [cp])) [8203; 133; 6158; 65; 233] = repeat false 5
  /\ trim_start (utf8 [160; 65279; 10] ++ "a b") = "a b"
  /\ JsNumber.parseFloat (utf8 [160; 8232] ++ "12.5 USD") = (125 / 10)%float.
Proof. repeat split; vm_compute; reflexivity. Qed.

(** Case mapping on the reference host: [defile] with acute accents,
    [strasse] with a sharp s, a Greek and a Cyrillic word, a ligature and
    a Deseret letter. *)
Example toUpperCase_examples :
  map (fun text => RefHost.upper_case (utf8 text))
    [[100; 233; 102; 105; 108; 233]; [115; 116; 114; 97; 223; 101];
     [947; 949; 953; 945]; [1084; 1086; 1076; 1072]; [64257; 116]; [66600]; [101; 49; 46]]
  = map utf8
      [[68; 201; 70; 73; 76; 201]; [83; 84; 82; 65; 83; 83; 69];
       [915; 917; 921; 913]; [1052; 1054; 1044; 1040]; [70; 73; 84]; [66560]; [69; 49; 46]].
Proof. vm_compute. reflexivity. Qed.

(** ** Loops *)

Lemma forEach_append_block (block : JsObj -> string) (l : list JsObj) (s : string) :
  forEach (append_block block) (map Some l) s
  = Normal (s ++ String.concat "" (map block l)).
Proof.
  revert s. induction l as [|o l IH]; intros s.
  - simpl. now rewrite append_nil_r.
  - cbn [map forEach append_block the_object cbind].
    rewrite IH, concat_cons, append_assoc. reflexivity.
Qed.

Lemma forEach_null_element {S : Type} (f : S -> option JsObj -> completion S)
  (l1 : list JsObj) (l2 : list (option JsObj)) (s : S) :
  (forall s', f s' None = Throw) ->
  (forall s' o, exists s'', f s' (Some o) = Normal s'') ->
  forEach f (map Some l1 ++ None :: l2)%list s = Throw.
Proof.
  intros Hnull Hobj. revert s.
  induction l1 as [|o l1 IH]; intros s; simpl.
  - now rewrite Hnull.
  - destruct (Hobj s o) as [s'' ->]. apply IH.
Qed.

Lemma prefix_nl_cons (c : ascii) (t : string) :
  prefix nl (String c t) = Ascii.eqb c "010".
Proof.
  unfold nl. cbn [prefix].
  destruct (ascii_dec "010" c) as [<-|N].
  - now rewrite prefix_nil.
  - destruct (Ascii.eqb_spec c "010"); [now subst; elim N | reflexivity].
Qed.

Lemma no_newline_cons (c : ascii) (s : string) :
  has_no_newline (String c s) = (negb (Ascii.eqb c "010") && has_no_newline s)%bool.
Proof.
  unfold has_no_newline. cbn [includes]. rewrite prefix_nl_cons.
  now destruct (Ascii.eqb c "010").
Qed.

Lemma first_line_append (a b : string) :
  has_no_newline a = true -> first_line (a ++ nl ++ b) = a.
Proof.
  induction a as [|c a IH]; intros Hn; [reflexivity|].
  rewrite no_newline_cons in Hn. apply andb_true_iff in Hn as [Hc Ha].
  cbn [append first_line].
  destruct (Ascii.eqb c "010"); [discriminate|]. now rewrite IH.
Qed.

Lemma all_digits_append (a b : string) :
  all_digits a = true -> all_digits b = true -> all_digits (a ++ b) = true.
Proof.
  intros Ha Hb. induction a as [|c a IH]; [exact Hb|].
  simpl in *. apply andb_true_iff in Ha as [Hc Ha]. now rewrite Hc, IH.
Qed.

Lemma all_digits_no_newline (s : string) :
  all_digits s = true -> has_no_newline s = true.
Proof.
  induction s as [|c s IH]; intros Hd; [reflexivity|].
  simpl in Hd. apply andb_true_iff in Hd as [Hc Hs].
  rewrite no_newline_cons, IH by assumption.
  destruct (Ascii.eqb_spec c "010") as [->|_]; [discriminate | reflexivity].
Qed.

Lemma no_newline_append (a b : string) :
  has_no_newline a = true -> has_no_newline b = true -> has_no_newline (a ++ b) = true.
Proof.
  intros Ha Hb. induction a as [|c a IH]; [exact Hb|].
  cbn [append]. rewrite no_newline_cons in *.
  apply andb_true_iff in Ha as [Hc Ha]. now rewrite Hc, IH.
Qed.

Lemma all_digits_uint (d : Decimal.uint) : all_digits (NilEmpty.string_of_uint d) = true.
Proof. induction d; simpl; auto. Qed.

Lemma all_digits_string_of_uint (d : Decimal.uint) :
  all_digits (NilZero.string_of_uint d) = true.
Proof. destruct d; try reflexivity; apply (all_digits_uint (_ d)). Qed.

Lemma all_digits_string_of_nat (n : nat) : all_digits (string_of_nat n) = true.
Proof. apply all_digits_string_of_uint. Qed.

Lemma counted_header_first_line (title body : string) (n : nat) :
  has_no_newline title = true ->
  first_line (counted_header title n ++ nl ++ body) = counted_header title n.
Proof.
  intros Ht. apply first_line_append. unfold counted_header.
  repeat apply no_newline_append; auto.
  apply all_digits_no_newline, all_digits_string_of_nat.
Qed.

(** ** Section formatters *)

Section FormatterFacts.
Context `{Host}.

Lemma jobs_loop_body_object (now_ : Date) (st : JobsLoop) (job : JsObj) :
  jobs_loop_body now_ st (Some job) = Normal (jobs_loop_result now_ st [job]).
Proof.
  unfold jobs_loop_body, jobs_loop_result, is_upcoming, is_completed, rate_terms,
    float_sum_from.
  cbn [the_object cbind flat_map filter map].
  rewrite concat_cons. cbn [String.concat]. rewrite append_nil_r.
  destruct st as [sec tot up done]; cbn [jl_section jl_totalEarnings jl_upcomingJobs jl_completedJobs].
  destruct (truthy (prop job "rate")), (truthy (prop job "date"));
    cbn [andb negb app fold_left List.length];
    try destruct (date_gt (newDate (prop job "date")) now_);
    cbn [negb List.length]; rewrite ?Nat.add_0_r, ?Nat.add_1_r; reflexivity.
Qed.

Lemma jobs_loop_result_cons (now_ : Date) (st : JobsLoop) (job : JsObj) (l : list JsObj) :
  jobs_loop_result now_ (jobs_loop_result now_ st [job]) l
  = jobs_loop_result now_ st (job :: l).
Proof.
  unfold jobs_loop_result, float_sum_from, rate_terms.
  cbn [jl_section jl_totalEarnings jl_upcomingJobs jl_completedJobs flat_map filter map].
  rewrite !concat_cons. cbn [String.concat]. rewrite append_nil_r, append_assoc.
  rewrite app_nil_r, fold_left_app.
  destruct (is_upcoming now_ job), (is_completed now_ job);
    cbn [List.length]; rewrite ?Nat.add_0_r, <- ?Nat.add_assoc; reflexivity.
Qed.

Lemma jobs_loop_objects (now_ : Date) (l : list JsObj) (st : JobsLoop) :
  forEach (jobs_loop_body now_) (map Some l) st = Normal (jobs_loop_result now_ st l).
Proof.
  revert st. induction l as [|job l IH]; intros st.
  - destruct st. unfold jobs_loop_result. cbn.
    now rewrite append_nil_r, Nat.add_0_r, Nat.add_0_r.
  - cbn [map forEach]. rewrite jobs_loop_body_object, IH, jobs_loop_result_cons.
    reflexivity.
Qed.

Lemma buildJobsSection_objects (job : JsObj) (l : list JsObj) (clock : Clock) (n : nat) :
  _buildJobsSection (Val (map Some (job :: l))) clock n
  = (let st := jobs_loop_result (Some (clock n))
                 (jobs_loop_start (List.length (job :: l))) (job :: l) in
     (Normal (jl_section st ++ jobs_summary st), S n)).
Proof.
  unfold _buildJobsSection. cbn [map none_or_empty elements].
  unfold bind, now, lift, ret.
  change (Some job :: map Some l) with (map Some (job :: l)).
  rewrite length_map.
  fold (jobs_loop_start (List.length (job :: l))).
  rewrite jobs_loop_objects. reflexivity.
Qed.

Lemma capped_section (block : JsObj -> string) (cap : nat) (l : list JsObj)
  (header : string) :
  forEach (append_block block) (slice0 cap (map Some l)) header
  = Normal (header ++ String.concat "" (map block (firstn cap l))).
Proof.
  unfold slice0. rewrite firstn_map. apply forEach_append_block.
Qed.

End FormatterFacts.

(** C3. A formatter given an empty collection (or the profile formatter
    given an empty object) returns exactly its one "not found" sentence,
    hence neither a header line nor a record block. *)
Theorem C3_empty_collection_sentence `{Host} (clock : Clock) (n : nat) :
  _buildUserProfileSection (Val []) = "USER PROFILE: Profile not found."
  /\ _buildJobsSection (Val []) clock n = (Normal "JOBS: No jobs found.", n)
  /\ _buildEventsSection (Val []) = Normal "EVENTS: No events found."
  /\ _buildAiJobsSection (Val []) = Normal "AI JOBS: No AI jobs found."
  /\ _buildAgenciesSection (Val []) = Normal "AGENCIES: No agencies found."
  /\ _buildAgentsSection (Val []) = Normal "AGENTS: No agents found."
  /\ _buildMeetingsSection (Val []) = Normal "MEETINGS: No meetings found."
  /\ _buildOnStaysSection (Val []) = Normal "ON STAYS: No stays found."
  /\ _buildShootingsSection (Val []) = Normal "SHOOTINGS: No shootings found.".
Proof. repeat split. Qed.

(** C7, as the source has it. For a non-empty collection of records,
    each formatter returns its header line followed by one block per
    record of the capped front of the list: at most 20 events, 5 AI jobs,
    10 meetings, 10 stays, 10 shootings, and every job, agency and agent.
    The header names the total count, except for AI jobs, whose header is
    the fixed line [AI JOBS:]. The jobs section ends with its summary. *)
Theorem C7_header_and_capped_blocks `{Host} (r : JsObj) (l : list JsObj)
  (clock : Clock) (n : nat) :
  let rs := r :: l in
  let count := List.length rs in
  let blocks block cap := String.concat "" (map block (firstn cap rs)) in
  let all block := String.concat "" (map block rs) in
  let jobs_state := jobs_loop_result (Some (clock n)) (jobs_loop_start count) rs in
  _buildJobsSection (Val (map Some rs)) clock n
  = (Normal (counted_header "JOBS" count ++ nl ++ all job_block ++ jobs_summary jobs_state),
     S n)
  /\ _buildEventsSection (Val (map Some rs))
     = Normal (counted_header "EVENTS" count ++ nl ++ blocks event_block 20%nat)
  /\ _buildAiJobsSection (Val (map Some rs))
     = Normal ("AI JOBS:" ++ nl ++ blocks aiJob_block 5%nat)
  /\ _buildAgenciesSection (Val (map Some rs))
     = Normal (counted_header "AGENCIES" count ++ nl ++ all agency_block)
  /\ _buildAgentsSection (Val (map Some rs))
     = Normal (counted_header "AGENTS" count ++ nl ++ all agent_block)
  /\ _buildMeetingsSection (Val (map Some rs))
     = Normal (counted_header "MEETINGS" count ++ nl ++ blocks meeting_block 10%nat)
  /\ _buildOnStaysSection (Val (map Some rs))
     = Normal (counted_header "ON STAYS" count ++ nl ++ blocks stay_block 10%nat)
  /\ _buildShootingsSection (Val (map Some rs))
     = Normal (counted_header "SHOOTINGS" count ++ nl ++ blocks shooting_block 10%nat)
  /\ (forall title body,
        In title ["JOBS"; "EVENTS"; "AGENCIES"; "AGENTS"; "MEETINGS"; "ON STAYS"; "SHOOTINGS"] ->
        first_line (counted_header title count ++ nl ++ body) = counted_header title count
        /\ header_has_count (counted_header title count ++ nl ++ body) count = true)
  /\ (forall cap, (List.length (firstn cap rs) <= cap)%nat).
Proof.
  intros rs count blocks all jobs_state. subst rs count blocks all jobs_state.
  assert (E : forall title body, counted_header title (List.length (r :: l)) ++ nl ++ body
              = (title ++ " (" ++ string_of_nat (List.length (r :: l)) ++ " total):" ++ nl) ++ body).
  { intros. unfold counted_header. now rewrite !append_assoc. }
  repeat split; try (intros title body Htitle); try (intros cap).
  - rewrite buildJobsSection_objects. cbv zeta.
    unfold jobs_loop_result at 1. cbn [jl_section jobs_loop_start].
    unfold counted_header. rewrite !append_assoc. reflexivity.
  - unfold _buildEventsSection. cbn [map none_or_empty elements].
    change (Some r :: map Some l) with (map Some (r :: l)).
    now rewrite capped_section, length_map, E.
  - unfold _buildAiJobsSection. cbn [map none_or_empty elements].
    change (Some r :: map Some l) with (map Some (r :: l)).
    now rewrite capped_section, !append_assoc.
  - unfold _buildAgenciesSection. cbn [map none_or_empty elements].
    change (Some r :: map Some l) with (map Some (r :: l)).
    now rewrite forEach_append_block, length_map, E.
  - unfold _buildAgentsSection. cbn [map none_or_empty elements].
    change (Some r :: map Some l) with (map Some (r :: l)).
    now rewrite forEach_append_block, length_map, E.
  - unfold _buildMeetingsSection. cbn [map none_or_empty elements].
    change (Some r :: map Some l) with (map Some (r :: l)).
    now rewrite capped_section, length_map, E.
  - unfold _buildOnStaysSection. cbn [map none_or_empty elements].
    change (Some r :: map Some l) with (map Some (r :: l)).
    now rewrite capped_section, length_map, E.
  - unfold _buildShootingsSection. cbn [map none_or_empty elements].
    change (Some r :: map Some l) with (map Some (r :: l)).
    now rewrite capped_section, length_map, E.
  - apply counted_header_first_line.
    cbn [In] in *. intuition (subst; reflexivity).
  - unfold header_has_count. rewrite counted_header_first_line.
    + unfold counted_header. rewrite <- append_assoc. apply includes_middle.
    + cbn [In] in *. intuition (subst; reflexivity).
  - apply firstn_le_length.
Qed.

(** C7, the claim as written fails for AI jobs: the header line of a
    seven-record AI jobs section does not name the count. *)
Lemma C7_ai_jobs_header_has_no_count :
  ~ (forall l : list JsObj, l <> [] ->
       header_has_count
         (text_of (@_buildAiJobsSection RefHost.host (Val (map Some l)))) (List.length l)
       = true).
Proof.
  intros claim.
  assert (E := claim (repeat [] 7%nat) ltac:(discriminate)).
  vm_compute in E. discriminate E.
Qed.

(** ** The assembler on degenerate input *)

(** C2. Given [null] (or nothing at all), [buildUserContext] behaves as
    on the empty bundle and as on the bundle of empty collections: it
    returns, without throwing, the template in which every section is
    its "no data" sentence, the statistics count nothing and the
    calendar is empty, followed by the date and the time of the third
    and fourth clock readings. The text names the nine section labels. *)
Theorem C2_null_bundle_full_skeleton `{Host} (clock : Clock) (n : nat) :
  let s :=
    nl ++ "You are an AI assistant for a modeling professional using Model Day. You have access to ONLY their data and can help analyze it and provide insights." ++ nl
    ++ nl ++ "CURRENT USER DATA CONTEXT:" ++ nl
    ++ "USER PROFILE: Profile not found." ++ nl
    ++ nl ++ "JOBS DATA:" ++ nl
    ++ "JOBS: No jobs found." ++ nl
    ++ nl ++ "EVENTS DATA:" ++ nl
    ++ "EVENTS: No events found." ++ nl
    ++ nl ++ "AI JOBS DATA:" ++ nl
    ++ "AI JOBS: No AI jobs found." ++ nl
    ++ nl ++ "AGENCIES DATA:" ++ nl
    ++ "AGENCIES: No agencies found." ++ nl
    ++ nl ++ "AGENTS DATA:" ++ nl
    ++ "AGENTS: No agents found." ++ nl
    ++ nl ++ "MEETINGS DATA:" ++ nl
    ++ "MEETINGS: No meetings found." ++ nl
    ++ nl ++ "ON STAYS DATA:" ++ nl
    ++ "ON STAYS: No stays found." ++ nl
    ++ nl ++ "SHOOTINGS DATA:" ++ nl
    ++ "SHOOTINGS: No shootings found." ++ nl
    ++ nl ++ "STATISTICS:" ++ nl
    ++ "STATISTICS:" ++ nl
    ++ "- Total Income: $0.00 USD" ++ nl
    ++ "- Total Jobs: 0" ++ nl
    ++ "- Upcoming Jobs: 0" ++ nl
    ++ "- Completed Jobs: 0" ++ nl
    ++ "- Total Events: 0" ++ nl
    ++ nl
    ++ nl ++ "UPCOMING CALENDAR (Next 10 Events):" ++ nl
    ++ "UPCOMING CALENDAR: No upcoming events scheduled." ++ nl
    ++ nl ++ "Current Date: " ++ formatLongDate (clock (n + 2)%nat) ++ nl
    ++ "Current Time: " ++ formatHourMinute (clock (n + 3)%nat) ++ nl
    ++ nl ++ "Provide helpful, professional responses based on the actual data. Consider:" ++ nl
    ++ "1. Financial insights: Total earnings, booking rates, job trends" ++ nl
    ++ "2. Calendar management: Upcoming events, schedule conflicts, busy periods" ++ nl
    ++ "3. Career development: Patterns in castings, successful job types, agent relationships" ++ nl
    ++ "4. Network analysis: Industry contacts, agency relationships" ++ nl
    ++ "5. Activity trends: Monthly or seasonal patterns in bookings and events" ++ nl
    ++ nl ++ "If calculating totals or analyzing trends, show actual numbers. If asked about something not in the data, let them know politely. Maintain a friendly, professional tone." ++ nl in
  buildUserContext Null clock n = (Normal s, (n + 4)%nat)
  /\ buildUserContext Undefined clock n = (Normal s, (n + 4)%nat)
  /\ buildUserContext (Val empty_bundle) clock n = (Normal s, (n + 4)%nat)
  /\ buildUserContext
       (Val {| userProfile := Val []; jobs := Val []; events := Val []; aiJobs := Val [];
               agencies := Val []; agents := Val []; meetings := Val []; onStays := Val [];
               shootings := Val [] |}) clock n
     = (Normal s, (n + 4)%nat)
  /\ s <> ""
  /\ Forall (fun label => includes label s = true) section_labels.
Proof.
  cbv zeta. split; [|split; [|split; [|split; [|split]]]].
  - unfold buildUserContext, try_catch, bind, build_sections. cbn.
    rewrite <- !plus_n_Sm, <- plus_n_O. reflexivity.
  - unfold buildUserContext, try_catch, bind, build_sections. cbn.
    rewrite <- !plus_n_Sm, <- plus_n_O. reflexivity.
  - unfold buildUserContext, try_catch, bind, build_sections. cbn.
    rewrite <- !plus_n_Sm, <- plus_n_O. reflexivity.
  - unfold buildUserContext, try_catch, bind, build_sections. cbn.
    rewrite <- !plus_n_Sm, <- plus_n_O. reflexivity.
  - cbv. discriminate.
  - unfold section_labels. repeat constructor; vm_compute; reflexivity.
Qed.

(** C1, where the source departs from it. A null element in [jobs]
    makes the jobs formatter throw; nothing catches it inside that
    section, and the handler around the whole assembly returns the one
    generic line in place of the context: no placeholder for the jobs
    section, no other section. *)
Theorem C1_formatter_failure_aborts_assembly `{Host} (clock : Clock) (n : nat) :
  buildUserContext (Val (jobs_events_bundle (Val [None]) Undefined)) clock n
  = (Normal "Error gathering user data. Please try again.", S n).
Proof. reflexivity. Qed.

(** [buildUserContext] never throws. *)
Lemma buildUserContext_returns `{Host} (userData : Nullable Bundle) (clock : Clock) (n : nat) :
  exists s n', buildUserContext userData clock n = (Normal s, n').
Proof.
  unfold buildUserContext, try_catch.
  match goal with |- context [?m clock n] =>
    destruct (m clock n) as [[s|] n'] end; eauto.
Qed.

(** A null element anywhere in [jobs] makes the whole call return the
    generic line. *)
Lemma null_job_aborts_assembly `{Host} (l1 : list JsObj) (l2 : JsArray) (b : Bundle)
  (clock : Clock) (n : nat) :
  jobs b = Val (map Some l1 ++ None :: l2)%list ->
  buildUserContext (Val b) clock n
  = (Normal "Error gathering user data. Please try again.", S n).
Proof.
  intros Hjobs.
  assert (Hthrow : _buildJobsSection (Val (map Some l1 ++ None :: l2)%list) clock n
                   = (Throw, S n)).
  { unfold _buildJobsSection.
    assert (Hne : none_or_empty (Val (map Some l1 ++ None :: l2)%list) = false)
      by (destruct l1; reflexivity).
    rewrite Hne. unfold bind, now, lift. cbn [elements].
    rewrite forEach_null_element; [reflexivity | reflexivity |].
    intros st o. eexists. apply jobs_loop_body_object. }
  unfold buildUserContext, try_catch, bind at 1. cbn [default_to].
  unfold build_sections, bind at 1. rewrite Hjobs. cbn [default_to].
  rewrite Hthrow. reflexivity.
Qed.

Lemma null_job_aborts_assembly_witness :
  jobs (jobs_events_bundle (Val [Some []; None; Some []]) Undefined)
  = Val (map Some [[]] ++ None :: [Some []])%list
  /\ @buildUserContext RefHost.host
       (Val (jobs_events_bundle (Val [Some []; None; Some []]) Undefined)) (fun _ => 0) 0%nat
     = (Normal "Error gathering user data. Please try again.", 1%nat).
Proof.
  split; [reflexivity|].
  exact (@null_job_aborts_assembly RefHost.host [[]] [Some []]
           (jobs_events_bundle (Val [Some []; None; Some []]) Undefined)
           (fun _ => 0) 0%nat eq_refl).
Defined.

(** A failure inside the statistics or the calendar is caught there and
    replaced by that section's own line. *)
Lemma statistics_failure_is_local `{Host} (events_ : Nullable JsArray) (clock : Clock) (n : nat) :
  _calculateStatistics Null events_ clock n
  = (Normal "STATISTICS: Error calculating statistics.", S n).
Proof. reflexivity. Qed.

Lemma calendar_failure_is_local `{Host} (events_ meetings_ : Nullable JsArray)
  (clock : Clock) (n : nat) :
  _getCalendarSummary Null events_ meetings_ clock n
  = (Normal "UPCOMING CALENDAR: Error loading calendar data.", S n).
Proof. reflexivity. Qed.

(** ** Unparseable dates *)

(** C4, where the source departs from it. For a job dated
    ["not-a-date"] the constructed date is invalid but nothing throws:
    the jobs section prints [Invalid Date], not the raw string, and the
    job is counted as completed. *)
Theorem C4_malformed_date_rendering_and_count (clock : Clock) (n : nat) :
  @_buildJobsSection RefHost.host (Val [Some [("date", JStr "not-a-date")]]) clock n
  = (Normal
       ("JOBS (1 total):" ++ nl
        ++ "- Invalid Date: Unknown Client (Job)" ++ nl
        ++ "  Rate: TBD USD | Status: Unknown | Payment: Unknown" ++ nl
        ++ "  Location: TBD" ++ nl
        ++ nl
        ++ "SUMMARY:" ++ nl
        ++ "- Total Earnings: $0.00 USD" ++ nl
        ++ "- Upcoming Jobs: 0" ++ nl
        ++ "- Completed Jobs: 1" ++ nl),
     S n).
Proof. reflexivity. Qed.

(** C6, where the source departs from it. A job with an unparseable
    date is not left out of the month histogram: it is counted under
    the key [NaN-NaN] (its rate is summed as claimed). *)
Theorem C6_unparseable_date_is_bucketed (clock : Clock) (n : nat) :
  @_calculateStatistics RefHost.host
    (Val [Some [("date", JStr "not-a-date"); ("rate", JNum 100)]]) (Val []) clock n
  = (Normal
       ("STATISTICS:" ++ nl
        ++ "- Total Income: $100.00 USD" ++ nl
        ++ "- Total Jobs: 1" ++ nl
        ++ "- Upcoming Jobs: 0" ++ nl
        ++ "- Completed Jobs: 1" ++ nl
        ++ "- Total Events: 0" ++ nl
        ++ "- Activity by Month:" ++ nl
        ++ "  NaN-NaN: 1 events" ++ nl),
     S n).
Proof. reflexivity. Qed.

(** ** Aggregator *)

Section AggregatorFacts.
Context `{Host}.

Lemma stats_loop_body_object (now_ : Date) (st : StatsLoop) (job : JsObj) :
  stats_loop_body now_ st (Some job) = Normal (stats_loop_result now_ st [job]).
Proof.
  unfold stats_loop_body, stats_loop_result, is_upcoming, is_completed, rate_terms,
    float_sum_from.
  cbn [the_object cbind flat_map filter].
  destruct st as [tot up done]; cbn [sl_totalIncome sl_upcomingJobs sl_completedJobs].
  destruct (truthy (prop job "rate")), (truthy (prop job "date"));
    cbn [andb negb app fold_left List.length];
    try destruct (date_gt (newDate (prop job "date")) now_);
    cbn [negb List.length]; rewrite ?Nat.add_0_r, ?Nat.add_1_r; reflexivity.
Qed.

Lemma stats_loop_result_cons (now_ : Date) (st : StatsLoop) (job : JsObj) (l : list JsObj) :
  stats_loop_result now_ (stats_loop_result now_ st [job]) l
  = stats_loop_result now_ st (job :: l).
Proof.
  unfold stats_loop_result, float_sum_from, rate_terms.
  cbn [sl_totalIncome sl_upcomingJobs sl_completedJobs flat_map filter].
  rewrite app_nil_r, fold_left_app.
  destruct (is_upcoming now_ job), (is_completed now_ job);
    cbn [List.length]; rewrite ?Nat.add_0_r, <- ?Nat.add_assoc; reflexivity.
Qed.

Lemma stats_loop_objects (now_ : Date) (l : list JsObj) (st : StatsLoop) :
  forEach (stats_loop_body now_) (map Some l) st = Normal (stats_loop_result now_ st l).
Proof.
  revert st. induction l as [|job l IH]; intros st.
  - destruct st. unfold stats_loop_result. cbn. now rewrite !Nat.add_0_r.
  - cbn [map forEach]. rewrite stats_loop_body_object, IH, stats_loop_result_cons.
    reflexivity.
Qed.

Lemma month_loop_objects (l : list JsObj) (h : Histogram) :
  forEach month_loop_body (map Some l) h = Normal (month_histogram_from h l).
Proof.
  revert h. induction l as [|r l IH]; intros h; [reflexivity|].
  cbn [map forEach]. unfold month_loop_body at 1. cbn [the_object cbind].
  unfold month_histogram_from. cbn [fold_left].
  destruct (truthy (prop r "date")) eqn:E.
  - rewrite E. apply IH.
  - cbn [truthy]. apply IH.
Qed.

(** The statistics of well-formed lists. *)
Lemma calculateStatistics_objects (js es : list JsObj) (clock : Clock) (n : nat) :
  _calculateStatistics (Val (map Some js)) (Val (map Some es)) clock n
  = (Normal (statistics_text
               (stats_loop_result (Some (clock n)) stats_loop_start js)
               (List.length js) (List.length es)
               (month_histogram_from [] (js ++ es))),
     S n).
Proof.
  unfold _calculateStatistics, try_catch, bind, now, lift, statistics_body.
  cbn [default_to forEach_on spread].
  fold stats_loop_start. rewrite stats_loop_objects. cbn [cbind].
  rewrite <- map_app, month_loop_objects. cbn [cbind].
  now rewrite !length_map.
Qed.

End AggregatorFacts.

(** C10. For a non-empty list of jobs and one clock reading, the
    summary of the jobs section and the statistics section print the same
    three figures: the earnings, the number of upcoming jobs and the
    number of completed jobs. *)
Theorem C10_summary_agrees_with_statistics `{Host} (job : JsObj) (l es : list JsObj)
  (c1 c2 : Clock) (n1 n2 : nat) :
  c1 n1 = c2 n2 ->
  let js := job :: l in
  let earnings := JsNumber.toFixed2 (float_sum (rate_terms js)) in
  let upcoming := string_of_nat (List.length (filter (is_upcoming (Some (c1 n1))) js)) in
  let completed := string_of_nat (List.length (filter (is_completed (Some (c1 n1))) js)) in
  exists blocks activity,
    _buildJobsSection (Val (map Some js)) c1 n1
    = (Normal (blocks
               ++ "SUMMARY:" ++ nl
               ++ "- Total Earnings: $" ++ earnings ++ " USD" ++ nl
               ++ "- Upcoming Jobs: " ++ upcoming ++ nl
               ++ "- Completed Jobs: " ++ completed ++ nl),
       S n1)
    /\ _calculateStatistics (Val (map Some js)) (Val (map Some es)) c2 n2
       = (Normal ("STATISTICS:" ++ nl
                  ++ "- Total Income: $" ++ earnings ++ " USD" ++ nl
                  ++ "- Total Jobs: " ++ string_of_nat (List.length js) ++ nl
                  ++ "- Upcoming Jobs: " ++ upcoming ++ nl
                  ++ "- Completed Jobs: " ++ completed ++ nl
                  ++ "- Total Events: " ++ string_of_nat (List.length es) ++ nl
                  ++ activity),
          S n2).
Proof.
  intros Hclock js earnings upcoming completed.
  subst js earnings upcoming completed.
  eexists. eexists. split.
  - rewrite buildJobsSection_objects. cbv zeta. reflexivity.
  - rewrite calculateStatistics_objects, <- Hclock. reflexivity.
Qed.

(** C10 on one job of rate 2500 dated 2025-08-15, read at the same
    instant of July 2025 by both sections. *)
Lemma C10_summary_agrees_with_statistics_witness :
  let job := [("rate", JNum 2500); ("date", JStr "2025-08-15")] in
  let clock : Clock := fun _ => 1754000000000 in
  clock 0%nat = clock 1%nat
  /\ exists blocks activity,
       @_buildJobsSection RefHost.host (Val [Some job]) clock 0%nat
       = (Normal (blocks
                  ++ "SUMMARY:" ++ nl
                  ++ "- Total Earnings: $2500.00 USD" ++ nl
                  ++ "- Upcoming Jobs: 1" ++ nl
                  ++ "- Completed Jobs: 0" ++ nl),
          1%nat)
       /\ @_calculateStatistics RefHost.host (Val [Some job]) (Val []) clock 1%nat
          = (Normal ("STATISTICS:" ++ nl
                     ++ "- Total Income: $2500.00 USD" ++ nl
                     ++ "- Total Jobs: 1" ++ nl
                     ++ "- Upcoming Jobs: 1" ++ nl
                     ++ "- Completed Jobs: 0" ++ nl
                     ++ "- Total Events: 0" ++ nl
                     ++ activity),
             2%nat).
Proof.
  intros job clock. split; [reflexivity|].
  exact (@C10_summary_agrees_with_statistics RefHost.host job [] [] clock clock 0%nat 1%nat
           eq_refl).
Defined.

(** ** Rendering with two decimals *)

Lemma all_digits_repeat_zero (m : nat) : all_digits (repeat_string m "0") = true.
Proof. induction m as [|m IH]; [reflexivity | exact IH]. Qed.

Lemma length_repeat_zero (m : nat) : String.length (repeat_string m "0") = m.
Proof. induction m as [|m IH]; [reflexivity | simpl; now rewrite IH]. Qed.

Lemma all_digits_string_of_Z (z : Z) : 0 <= z -> all_digits (string_of_Z z) = true.
Proof.
  intros Hz. unfold string_of_Z, Z.to_int.
  destruct z as [|p|p]; try lia; apply all_digits_string_of_uint.
Qed.

Lemma all_digits_substring (s : string) (i j : nat) :
  all_digits s = true -> all_digits (substring i j s) = true.
Proof.
  revert i j. induction s as [|c s IH]; intros i j Hs.
  - destruct i, j; reflexivity.
  - simpl in Hs. apply andb_true_iff in Hs as [Hc Hs].
    destruct i as [|i]; [destruct j as [|j]|]; simpl; auto.
    now rewrite Hc, IH.
Qed.

Lemma length_substring (s : string) (i j : nat) :
  (i + j <= String.length s)%nat -> String.length (substring i j s) = j.
Proof.
  revert i j. induction s as [|c s IH]; intros i j Hl; simpl in Hl.
  - destruct i, j; simpl; lia.
  - destruct i as [|i]; [destruct j as [|j]|]; simpl; auto.
    + rewrite (IH 0%nat j); lia.
    + apply IH. lia.
Qed.

Lemma fixed2_digits_shape (n : Z) :
  0 <= n ->
  exists a b, JsNumber.fixed2_digits n = a ++ "." ++ b
              /\ a <> "" /\ all_digits a = true
              /\ all_digits b = true /\ String.length b = 2%nat.
Proof.
  intros Hn. unfold JsNumber.fixed2_digits.
  set (d := repeat_string (3 - String.length (string_of_Z n)) "0" ++ string_of_Z n).
  assert (Hd : all_digits d = true).
  { apply all_digits_append;
      [apply all_digits_repeat_zero | now apply all_digits_string_of_Z]. }
  assert (Hk : (3 <= String.length d)%nat).
  { unfold d. rewrite length_append, length_repeat_zero. lia. }
  exists (substring 0 (String.length d - 2) d), (substring (String.length d - 2) 2 d).
  split; [reflexivity|]. split; [|split; [|split]].
  - intros E. apply (f_equal String.length) in E.
    rewrite length_substring in E by lia. simpl in E. lia.
  - now apply all_digits_substring.
  - now apply all_digits_substring.
  - apply length_substring. lia.
Qed.

Lemma hundredths_nonneg (m : positive) (e : Z) : 0 <= JsNumber.hundredths m e.
Proof.
  unfold JsNumber.hundredths, JsNumber.exact_ratio.
  assert (0 < 2 ^ Z.max 0 e) by (apply Z.pow_pos_nonneg; lia).
  assert (0 < 2 ^ Z.max 0 (- e)) by (apply Z.pow_pos_nonneg; lia).
  apply Z.div_pos; nia.
Qed.

Lemma toFixed2_two_decimals (x : float) :
  fixed_range x = true -> two_decimals (JsNumber.toFixed2 x).
Proof.
  unfold fixed_range, JsNumber.toFixed2, two_decimals.
  destruct (Prim2SF x) as [s|s| |s m e]; try discriminate.
  - intros _. destruct (fixed2_digits_shape 0) as (a & b & E & Ha); [lia|].
    exists "", a, b. rewrite E. intuition.
  - destruct (JsNumber.exact_ratio m e) as [num den].
    destruct (den * 10 ^ 21 <=? num); [discriminate|]. intros _.
    destruct (fixed2_digits_shape (JsNumber.hundredths m e)) as (a & b & E & Ha);
      [apply hundredths_nonneg|].
    exists (if s then "-" else ""), a, b. rewrite E.
    split; [reflexivity|]. split; [destruct s; auto | exact Ha].
Qed.

Lemma includes_point (sign a b : string) : includes "." (sign ++ a ++ "." ++ b) = true.
Proof. rewrite <- append_assoc. apply includes_middle. Qed.

Lemma two_decimals_has_point (s : string) : two_decimals s -> includes "." s = true.
Proof. intros (sign & a & b & -> & _). apply includes_point. Qed.

(** C5, as the source has it. The total income printed by the
    statistics is the left-to-right double sum of the values
    [parseFloat] reads from the rates: a job without a rate adds nothing
    and a rate with no numeric prefix adds 0. The total is printed with
    exactly two decimals whenever it is finite and below 10^21 in
    magnitude; rates 2500, 5000 and 3000 print [10500.00]. *)
Theorem C5_total_income `{Host} (js es : list JsObj) (clock : Clock) (n : nat) :
  let total := float_sum (rate_terms js) in
  (exists rest,
     _calculateStatistics (Val (map Some js)) (Val (map Some es)) clock n
     = (Normal ("STATISTICS:" ++ nl
                ++ "- Total Income: $" ++ JsNumber.toFixed2 total ++ " USD" ++ nl ++ rest),
        S n))
  /\ (forall l1 l2, rate_terms (l1 ++ l2) = (rate_terms l1 ++ rate_terms l2)%list)
  /\ (forall job, truthy (prop job "rate") = false -> rate_terms [job] = [])
  /\ (forall job, truthy (prop job "rate") = true ->
        PrimFloat.is_nan (JsNumber.parseFloat (ToString (prop job "rate"))) = true ->
        rate_terms [job] = [zero])
  /\ (forall job, truthy (prop job "rate") = true ->
        rate_terms [job] = [parseFloat_or_0 (prop job "rate")])
  /\ (fixed_range total = true -> two_decimals (JsNumber.toFixed2 total))
  /\ _calculateStatistics
       (Val (map Some [job_with_rate (JNum 2500); job_with_rate (JNum 5000);
                       job_with_rate (JNum 3000)]))
       (Val []) clock n
     = (Normal ("STATISTICS:" ++ nl
                ++ "- Total Income: $10500.00 USD" ++ nl
                ++ "- Total Jobs: 3" ++ nl
                ++ "- Upcoming Jobs: 0" ++ nl
                ++ "- Completed Jobs: 0" ++ nl
                ++ "- Total Events: 0" ++ nl),
        S n).
Proof.
  intros total. subst total.
  split; [|split; [|split; [|split; [|split; [|split]]]]].
  - eexists. rewrite calculateStatistics_objects. reflexivity.
  - intros l1 l2. apply flat_map_app.
  - intros job E. unfold rate_terms. cbn [flat_map]. now rewrite E.
  - intros job E Hnan. unfold rate_terms, parseFloat_or_0. cbn [flat_map].
    rewrite E, Hnan, orb_true_r. reflexivity.
  - intros job E. unfold rate_terms. cbn [flat_map]. now rewrite E.
  - apply toFixed2_two_decimals.
  - reflexivity.
Qed.

(** C5, the claim as written fails for a huge total: a rate of 10^21
    is printed [1e+21], which has no decimals. *)
Lemma C5_huge_total_has_no_decimals :
  @_calculateStatistics RefHost.host (Val [Some (job_with_rate (JNum 1e21))]) (Val [])
    (fun _ => 0) 0%nat
  = (Normal ("STATISTICS:" ++ nl
             ++ "- Total Income: $1e+21 USD" ++ nl
             ++ "- Total Jobs: 1" ++ nl
             ++ "- Upcoming Jobs: 0" ++ nl
             ++ "- Completed Jobs: 0" ++ nl
             ++ "- Total Events: 0" ++ nl),
     1%nat)
  /\ ~ two_decimals (JsNumber.toFixed2 (float_sum (rate_terms [job_with_rate (JNum 1e21)]))).
Proof.
  split; [reflexivity|].
  intros Htwo. apply two_decimals_has_point in Htwo.
  vm_compute in Htwo. discriminate Htwo.
Qed.

(** ** Sorting *)

Section StableSort.
Context {A : Type} (le : A -> A -> bool).
Hypothesis le_total : forall a b, le a b = false -> le b a = true.

Let R (a b : A) : Prop := le a b = true.

Lemma insert_sorted_perm (x : A) (l : list A) :
  Permutation (insert_sorted le x l) (x :: l).
Proof.
  induction l as [|y l IH]; simpl; [reflexivity|].
  destruct (le x y); [reflexivity|].
  rewrite IH. apply perm_swap.
Qed.

Lemma stable_sort_perm (l : list A) : Permutation (stable_sort le l) l.
Proof.
  induction l as [|x l IH]; simpl; [reflexivity|].
  rewrite insert_sorted_perm. now constructor.
Qed.

Lemma insert_sorted_HdRel (x y : A) (l : list A) :
  R y x -> HdRel R y l -> HdRel R y (insert_sorted le x l).
Proof.
  intros Hyx Hl. destruct l as [|z l]; simpl.
  - now constructor.
  - inversion Hl; subst. destruct (le x z); now constructor.
Qed.

Lemma insert_sorted_Sorted (x : A) (l : list A) :
  Sorted R l -> Sorted R (insert_sorted le x l).
Proof.
  induction 1 as [|y l Hs IH Hd]; simpl.
  - repeat constructor.
  - destruct (le x y) eqn:E.
    + constructor; [now constructor | now constructor].
    + constructor; [exact IH|].
      apply insert_sorted_HdRel; [now apply le_total | exact Hd].
Qed.

Lemma stable_sort_Sorted (l : list A) : Sorted R (stable_sort le l).
Proof.
  induction l as [|x l IH]; simpl; [constructor|].
  now apply insert_sorted_Sorted.
Qed.

(** Inserting [x] puts it before the members of a class [P] that were
    there, provided no member of the class is strictly below [x]. *)
Lemma insert_sorted_filter (P : A -> bool) (x : A) (l : list A) :
  (forall y, P x = true -> P y = true -> le x y = true) ->
  filter P (insert_sorted le x l) = filter P (x :: l).
Proof.
  intros Hclass. induction l as [|y l IH]; [reflexivity|].
  cbn [insert_sorted]. destruct (le x y) eqn:E; [reflexivity|].
  cbn [filter] in *. rewrite IH.
  destruct (P x) eqn:Px, (P y) eqn:Py; try reflexivity.
  rewrite (Hclass y eq_refl Py) in E. discriminate.
Qed.

Lemma stable_sort_filter (P : A -> bool) (l : list A) :
  (forall x y, P x = true -> P y = true -> le x y = true) ->
  filter P (stable_sort le l) = filter P l.
Proof.
  intros Hclass. induction l as [|x l IH]; [reflexivity|].
  cbn [stable_sort fold_right]. fold (stable_sort le l).
  rewrite insert_sorted_filter by (intros y; apply Hclass).
  cbn [filter]. now rewrite IH.
Qed.

End StableSort.

(** ** Calendar merger *)

Section CalendarFacts.
Context `{Host}.

Lemma is_upcoming_iff (t : Z) (r : JsObj) :
  is_upcoming (Some t) r = true
  <-> truthy (prop r "date") = true
      /\ exists u, newDate (prop r "date") = Some u /\ t < u.
Proof.
  unfold is_upcoming, date_gt. rewrite andb_true_iff. split.
  - intros [Ht Hg]. split; [exact Ht|].
    destruct (newDate (prop r "date")) as [u|]; [|discriminate].
    exists u. split; [reflexivity | now apply Z.ltb_lt].
  - intros [Ht (u & -> & Hu)]. split; [exact Ht | now apply Z.ltb_lt].
Qed.

Lemma push_upcoming_objects (mk : JsObj -> Date -> CalItem) (now_ : Date)
  (l : list JsObj) (acc : list CalItem) :
  forEach (push_upcoming mk now_) (map Some l) acc
  = Normal (acc ++ upcoming_items mk now_ l)%list.
Proof.
  revert acc. induction l as [|r l IH]; intros acc.
  - cbn. now rewrite app_nil_r.
  - cbn [map forEach]. unfold push_upcoming at 1. cbn [the_object cbind].
    unfold upcoming_items, is_upcoming. cbn [filter].
    destruct (truthy (prop r "date")); cbn [andb or_skip];
      [destruct (date_gt (newDate (prop r "date")) now_); cbn [or_skip map]|];
      rewrite IH; unfold upcoming_items, is_upcoming;
      rewrite <- ?app_assoc; reflexivity.
Qed.

(** A null element is passed over by the calendar loops. *)
Lemma push_upcoming_null (mk : JsObj -> Date -> CalItem) (now_ : Date)
  (acc : list CalItem) :
  push_upcoming mk now_ acc None = Normal acc.
Proof. reflexivity. Qed.

Lemma getCalendarSummary_objects (js es ms : list JsObj) (clock : Clock) (n : nat) :
  _getCalendarSummary (Val (map Some js)) (Val (map Some es)) (Val (map Some ms)) clock n
  = (Normal (calendar_text
               (slice0 10 (stable_sort date_le (merged_upcoming (Some (clock n)) js es ms)))),
     S n).
Proof.
  unfold _getCalendarSummary, try_catch, bind, now, lift, calendar_body, merged_upcoming.
  cbn [default_to forEach_on].
  rewrite !push_upcoming_objects. cbn [cbind].
  rewrite push_upcoming_objects. cbn [cbind].
  rewrite push_upcoming_objects. cbn [cbind app].
  now rewrite app_assoc.
Qed.

Lemma upcoming_items_later (mk : JsObj -> Date -> CalItem) (t : Z) (l : list JsObj) :
  (forall r d, item_date (mk r d) = d) ->
  Forall (fun x => exists u, item_date x = Some u /\ t < u) (upcoming_items mk (Some t) l).
Proof.
  intros Hmk. unfold upcoming_items. apply Forall_forall. intros x Hx.
  apply in_map_iff in Hx as (r & <- & Hr). apply filter_In in Hr as [_ Hr].
  apply is_upcoming_iff in Hr as [_ (u & Hu & Hlt)].
  exists u. now rewrite Hmk.
Qed.

Lemma merged_upcoming_later (t : Z) (js es ms : list JsObj) :
  Forall (fun x => exists u, item_date x = Some u /\ t < u)
    (merged_upcoming (Some t) js es ms).
Proof.
  unfold merged_upcoming.
  apply Forall_app; split; [|apply Forall_app; split];
    apply upcoming_items_later; reflexivity.
Qed.

End CalendarFacts.

Lemma date_le_total (a b : CalItem) : date_le a b = false -> date_le b a = true.
Proof.
  unfold date_le. destruct (item_date a), (item_date b); try discriminate.
  intros E. apply Z.leb_gt in E. apply Z.leb_le. lia.
Qed.

Lemma dated_class (t : Z) (x y : CalItem) :
  dated t x = true -> dated t y = true -> date_le x y = true.
Proof.
  unfold dated, date_le. destruct (item_date x), (item_date y); try discriminate.
  intros Ex Ey. apply Z.eqb_eq in Ex, Ey. apply Z.leb_le. lia.
Qed.

Lemma sorted_by_date_ms (l : list CalItem) :
  Forall (fun x => exists u, item_date x = Some u) l ->
  Sorted (fun a b => date_le a b = true) l ->
  StronglySorted Z.le (map item_ms l).
Proof.
  intros Hv Hs. apply Sorted_StronglySorted; [intros a b c; apply Z.le_trans|].
  induction Hs as [|x l Hs IH Hd]; [constructor|].
  inversion Hv as [|? ? [u Hu] Hv']; subst.
  cbn [map]. constructor; [now apply IH|].
  destruct Hd as [|y l Hxy]; cbn [map]; constructor.
  inversion Hv' as [|? ? [w Hw] _]; subst.
  unfold date_le in Hxy. unfold item_ms. rewrite Hu, Hw in *. now apply Z.leb_le.
Qed.

(** C8. From lists of jobs, events and meetings the calendar keeps the
    records whose date parses to an instant strictly later than the
    clock reading (so none with an absent or unparseable date), orders
    them by date, ties staying in input order (jobs, then events, then
    meetings, each in their own order), and keeps the first ten. The
    text is the single "no upcoming events" line when none is left, and
    otherwise a header with their number and one entry for each, in that
    order. *)
Theorem C8_calendar_merger `{Host} (js es ms : list JsObj) (clock : Clock) (n : nat) :
  let now_ := clock n in
  let upcoming r := truthy (prop r "date") && date_gt (newDate (prop r "date")) (Some now_) in
  let of_job r :=
    {| item_type := "job";
       item_title := or_else (prop r "clientName") (JStr "Unknown Client");
       item_date := newDate (prop r "date");
       item_time := or_else (prop r "time") (JStr "");
       item_location := or_else (prop r "location") (JStr "") |} in
  let of_event r :=
    {| item_type := if truthy (prop r "type")
                    then last_dot_segment (ToString (prop r "type"))
                    else "event";
       item_title := or_else (prop r "clientName") (JStr "Event");
       item_date := newDate (prop r "date");
       item_time := or_else (prop r "startTime") (JStr "");
       item_location := or_else (prop r "location") (JStr "") |} in
  let of_meeting r :=
    {| item_type := "meeting";
       item_title := or_else (prop r "clientName") (JStr "Unknown Client");
       item_date := newDate (prop r "date");
       item_time := or_else (prop r "time") (JStr "");
       item_location := or_else (prop r "location") (JStr "") |} in
  let merged :=
    (map of_job (filter upcoming js) ++ map of_event (filter upcoming es)
     ++ map of_meeting (filter upcoming ms))%list in
  let sorted := stable_sort date_le merged in
  let top := firstn 10 sorted in
  let entry x :=
    "- " ++ match item_date x with
            | Some t => formatLongDate t
            | None => "Invalid Date"
            end
    ++ (if truthy (item_time x) then " at " ++ ToString (item_time x) else "") ++ ": "
    ++ toUpperCase (item_type x) ++ " - " ++ ToString (item_title x) ++ nl
    ++ (if truthy (item_location x) then "  Location: " ++ ToString (item_location x) ++ nl
        else "")
    ++ nl in
  let text :=
    match top with
    | [] => "UPCOMING CALENDAR: No upcoming events scheduled."
    | _ =>
        "UPCOMING CALENDAR (Next " ++ string_of_nat (List.length top) ++ " Events):" ++ nl
        ++ String.concat "" (map entry top)
    end in
  _getCalendarSummary (Val (map Some js)) (Val (map Some es)) (Val (map Some ms)) clock n
  = (Normal text, S n)
  /\ (forall r, upcoming r = true
                <-> truthy (prop r "date") = true
                    /\ exists t, newDate (prop r "date") = Some t /\ now_ < t)
  /\ Forall (fun x => exists t, item_date x = Some t /\ now_ < t) merged
  /\ Permutation sorted merged
  /\ StronglySorted Z.le (map item_ms sorted)
  /\ (forall t, filter (dated t) sorted = filter (dated t) merged)
  /\ (List.length top <= 10)%nat.
Proof.
  cbv zeta.
  change (map (fun r => {| item_type := "job";
                           item_title := or_else (prop r "clientName") (JStr "Unknown Client");
                           item_date := newDate (prop r "date");
                           item_time := or_else (prop r "time") (JStr "");
                           item_location := or_else (prop r "location") (JStr "") |})
            (filter (fun r => truthy (prop r "date")
                              && date_gt (newDate (prop r "date")) (Some (clock n))) js)
          ++ map (fun r => {| item_type := if truthy (prop r "type")
                                           then last_dot_segment (ToString (prop r "type"))
                                           else "event";
                              item_title := or_else (prop r "clientName") (JStr "Event");
                              item_date := newDate (prop r "date");
                              item_time := or_else (prop r "startTime") (JStr "");
                              item_location := or_else (prop r "location") (JStr "") |})
               (filter (fun r => truthy (prop r "date")
                                 && date_gt (newDate (prop r "date")) (Some (clock n))) es)
          ++ map (fun r => {| item_type := "meeting";
                              item_title := or_else (prop r "clientName")
                                              (JStr "Unknown Client");
                              item_date := newDate (prop r "date");
                              item_time := or_else (prop r "time") (JStr "");
                              item_location := or_else (prop r "location") (JStr "") |})
               (filter (fun r => truthy (prop r "date")
                                 && date_gt (newDate (prop r "date")) (Some (clock n))) ms))%list
    with (merged_upcoming (Some (clock n)) js es ms).
  set (merged := merged_upcoming (Some (clock n)) js es ms).
  set (sorted := stable_sort date_le merged).
  assert (Hlater := merged_upcoming_later (clock n) js es ms). fold merged in Hlater.
  assert (Hperm : Permutation sorted merged) by apply stable_sort_perm.
  split; [apply getCalendarSummary_objects|].
  split; [intros r; apply is_upcoming_iff|].
  split; [exact Hlater|].
  split; [exact Hperm|].
  split; [|split].
  - apply sorted_by_date_ms.
    + apply (Permutation_Forall (Permutation_sym Hperm)).
      apply (Forall_impl _ (P := fun x => exists t, item_date x = Some t /\ clock n < t));
        [|exact Hlater].
      intros x (t & Ht & _). now exists t.
    + apply stable_sort_Sorted, date_le_total.
  - intros t. apply stable_sort_filter. intros x y. apply dated_class.
  - apply firstn_le_length.
Qed.

(** ** Clock readings *)

Section ClockReads.
Context {A B : Type}.

Lemma reads_weaken (k k' : nat) (m : M A) :
  (k <= k')%nat -> reads_at_most k m -> reads_at_most k' m.
Proof.
  intros Hk Hm c1 c2 n Hc.
  destruct (Hm c1 c2 n) as [E Hn]; [intros i Hi; apply Hc; lia|].
  split; [exact E | lia].
Qed.

Lemma reads_ret (a : A) : reads_at_most 0 (ret a).
Proof. intros c1 c2 n _. cbn. split; [reflexivity | lia]. Qed.

Lemma reads_lift (c : completion A) : reads_at_most 0 (lift c).
Proof. intros c1 c2 n _. cbn. split; [reflexivity | lia]. Qed.

Lemma reads_try_catch (k : nat) (m : M A) (h : A) :
  reads_at_most k m -> reads_at_most k (try_catch m h).
Proof.
  intros Hm c1 c2 n Hc. destruct (Hm c1 c2 n Hc) as [E Hn].
  unfold try_catch. rewrite <- E.
  destruct (m c1 n) as [[a|] n']; cbn in *; split; (reflexivity || lia).
Qed.

Lemma reads_bind (k1 k2 : nat) (m : M A) (f : A -> M B) :
  reads_at_most k1 m -> (forall a, reads_at_most k2 (f a)) ->
  reads_at_most (k1 + k2) (bind m f).
Proof.
  intros Hm Hf c1 c2 n Hc.
  destruct (Hm c1 c2 n) as [E Hn]; [intros i Hi; apply Hc; lia|].
  unfold bind. rewrite <- E.
  destruct (m c1 n) as [[a|] n']; cbn [snd] in *.
  - destruct (Hf a c1 c2 n') as [E' Hn'].
    + intros i Hi. replace (n' + i)%nat with (n + (n' - n + i))%nat by lia.
      apply Hc. lia.
    + split; [exact E' | lia].
  - split; [reflexivity | lia].
Qed.

End ClockReads.

Lemma reads_now : reads_at_most 1 now.
Proof.
  intros c1 c2 n Hc. unfold now. cbn [snd].
  pose proof (Hc 0%nat ltac:(lia)) as E. rewrite Nat.add_0_r in E.
  rewrite E. split; [reflexivity | lia].
Qed.

Section ReadsOfTheBuilder.
Context `{Host}.

Lemma reads_buildJobsSection (js : Nullable JsArray) :
  reads_at_most 1 (_buildJobsSection js).
Proof.
  unfold _buildJobsSection. destruct (none_or_empty js).
  - apply (reads_weaken 0); [lia | apply reads_ret].
  - apply (reads_bind 1 0); [apply reads_now|]. intros now_.
    apply (reads_bind 0 0); [apply reads_lift|]. intros st. apply reads_ret.
Qed.

Lemma reads_calculateStatistics (js es : Nullable JsArray) :
  reads_at_most 1 (_calculateStatistics js es).
Proof.
  unfold _calculateStatistics. apply reads_try_catch.
  apply (reads_bind 1 0); [apply reads_now|]. intros now_. apply reads_lift.
Qed.

Lemma reads_getCalendarSummary (js es ms : Nullable JsArray) :
  reads_at_most 1 (_getCalendarSummary js es ms).
Proof.
  unfold _getCalendarSummary. apply reads_try_catch.
  apply (reads_bind 1 0); [apply reads_now|]. intros now_. apply reads_lift.
Qed.

Lemma reads_build_sections (b : Bundle) : reads_at_most 3 (build_sections b).
Proof.
  unfold build_sections.
  apply (reads_bind 1 2); [apply reads_buildJobsSection|]. intros s2.
  do 7 (apply (reads_bind 0 2); [apply reads_lift|]; intros ?).
  apply (reads_bind 1 1); [apply reads_calculateStatistics|]. intros s10.
  apply (reads_bind 1 0); [apply reads_getCalendarSummary|]. intros s11.
  apply reads_ret.
Qed.

Lemma reads_buildUserContext (userData : Nullable Bundle) :
  reads_at_most 5 (buildUserContext userData).
Proof.
  unfold buildUserContext. apply reads_try_catch. cbv zeta.
  apply (reads_bind 3 2); [apply reads_build_sections|]. intros s.
  apply (reads_bind 1 1); [apply reads_now|]. intros d1.
  apply (reads_bind 1 0); [apply reads_now|]. intros d2.
  apply reads_ret.
Qed.

End ReadsOfTheBuilder.

(** C9, as the source has it. One invocation reads the clock at most
    five times: once by each of the jobs section, the statistics and the
    calendar, which use their own reading as the cutoff for all their
    records, and twice for the closing date and time. Two runs on the
    same bundle whose five samples agree return the same text. *)
Theorem C9_clock_readings `{Host} (userData : Nullable Bundle) (c1 c2 : Clock) (n : nat) :
  (forall i, (i < 5)%nat -> c1 (n + i)%nat = c2 (n + i)%nat) ->
  buildUserContext userData c1 n = buildUserContext userData c2 n
  /\ (n <= snd (buildUserContext userData c1 n) <= n + 5)%nat
  /\ (forall js m, c1 m = c2 m ->
        _buildJobsSection js c1 m = _buildJobsSection js c2 m)
  /\ (forall js es m, c1 m = c2 m ->
        _calculateStatistics js es c1 m = _calculateStatistics js es c2 m)
  /\ (forall js es ms m, c1 m = c2 m ->
        _getCalendarSummary js es ms c1 m = _getCalendarSummary js es ms c2 m).
Proof.
  intros Hc.
  assert (one : forall m, c1 m = c2 m ->
                forall i, (i < 1)%nat -> c1 (m + i)%nat = c2 (m + i)%nat).
  { intros m E i Hi. replace i with 0%nat by lia. now rewrite Nat.add_0_r. }
  destruct (reads_buildUserContext userData c1 c2 n Hc) as [E Hn].
  split; [exact E|]. split; [exact Hn|].
  split; [|split].
  - intros js m Em. now apply reads_buildJobsSection, one.
  - intros js es m Em. now apply reads_calculateStatistics, one.
  - intros js es ms m Em. now apply reads_getCalendarSummary, one.
Qed.

(** C9 on a one-job bundle and a clock that stands still. *)
Lemma C9_clock_readings_witness :
  let clock : Clock := fun _ => 1754000000000 in
  (forall i, (i < 5)%nat -> clock (0 + i)%nat = clock (0 + i)%nat)
  /\ @buildUserContext RefHost.host (Val one_dated_job_bundle) clock 0%nat
     = @buildUserContext RefHost.host (Val one_dated_job_bundle) clock 0%nat
  /\ (0 <= snd (@buildUserContext RefHost.host (Val one_dated_job_bundle) clock 0%nat)
      <= 0 + 5)%nat.
Proof.
  intros clock.
  assert (Hc : forall i, (i < 5)%nat -> clock (0 + i)%nat = clock (0 + i)%nat)
    by reflexivity.
  split; [exact Hc|].
  destruct (@C9_clock_readings RefHost.host (Val one_dated_job_bundle) clock clock 0%nat Hc)
    as (E & Hn & _).
  split; [exact E | exact Hn].
Defined.

(** C9, the claim as written fails: on [{ jobs: [{ date: "1970-01-02" }] }]
    the clock is read five times, and two runs that agree on the first
    sample only return different texts; in the second run the jobs
    summary counts the job as upcoming and the statistics do not. *)
Lemma C9_first_sample_does_not_fix_the_output :
  let c1 : Clock := fun _ => 0 in
  let c2 : Clock := fun i => match i with O => 0 | _ => 100000000 end in
  let run1 := @buildUserContext RefHost.host (Val one_dated_job_bundle) c1 0%nat in
  let run2 := @buildUserContext RefHost.host (Val one_dated_job_bundle) c2 0%nat in
  c1 0%nat = c2 0%nat
  /\ snd run1 = 5%nat
  /\ fst run1 <> fst run2
  /\ includes ("SUMMARY:" ++ nl ++ "- Total Earnings: $0.00 USD" ++ nl
               ++ "- Upcoming Jobs: 1" ++ nl) (text_of (fst run2)) = true
  /\ includes ("- Total Jobs: 1" ++ nl ++ "- Upcoming Jobs: 0" ++ nl)
       (text_of (fst run2)) = true.
Proof.
  intros c1 c2 run1 run2.
  split; [reflexivity|]. split; [reflexivity|].
  split; [|split; vm_compute; reflexivity].
  intros E. apply (f_equal (fun c => includes ("- Total Jobs: 1" ++ nl ++ "- Upcoming Jobs: 0" ++ nl)
                                       (text_of c))) in E.
  vm_compute in E. discriminate E.
Qed.


(** ** The month histogram *)

Lemma count_of_increment (k k' : string) (h : Histogram) :
  count_of (increment k h) k'
  = if String.eqb k k' then S (count_of h k') else count_of h k'.
Proof.
  induction h as [|[k0 c] h IH]; cbn [increment count_of].
  - rewrite (String.eqb_sym k' k). now destruct (String.eqb k k').
  - destruct (String.eqb_spec k k0) as [->|Hk0]; cbn [count_of].
    + rewrite (String.eqb_sym k' k0). now destruct (String.eqb k0 k').
    + rewrite IH. destruct (String.eqb_spec k' k0) as [->|Hk']; [|reflexivity].
      destruct (String.eqb_spec k k0); [contradiction | reflexivity].
Qed.

Lemma keys_increment (k k' : string) (h : Histogram) :
  In k' (keys (increment k h)) <-> k = k' \/ In k' (keys h).
Proof.
  unfold keys. induction h as [|[k0 c] h IH]; cbn [increment map fst In].
  - tauto.
  - destruct (String.eqb_spec k k0) as [->|Hk0]; cbn [map fst In]; [tauto|].
    rewrite IH. tauto.
Qed.

Lemma keys_increment_NoDup (k : string) (h : Histogram) :
  NoDup (keys h) -> NoDup (keys (increment k h)).
Proof.
  unfold keys. induction h as [|[k0 c] h IH]; intros Hn; cbn [increment map fst].
  - repeat constructor. intros [].
  - inversion Hn as [|? ? Hnotin Hn']; subst.
    destruct (String.eqb_spec k k0) as [->|Hk0]; cbn [map fst].
    + now constructor.
    + constructor; [|now apply IH].
      intros Hin. apply (keys_increment k k0 h) in Hin as [E|Hin]; [now elim Hk0 | now elim Hnotin].
Qed.

Section HistogramFacts.
Context `{Host}.

Lemma month_histogram_count (l : list JsObj) (h : Histogram) (k : string) :
  count_of (month_histogram_from h l) k
  = (count_of h k + List.length (filter (in_month k) l))%nat.
Proof.
  revert h. induction l as [|r l IH]; intros h; cbn [filter List.length].
  - unfold month_histogram_from. cbn. lia.
  - unfold month_histogram_from in *. cbn [fold_left]. rewrite IH.
    unfold in_month at 2. destruct (truthy (prop r "date")); cbn [andb].
    + rewrite count_of_increment.
      destruct (String.eqb (monthKey (newDate (prop r "date"))) k); cbn [List.length]; lia.
    + reflexivity.
Qed.

Lemma month_histogram_NoDup (l : list JsObj) (h : Histogram) :
  NoDup (keys h) -> NoDup (keys (month_histogram_from h l)).
Proof.
  revert h. induction l as [|r l IH]; intros h Hn; [exact Hn|].
  unfold month_histogram_from in *. cbn [fold_left]. apply IH.
  destruct (truthy (prop r "date")); [now apply keys_increment_NoDup | exact Hn].
Qed.

Lemma month_histogram_keys (l : list JsObj) (h : Histogram) (k : string) :
  In k (keys (month_histogram_from h l))
  <-> In k (keys h) \/ exists r, In r l /\ in_month k r = true.
Proof.
  revert h. induction l as [|r l IH]; intros h.
  - cbn. split; [tauto | intros [E|(r & [] & _)]; exact E].
  - unfold month_histogram_from in *. cbn [fold_left]. rewrite IH.
    unfold in_month. destruct (truthy (prop r "date")) eqn:E.
    + rewrite keys_increment. split.
      * intros [[Hk|Hk]|(r' & Hin & Hr')]; [right|left|right]; try assumption.
        -- exists r. split; [now left|]. rewrite E. cbn. now apply String.eqb_eq.
        -- exists r'. split; [now right | exact Hr'].
      * intros [Hk|(r' & [<-|Hin] & Hr')].
        -- now left; right.
        -- rewrite E in Hr'. cbn in Hr'. apply String.eqb_eq in Hr'. now left; left.
        -- right. now exists r'.
    + split.
      * intros [Hk|(r' & Hin & Hr')]; [now left|]. right. exists r'. split; [now right | exact Hr'].
      * intros [Hk|(r' & [<-|Hin] & Hr')]; [now left| |].
        -- rewrite E in Hr'. discriminate.
        -- right. now exists r'.
Qed.
End HistogramFacts.

Lemma string_leb_total (a b : string) : String.leb a b = false -> String.leb b a = true.
Proof. intros E. destruct (String.leb_total a b) as [E'|E']; congruence. Qed.

Lemma slice_last_length {A : Type} (k : nat) (l : list A) :
  (List.length (slice_last k l) <= k)%nat.
Proof. unfold slice_last. rewrite length_skipn. lia. Qed.

Lemma Sorted_skipn {A : Type} (R : A -> A -> Prop) (k : nat) (l : list A) :
  Sorted R l -> Sorted R (skipn k l).
Proof.
  revert l. induction k as [|k IH]; intros l Hs; [exact Hs|].
  destruct l as [|x l]; [constructor|]. cbn. apply IH. now inversion Hs.
Qed.

Lemma skipn_suffix {A : Type} (k : nat) (l : list A) : (firstn k l ++ skipn k l)%list = l.
Proof. apply firstn_skipn. Qed.

(** The activity lines of the statistics, for lists of records. The
    month keys are those of the records that have a date, each once; the
    text shows them in ascending order, the last six when there are more
    (all but the first [length - 6]), each with the number of dated
    records of that key; there is no activity block when no record has a
    date. (A record whose date does not parse is a dated record of key
    [NaN-NaN].) *)
Theorem activity_by_month_rendering `{Host} (js es : list JsObj) (clock : Clock) (n : nat) :
  let records := (js ++ es)%list in
  let h := month_histogram_from [] records in
  let sorted := stable_sort String.leb (keys h) in
  let shown := skipn (List.length sorted - 6) sorted in
  let line k :=
    "  " ++ k ++ ": " ++ string_of_nat (List.length (filter (in_month k) records))
    ++ " events" ++ nl in
  let activity :=
    match sorted with
    | [] => ""
    | _ => "- Activity by Month:" ++ nl ++ String.concat "" (map line shown)
    end in
  (exists income upcoming completed,
     _calculateStatistics (Val (map Some js)) (Val (map Some es)) clock n
     = (Normal ("STATISTICS:" ++ nl
                ++ "- Total Income: $" ++ income ++ " USD" ++ nl
                ++ "- Total Jobs: " ++ string_of_nat (List.length js) ++ nl
                ++ "- Upcoming Jobs: " ++ string_of_nat upcoming ++ nl
                ++ "- Completed Jobs: " ++ string_of_nat completed ++ nl
                ++ "- Total Events: " ++ string_of_nat (List.length es) ++ nl
                ++ activity),
        S n))
  /\ (forall k, In k sorted <-> exists r, In r records /\ in_month k r = true)
  /\ NoDup sorted
  /\ Sorted (fun a b => String.leb a b = true) sorted
  /\ (exists hidden, sorted = (hidden ++ shown)%list)
  /\ List.length shown = Nat.min 6 (List.length sorted).
Proof.
  cbv zeta.
  set (h := month_histogram_from [] (js ++ es)).
  remember (stable_sort String.leb (keys h)) as sorted eqn:Hsorted.
  assert (Hperm : Permutation sorted (keys h)) by (subst sorted; apply stable_sort_perm).
  assert (Hnodup : NoDup (keys h)) by (apply month_histogram_NoDup; constructor).
  split; [|split; [|split; [|split; [|split]]]].
  - do 3 eexists. rewrite calculateStatistics_objects. fold h.
    unfold statistics_text.
    replace (activity_by_month h)
      with (match sorted with
            | [] => ""
            | _ :: _ =>
                "- Activity by Month:" ++ nl
                ++ String.concat ""
                     (map (fun k => "  " ++ k ++ ": "
                                    ++ string_of_nat
                                         (List.length (filter (in_month k) (js ++ es)))
                                    ++ " events" ++ nl)
                        (skipn (List.length sorted - 6) sorted))
            end); [reflexivity|].
    unfold activity_by_month. rewrite <- Hsorted. clear Hsorted.
    destruct sorted as [|s0 ss], (keys h) as [|k0 ks].
    + reflexivity.
    + apply Permutation_nil in Hperm. discriminate Hperm.
    + apply Permutation_sym, Permutation_nil in Hperm. discriminate Hperm.
    + unfold slice_last. do 3 f_equal. apply map_ext. intros k.
      unfold month_line. subst h. now rewrite month_histogram_count.
  - intros k. split.
    + intros Hin. apply (Permutation_in _ Hperm) in Hin.
      apply month_histogram_keys in Hin as [[]|Hin]. exact Hin.
    + intros Hr. apply (Permutation_in _ (Permutation_sym Hperm)).
      apply month_histogram_keys. now right.
  - apply (Permutation_NoDup (Permutation_sym Hperm) Hnodup).
  - subst sorted. apply stable_sort_Sorted, string_leb_total.
  - exists (firstn (List.length sorted - 6) sorted). symmetry. apply skipn_suffix.
  - rewrite length_skipn. lia.
Qed.

(** ** More of the specification's examples *)

(** A stay with check-in date ["2025-09-09"] renders that date in the
    long format. *)
Theorem stay_check_in_is_formatted `{Host} (t : Z) :
  Date_parse "2025-09-09" = Some t ->
  _buildOnStaysSection (Val [Some [("checkInDate", JStr "2025-09-09")]])
  = Normal ("ON STAYS (1 total):" ++ nl
            ++ "- Unknown Location" ++ nl
            ++ "  Check-in: " ++ formatLongDate t ++ nl
            ++ "  Cost: TBD USD" ++ nl
            ++ nl).
Proof.
  intros Ht. unfold _buildOnStaysSection.
  cbn [none_or_empty elements slice0 firstn forEach append_block the_object cbind].
  unfold stay_block. cbn [prop String.eqb Ascii.eqb Bool.eqb truthy negb when].
  cbn [newDate _formatDisplayDate toLocaleDateString]. rewrite Ht.
  cbn. rewrite !append_assoc. reflexivity.
Qed.

(** On the reference host the date is Tuesday, September 9, 2025. *)
Lemma stay_check_in_is_formatted_witness :
  @Date_parse RefHost.host "2025-09-09" = Some 1757376000000
  /\ @_buildOnStaysSection RefHost.host (Val [Some [("checkInDate", JStr "2025-09-09")]])
     = Normal ("ON STAYS (1 total):" ++ nl
               ++ "- Unknown Location" ++ nl
               ++ "  Check-in: Tuesday, September 9, 2025" ++ nl
               ++ "  Cost: TBD USD" ++ nl
               ++ nl).
Proof.
  split; [reflexivity|].
  exact (@stay_check_in_is_formatted RefHost.host 1757376000000 eq_refl).
Defined.

(** A job with a date is counted once, as upcoming when its date is
    later than the reading and as completed otherwise (also when its
    date is invalid); a job without a date is counted as neither. *)
Theorem dated_job_is_upcoming_or_completed `{Host} (now_ : Date) (job : JsObj) :
  (truthy (prop job "date") = true ->
   is_completed now_ job = negb (is_upcoming now_ job))
  /\ (truthy (prop job "date") = false ->
      is_upcoming now_ job = false /\ is_completed now_ job = false)
  /\ (newDate (prop job "date") = None -> is_upcoming now_ job = false).
Proof.
  unfold is_upcoming, is_completed. split; [|split].
  - intros ->. reflexivity.
  - intros ->. split; reflexivity.
  - intros ->. cbn. apply andb_false_r.
Qed.

(** Three records of one future date, one in each category, come out
    in the order job, event, meeting. *)
Theorem calendar_tie_order (clock : Clock) (n : nat) :
  clock n = 1754000000000 ->
  @_getCalendarSummary RefHost.host (Val [Some same_day_job]) (Val [Some same_day_event])
    (Val [Some same_day_meeting]) clock n
  = (Normal ("UPCOMING CALENDAR (Next 3 Events):" ++ nl
             ++ "- Tuesday, January 1, 2030: JOB - J" ++ nl ++ nl
             ++ "- Tuesday, January 1, 2030: EVENT - E" ++ nl ++ nl
             ++ "- Tuesday, January 1, 2030: MEETING - M" ++ nl ++ nl),
     S n).
Proof.
  intros Hc. unfold _getCalendarSummary, try_catch, bind, now, lift. rewrite Hc.
  vm_compute. reflexivity.
Qed.

(** The tie order at a reading of July 2025. *)
Lemma calendar_tie_order_witness :
  let clock : Clock := fun _ => 1754000000000 in
  clock 0%nat = 1754000000000
  /\ @_getCalendarSummary RefHost.host (Val [Some same_day_job]) (Val [Some same_day_event])
       (Val [Some same_day_meeting]) clock 0%nat
     = (Normal ("UPCOMING CALENDAR (Next 3 Events):" ++ nl
                ++ "- Tuesday, January 1, 2030: JOB - J" ++ nl ++ nl
                ++ "- Tuesday, January 1, 2030: EVENT - E" ++ nl ++ nl
                ++ "- Tuesday, January 1, 2030: MEETING - M" ++ nl ++ nl),
        1%nat).
Proof.
  intros clock. split; [reflexivity|].
  exact (calendar_tie_order clock 0%nat eq_refl).
Defined.

(** ** Null elements and the two outcomes of the assembler *)

Lemma objects_map_Some (l : list JsObj) : objects (map Some l) = l.
Proof. induction l as [|o l IH]; simpl; congruence. Qed.

Lemma no_null_objects (l : JsArray) : has_null l = false -> l = map Some (objects l).
Proof.
  induction l as [|[o|] l IH]; simpl; intros Hn; try discriminate; [reflexivity|].
  now rewrite <- IH.
Qed.

Lemma has_null_split (l : JsArray) :
  has_null l = true -> exists l1 l2, l = (map Some l1 ++ None :: l2)%list.
Proof.
  induction l as [|[o|] l IH]; simpl; intros Hn; try discriminate.
  - destruct (IH Hn) as (l1 & l2 & ->). now exists (o :: l1), l2.
  - now exists [], l.
Qed.

Lemma append_block_fails (block : JsObj -> string) (l : JsArray) (s : string) :
  has_null l = true -> forEach (append_block block) l s = Throw.
Proof.
  intros Hn. destruct (has_null_split l Hn) as (l1 & l2 & ->).
  apply forEach_null_element; [reflexivity|]. intros s' o. now eexists.
Qed.

Lemma append_block_succeeds (block : JsObj -> string) (l : JsArray) (s : string) :
  has_null l = false ->
  forEach (append_block block) l s = Normal (s ++ String.concat "" (map block (objects l))).
Proof.
  intros Hn. rewrite (no_null_objects l Hn) at 1. apply forEach_append_block.
Qed.


Lemma none_or_empty_default {A : Type} (x : Nullable (list A)) :
  none_or_empty (default_to [] x) = none_or_empty x.
Proof. now destruct x. Qed.

Lemma none_or_empty_elements {A : Type} (x : Nullable (list A)) :
  none_or_empty x = true -> elements x = [].
Proof. destruct x as [| |[|a l]]; simpl; congruence. Qed.

Lemma firstn_nil_any {A : Type} (k : nat) : firstn k (@nil A) = [].
Proof. now destruct k. Qed.

Section FormatterOutcomes.
Context `{Host}.

(** A formatter with cap [k] on the collection [x]. *)
Lemma capped_formatter (block : JsObj -> string) (k : nat) (x : Nullable JsArray)
  (empty header : string) :
  (if none_or_empty x then Normal empty
   else forEach (append_block block) (slice0 k (elements x)) header)
  = if has_null (firstn k (elements x)) then Throw
    else Normal (if none_or_empty x then empty
                 else header ++ String.concat "" (map block (objects (firstn k (elements x))))).
Proof.
  destruct (none_or_empty x) eqn:E.
  - rewrite (none_or_empty_elements x E), firstn_nil_any. reflexivity.
  - unfold slice0. destruct (has_null (firstn k (elements x))) eqn:Hn.
    + now apply append_block_fails.
    + now apply append_block_succeeds.
Qed.

Lemma uncapped_formatter (block : JsObj -> string) (x : Nullable JsArray)
  (empty header : string) :
  (if none_or_empty x then Normal empty
   else forEach (append_block block) (elements x) header)
  = if has_null (elements x) then Throw
    else Normal (if none_or_empty x then empty
                 else header ++ String.concat "" (map block (objects (elements x)))).
Proof.
  destruct (none_or_empty x) eqn:E.
  - rewrite (none_or_empty_elements x E). reflexivity.
  - destruct (has_null (elements x)) eqn:Hn.
    + now apply append_block_fails.
    + now apply append_block_succeeds.
Qed.

Lemma jobs_formatter (x : Nullable JsArray) (clock : Clock) (n : nat) :
  exists text,
    _buildJobsSection x clock n
    = (if has_null (elements x) then Throw else Normal text, (n + jobs_reads x)%nat).
Proof.
  unfold _buildJobsSection, jobs_reads. destruct (none_or_empty x) eqn:E.
  - rewrite (none_or_empty_elements x E). cbn. rewrite Nat.add_0_r.
    eexists. reflexivity.
  - unfold bind, now, lift, ret. rewrite Nat.add_1_r.
    destruct (has_null (elements x)) eqn:Hn.
    + destruct (has_null_split _ Hn) as (l1 & l2 & ->).
      rewrite forEach_null_element; [exists ""; reflexivity | reflexivity |].
      intros st o. eexists. apply jobs_loop_body_object.
    + rewrite (no_null_objects _ Hn), jobs_loop_objects. eexists. reflexivity.
Qed.

Lemma statistics_returns (js es : Nullable JsArray) (clock : Clock) (n : nat) :
  exists text, _calculateStatistics js es clock n = (Normal text, S n).
Proof.
  unfold _calculateStatistics, try_catch, bind, now, lift.
  destruct (statistics_body _ _ _); eauto.
Qed.

Lemma calendar_returns (js es ms : Nullable JsArray) (clock : Clock) (n : nat) :
  exists text, _getCalendarSummary js es ms clock n = (Normal text, S n).
Proof.
  unfold _getCalendarSummary, try_catch, bind, now, lift.
  destruct (calendar_body _ _ _ _); eauto.
Qed.

Lemma outcome_text (c : completion string) (fails : bool) (t : string) :
  c = (if fails then Throw else Normal t) ->
  c = if fails then Throw else Normal (text_of c).
Proof. intros ->. now destruct fails. Qed.

Lemma events_outcome (x : Nullable JsArray) :
  _buildEventsSection (default_to [] x)
  = if has_null (firstn 20 (elements x)) then Throw
    else Normal (text_of (_buildEventsSection x)).
Proof.
  replace (_buildEventsSection (default_to [] x)) with (_buildEventsSection x)
    by now destruct x.
  eapply outcome_text. apply capped_formatter.
Qed.

Lemma aiJobs_outcome (x : Nullable JsArray) :
  _buildAiJobsSection (default_to [] x)
  = if has_null (firstn 5 (elements x)) then Throw
    else Normal (text_of (_buildAiJobsSection x)).
Proof.
  replace (_buildAiJobsSection (default_to [] x)) with (_buildAiJobsSection x)
    by now destruct x.
  eapply outcome_text. apply capped_formatter.
Qed.

Lemma agencies_outcome (x : Nullable JsArray) :
  _buildAgenciesSection (default_to [] x)
  = if has_null (elements x) then Throw
    else Normal (text_of (_buildAgenciesSection x)).
Proof.
  replace (_buildAgenciesSection (default_to [] x)) with (_buildAgenciesSection x)
    by now destruct x.
  eapply outcome_text. apply uncapped_formatter.
Qed.

Lemma agents_outcome (x : Nullable JsArray) :
  _buildAgentsSection (default_to [] x)
  = if has_null (elements x) then Throw
    else Normal (text_of (_buildAgentsSection x)).
Proof.
  replace (_buildAgentsSection (default_to [] x)) with (_buildAgentsSection x)
    by now destruct x.
  eapply outcome_text. apply uncapped_formatter.
Qed.

Lemma meetings_outcome (x : Nullable JsArray) :
  _buildMeetingsSection (default_to [] x)
  = if has_null (firstn 10 (elements x)) then Throw
    else Normal (text_of (_buildMeetingsSection x)).
Proof.
  replace (_buildMeetingsSection (default_to [] x)) with (_buildMeetingsSection x)
    by now destruct x.
  eapply outcome_text. apply capped_formatter.
Qed.

Lemma onStays_outcome (x : Nullable JsArray) :
  _buildOnStaysSection (default_to [] x)
  = if has_null (firstn 10 (elements x)) then Throw
    else Normal (text_of (_buildOnStaysSection x)).
Proof.
  replace (_buildOnStaysSection (default_to [] x)) with (_buildOnStaysSection x)
    by now destruct x.
  eapply outcome_text. apply capped_formatter.
Qed.

Lemma shootings_outcome (x : Nullable JsArray) :
  _buildShootingsSection (default_to [] x)
  = if has_null (firstn 10 (elements x)) then Throw
    else Normal (text_of (_buildShootingsSection x)).
Proof.
  replace (_buildShootingsSection (default_to [] x)) with (_buildShootingsSection x)
    by now destruct x.
  eapply outcome_text. apply capped_formatter.
Qed.

Lemma jobs_outcome (x : Nullable JsArray) (clock : Clock) (n : nat) :
  _buildJobsSection (default_to [] x) clock n
  = (if has_null (elements x) then Throw
     else Normal (text_of (fst (_buildJobsSection x clock n))),
     (n + jobs_reads x)%nat).
Proof.
  replace (_buildJobsSection (default_to [] x)) with (_buildJobsSection x)
    by now destruct x.
  destruct (jobs_formatter x clock n) as [t ->].
  now destruct (has_null (elements x)).
Qed.

Lemma statistics_outcome (js es : Nullable JsArray) (clock : Clock) (n : nat) :
  _calculateStatistics (default_to [] js) (default_to [] es) clock n
  = (Normal (text_of (fst (_calculateStatistics js es clock n))), S n).
Proof.
  replace (_calculateStatistics (default_to [] js) (default_to [] es))
    with (_calculateStatistics js es) by now destruct js, es.
  now destruct (statistics_returns js es clock n) as [t ->].
Qed.

Lemma calendar_outcome (js es ms : Nullable JsArray) (clock : Clock) (n : nat) :
  _getCalendarSummary (default_to [] js) (default_to [] es) (default_to [] ms) clock n
  = (Normal (text_of (fst (_getCalendarSummary js es ms clock n))), S n).
Proof.
  replace (_getCalendarSummary (default_to [] js) (default_to [] es) (default_to [] ms))
    with (_getCalendarSummary js es ms) by now destruct js, es, ms.
  now destruct (calendar_returns js es ms clock n) as [t ->].
Qed.

Lemma build_sections_outcome (b : Bundle) (clock : Clock) (n : nat) :
  build_sections b clock n
  = if formatter_fails b then (Throw, (n + jobs_reads (jobs b))%nat)
    else (Normal (sections_of b clock n), (n + jobs_reads (jobs b) + 2)%nat).
Proof.
  unfold build_sections, formatter_fails, sections_of.
  unfold bind at 1. rewrite jobs_outcome.
  destruct (has_null (elements (jobs b))); cbn [orb]; [reflexivity|].
  unfold bind at 1. unfold lift at 1. rewrite events_outcome.
  destruct (has_null (firstn 20 (elements (events b)))); cbn [orb]; [reflexivity|].
  unfold bind at 1. unfold lift at 1. rewrite aiJobs_outcome.
  destruct (has_null (firstn 5 (elements (aiJobs b)))); cbn [orb]; [reflexivity|].
  unfold bind at 1. unfold lift at 1. rewrite agencies_outcome.
  destruct (has_null (elements (agencies b))); cbn [orb]; [reflexivity|].
  unfold bind at 1. unfold lift at 1. rewrite agents_outcome.
  destruct (has_null (elements (agents b))); cbn [orb]; [reflexivity|].
  unfold bind at 1. unfold lift at 1. rewrite meetings_outcome.
  destruct (has_null (firstn 10 (elements (meetings b)))); cbn [orb]; [reflexivity|].
  unfold bind at 1. unfold lift at 1. rewrite onStays_outcome.
  destruct (has_null (firstn 10 (elements (onStays b)))); cbn [orb]; [reflexivity|].
  unfold bind at 1. unfold lift at 1. rewrite shootings_outcome.
  destruct (has_null (firstn 10 (elements (shootings b)))); cbn [orb]; [reflexivity|].
  unfold bind at 1. rewrite statistics_outcome.
  unfold bind at 1. rewrite calendar_outcome.
  unfold ret. f_equal; [|lia].
  now rewrite Nat.add_1_r.
Qed.

Lemma template_is_not_the_error_line (s : Sections) (d t : string) :
  context_template s d t <> generic_error_line.
Proof. discriminate. Qed.

End FormatterOutcomes.

Lemma buildUserContext_outcome `{Host} (b : Bundle) (clock : Clock) (n : nat) :
  buildUserContext (Val b) clock n
  = (if formatter_fails b then (Normal generic_error_line, (n + jobs_reads (jobs b))%nat)
     else (Normal (context_template (sections_of b clock n)
                     (formatLongDate (clock (n + jobs_reads (jobs b) + 2)%nat))
                     (formatHourMinute (clock (n + jobs_reads (jobs b) + 3)%nat))),
           (n + jobs_reads (jobs b) + 4)%nat)).
Proof.
  unfold buildUserContext, try_catch. cbn [default_to]. unfold bind at 1.
  rewrite build_sections_outcome.
  destruct (formatter_fails b); [reflexivity|].
  unfold bind, now, ret. cbn [_formatDisplayDate _formatTime toLocaleDateString toLocaleTimeString].
  repeat f_equal; lia.
Qed.

(** The two outcomes of [buildUserContext]. When a formatter meets a
    null element (anywhere in jobs, agencies or agents; within the first
    20 events, 5 AI jobs, 10 meetings, 10 stays or 10 shootings) the
    result is the generic error line. Otherwise it is the template filled
    with what each formatter returns, the statistics and the calendar
    included, followed by the date and time of two further clock
    readings; the clock is then read four times, five when there are
    jobs. The two results are never the same text. *)
Theorem context_or_generic_error `{Host} (b : Bundle) (clock : Clock) (n : nat) :
  let r := jobs_reads (jobs b) in
  buildUserContext (Val b) clock n
  = (if formatter_fails b then (Normal generic_error_line, (n + r)%nat)
     else (Normal (context_template (sections_of b clock n)
                     (formatLongDate (clock (n + r + 2)%nat))
                     (formatHourMinute (clock (n + r + 3)%nat))),
           (n + r + 4)%nat))
  /\ (forall s d t, context_template s d t <> generic_error_line).
Proof.
  split; [apply buildUserContext_outcome | apply template_is_not_the_error_line].
Qed.

Lemma has_null_app (l1 l2 : JsArray) :
  has_null (l1 ++ l2)%list = has_null l1 || has_null l2.
Proof. apply existsb_app. Qed.

Lemma objects_app (l1 l2 : JsArray) :
  objects (l1 ++ l2)%list = (objects l1 ++ objects l2)%list.
Proof. induction l1 as [|[o|] l1 IH]; simpl; congruence. Qed.

Section StatisticsOutcomes.
Context `{Host}.

Lemma stats_loop_fails (now_ : Date) (l : JsArray) (st : StatsLoop) :
  has_null l = true -> forEach (stats_loop_body now_) l st = Throw.
Proof.
  intros Hn. destruct (has_null_split l Hn) as (l1 & l2 & ->).
  apply forEach_null_element; [reflexivity|].
  intros st' o. eexists. apply stats_loop_body_object.
Qed.

Lemma month_loop_fails (l : JsArray) (h : Histogram) :
  has_null l = true -> forEach month_loop_body l h = Throw.
Proof.
  intros Hn. destruct (has_null_split l Hn) as (l1 & l2 & ->).
  apply forEach_null_element; [reflexivity|].
  intros h' o. unfold month_loop_body. cbn [the_object cbind].
  destruct (truthy (if truthy (prop o "date") then prop o "date" else JNull)); eauto.
Qed.

Lemma statistics_text_is_not_the_error_line (st : StatsLoop) (a b : nat) (h : Histogram) :
  statistics_text st a b h <> statistics_error_line.
Proof. discriminate. Qed.

Lemma statistics_body_outcome (now_ : Date) (js es : JsArray) :
  statistics_body now_ (Val js) (Val es)
  = if has_null js || has_null es then Throw
    else Normal (statistics_text (stats_loop_result now_ stats_loop_start (objects js))
                   (List.length js) (List.length es)
                   (month_histogram_from [] (objects js ++ objects es)%list)).
Proof.
  unfold statistics_body. cbn [forEach_on spread]. fold stats_loop_start.
  destruct (has_null js) eqn:Hj; cbn [orb].
  - now rewrite stats_loop_fails.
  - rewrite (no_null_objects js Hj) at 1. rewrite stats_loop_objects. cbn [cbind].
    destruct (has_null es) eqn:He.
    + rewrite month_loop_fails; [reflexivity|]. now rewrite has_null_app, He, orb_true_r.
    + rewrite (no_null_objects (js ++ es)%list) by now rewrite has_null_app, Hj, He.
      rewrite month_loop_objects, objects_app. reflexivity.
Qed.

Lemma statistics_body_null_events (now_ : Date) (js : JsArray) :
  statistics_body now_ (Val js) Null = Throw.
Proof.
  unfold statistics_body. cbn [forEach_on spread].
  now destruct (forEach _ _ _).
Qed.

End StatisticsOutcomes.

Lemma calculateStatistics_outcome `{Host} (js es : Nullable JsArray) (clock : Clock) (n : nat) :
  _calculateStatistics js es clock n
  = (Normal (if statistics_fails js es then statistics_error_line
             else statistics_text
                    (stats_loop_result (Some (clock n)) stats_loop_start (objects (elements js)))
                    (List.length (elements js)) (List.length (elements es))
                    (month_histogram_from [] (objects (elements js) ++ objects (elements es))%list)),
     S n).
Proof.
  unfold _calculateStatistics, try_catch, bind, now, lift, statistics_fails.
  destruct js as [| |js], es as [| |es];
    cbn [default_to is_null orb elements];
    try rewrite statistics_body_outcome;
    try rewrite statistics_body_null_events;
    try reflexivity;
    match goal with |- context [if ?c then Throw else _] => destruct c end; reflexivity.
Qed.

(** The statistics section never throws and reads the clock once. It is
    the error line exactly when [jobs] or [events] is null or holds a null
    element; otherwise it is the statistics of the records. *)
Theorem statistics_or_error_line `{Host} (js es : Nullable JsArray) (clock : Clock) (n : nat) :
  _calculateStatistics js es clock n
  = (Normal (if statistics_fails js es then statistics_error_line
             else statistics_text
                    (stats_loop_result (Some (clock n)) stats_loop_start (objects (elements js)))
                    (List.length (elements js)) (List.length (elements es))
                    (month_histogram_from [] (objects (elements js) ++ objects (elements es))%list)),
     S n)
  /\ (forall st a b h, statistics_text st a b h <> statistics_error_line).
Proof.
  split; [apply calculateStatistics_outcome | apply statistics_text_is_not_the_error_line].
Qed.

Section CalendarOutcomes.
Context `{Host}.

Lemma push_upcoming_skips_null (mk : JsObj -> Date -> CalItem) (now_ : Date)
  (l : JsArray) (acc : list CalItem) :
  forEach (push_upcoming mk now_) l acc
  = Normal (acc ++ upcoming_items mk now_ (objects l))%list.
Proof.
  revert acc. induction l as [|[r|] l IH]; intros acc.
  - cbn. now rewrite app_nil_r.
  - change (Some r :: l) with (map Some [r] ++ l)%list.
    cbn [map app forEach]. 
    pose proof (push_upcoming_objects mk now_ [r] acc) as E. cbn [map forEach] in E.
    destruct (push_upcoming mk now_ acc (Some r)) as [acc'|]; [|discriminate E].
    injection E as ->. rewrite IH. cbn [objects].
    unfold upcoming_items. cbn [filter].
    destruct (is_upcoming now_ r); cbn [map app]; now rewrite <- ?app_assoc, ?app_nil_r.
  - cbn [forEach objects]. rewrite push_upcoming_null. apply IH.
Qed.

Lemma upcoming_items_length (mk : JsObj -> Date -> CalItem) (now_ : Date) (l : list JsObj) :
  List.length (upcoming_items mk now_ l) = List.length (filter (is_upcoming now_) l).
Proof. unfold upcoming_items. apply length_map. Qed.

End CalendarOutcomes.

Lemma getCalendarSummary_outcome `{Host} (js es ms : Nullable JsArray)
  (clock : Clock) (n : nat) :
  _getCalendarSummary js es ms clock n
  = (Normal (if is_null js || is_null es || is_null ms then calendar_error_line
             else calendar_text
                    (firstn 10
                       (stable_sort date_le
                          (merged_upcoming (Some (clock n)) (objects (elements js))
                             (objects (elements es)) (objects (elements ms)))))),
     S n).
Proof.
  unfold _getCalendarSummary, try_catch, bind, now, lift, calendar_body, merged_upcoming.
  destruct js as [| |js]; cbn [default_to is_null orb elements forEach_on cbind objects];
    [|reflexivity|];
    rewrite push_upcoming_skips_null; cbn [cbind app];
    (destruct es as [| |es]; cbn [default_to is_null orb elements forEach_on cbind objects];
     [|reflexivity|]);
    rewrite push_upcoming_skips_null; cbn [cbind app];
    (destruct ms as [| |ms]; cbn [default_to is_null orb elements forEach_on cbind objects];
     [|reflexivity|]);
    rewrite push_upcoming_skips_null; cbn [cbind app];
    rewrite <- ?app_assoc; reflexivity.
Qed.

(** The calendar never throws and reads the clock once. It is the error
    line exactly when one of the three collections is null. A null
    element throws inside the [try] of its own loop body and is passed
    over, so otherwise the text is the calendar of the records: the "no
    upcoming events" line, or a header with the number of entries and one
    entry for each of the first ten upcoming records in date order. That
    number is the number of upcoming records, at most 10. *)
Theorem calendar_skips_null_elements `{Host} (js es ms : Nullable JsArray)
  (clock : Clock) (n : nat) :
  let now_ := Some (clock n) in
  let upcoming r := truthy (prop r "date") && date_gt (newDate (prop r "date")) now_ in
  let records x := filter upcoming (objects (elements x)) in
  let of_job r :=
    {| item_type := "job";
       item_title := or_else (prop r "clientName") (JStr "Unknown Client");
       item_date := newDate (prop r "date");
       item_time := or_else (prop r "time") (JStr "");
       item_location := or_else (prop r "location") (JStr "") |} in
  let of_event r :=
    {| item_type := if truthy (prop r "type")
                    then last_dot_segment (ToString (prop r "type"))
                    else "event";
       item_title := or_else (prop r "clientName") (JStr "Event");
       item_date := newDate (prop r "date");
       item_time := or_else (prop r "startTime") (JStr "");
       item_location := or_else (prop r "location") (JStr "") |} in
  let of_meeting r :=
    {| item_type := "meeting";
       item_title := or_else (prop r "clientName") (JStr "Unknown Client");
       item_date := newDate (prop r "date");
       item_time := or_else (prop r "time") (JStr "");
       item_location := or_else (prop r "location") (JStr "") |} in
  let merged :=
    (map of_job (records js) ++ map of_event (records es) ++ map of_meeting (records ms))%list in
  let top := firstn 10 (stable_sort date_le merged) in
  let entry x :=
    "- " ++ match item_date x with
            | Some t => formatLongDate t
            | None => "Invalid Date"
            end
    ++ (if truthy (item_time x) then " at " ++ ToString (item_time x) else "") ++ ": "
    ++ toUpperCase (item_type x) ++ " - " ++ ToString (item_title x) ++ nl
    ++ (if truthy (item_location x) then "  Location: " ++ ToString (item_location x) ++ nl
        else "")
    ++ nl in
  let text :=
    match top with
    | [] => "UPCOMING CALENDAR: No upcoming events scheduled."
    | _ =>
        "UPCOMING CALENDAR (Next " ++ string_of_nat (List.length top) ++ " Events):" ++ nl
        ++ String.concat "" (map entry top)
    end in
  _getCalendarSummary js es ms clock n
  = (Normal (match js, es, ms with
             | Null, _, _ | _, Null, _ | _, _, Null =>
                 "UPCOMING CALENDAR: Error loading calendar data."
             | _, _, _ => text
             end),
     S n)
  /\ List.length top
     = Nat.min 10 (List.length (records js) + List.length (records es)
                   + List.length (records ms))
  /\ text <> "UPCOMING CALENDAR: Error loading calendar data.".
Proof.
  cbv zeta. split; [|split].
  - rewrite getCalendarSummary_outcome. unfold calendar_error_line.
    destruct js as [| |js], es as [| |es], ms as [| |ms]; reflexivity.
  - rewrite length_firstn, (Permutation_length (stable_sort_perm date_le _)).
    now rewrite !length_app, !length_map, Nat.add_assoc.
  - destruct (firstn 10 _); discriminate.
Qed.

Section JobCounts.
Context `{Host}.

Lemma upcoming_completed_partition (now_ : Date) (l : list JsObj) :
  (List.length (filter (is_upcoming now_) l) + List.length (filter (is_completed now_) l))%nat
  = List.length (filter has_date l).
Proof.
  induction l as [|r l IH]; [reflexivity|].
  cbn [filter]. unfold is_upcoming at 1, is_completed at 1, has_date at 1.
  destruct (truthy (prop r "date")); cbn [andb]; [|exact IH].
  destruct (date_gt (newDate (prop r "date")) now_); cbn [negb List.length]; lia.
Qed.

End JobCounts.

(** For lists of records, the statistics print the total number of jobs
    and two counts that add up to the number of jobs that have a date:
    every dated job is either upcoming or completed, never both, and an
    undated job is in neither count. *)
Theorem job_counts_add_up `{Host} (js es : list JsObj) (clock : Clock) (n : nat) :
  exists income upcoming completed activity,
    _calculateStatistics (Val (map Some js)) (Val (map Some es)) clock n
    = (Normal ("STATISTICS:" ++ nl
               ++ "- Total Income: $" ++ income ++ " USD" ++ nl
               ++ "- Total Jobs: " ++ string_of_nat (List.length js) ++ nl
               ++ "- Upcoming Jobs: " ++ string_of_nat upcoming ++ nl
               ++ "- Completed Jobs: " ++ string_of_nat completed ++ nl
               ++ "- Total Events: " ++ string_of_nat (List.length es) ++ nl
               ++ activity),
       S n)
    /\ (upcoming + completed)%nat = List.length (filter has_date js)
    /\ (upcoming + completed <= List.length js)%nat
    /\ upcoming = List.length (filter (is_upcoming (Some (clock n))) js).
Proof.
  do 4 eexists. split; [|split; [|split]].
  - rewrite calculateStatistics_objects. unfold statistics_text, stats_loop_result.
    cbn [sl_totalIncome sl_upcomingJobs sl_completedJobs stats_loop_start Nat.add].
    reflexivity.
  - apply upcoming_completed_partition.
  - rewrite upcoming_completed_partition. apply filter_length_le.
  - reflexivity.
Qed.

(** A date that is not a string (a timestamp, say) is a date for the
    counters, which build a [Date] from it, but not for the formatter,
    which prints [Date TBD]: such a job is counted as upcoming or
    completed and listed without its date. *)
Theorem non_string_date_is_counted_but_not_printed `{Host} (job : JsObj)
  (clock : Clock) (n : nat) :
  truthy (prop job "date") = true ->
  (forall s, prop job "date" <> JStr s) ->
  exists rest st,
    job_block job = "- Date TBD: " ++ rest
    /\ _buildJobsSection (Val [Some job]) clock n
       = (Normal ("JOBS (1 total):" ++ nl ++ job_block job ++ jobs_summary st), S n)
    /\ (jl_upcomingJobs st + jl_completedJobs st = 1)%nat.
Proof.
  intros Ht Hs.
  assert (Hd : _formatJobDate (prop job "date") = "Date TBD").
  { unfold _formatJobDate. rewrite Ht. cbn [negb].
    destruct (prop job "date"); try reflexivity. now elim (Hs s). }
  eexists. exists (jobs_loop_result (Some (clock n)) (jobs_loop_start 1) [job]).
  split; [|split].
  - unfold job_block. rewrite Hd. reflexivity.
  - change [Some job] with (map Some [job]). rewrite buildJobsSection_objects. cbv zeta.
    unfold jobs_loop_result at 1. cbn [jl_section jobs_loop_start List.length map].
    rewrite concat_cons. cbn [String.concat]. rewrite append_nil_r.
    now rewrite !append_assoc.
  - unfold jobs_loop_result, jobs_loop_start, is_upcoming, is_completed.
    cbn [jl_upcomingJobs jl_completedJobs filter]. rewrite Ht. cbn [andb].
    now destruct (date_gt _ _).
Qed.

(** A job dated by the number 1755216000000 (15 August 2025). *)
Lemma non_string_date_is_counted_but_not_printed_witness :
  let job := [("date", JNum 1755216000000)] in
  truthy (prop job "date") = true
  /\ (forall s, prop job "date" <> JStr s)
  /\ exists rest st,
       @job_block RefHost.host job = "- Date TBD: " ++ rest
       /\ @_buildJobsSection RefHost.host (Val [Some job]) (fun _ => 0) 0%nat
          = (Normal ("JOBS (1 total):" ++ nl ++ @job_block RefHost.host job ++ jobs_summary st),
             1%nat)
       /\ (jl_upcomingJobs st + jl_completedJobs st = 1)%nat.
Proof.
  intros job.
  assert (Ht : truthy (prop job "date") = true) by reflexivity.
  assert (Hs : forall s, prop job "date" <> JStr s) by (intros s; discriminate).
  split; [exact Ht|]. split; [exact Hs|].
  exact (@non_string_date_is_counted_but_not_printed RefHost.host job (fun _ => 0) 0%nat Ht Hs).
Defined.

(** ** The endpoints *)

Lemma map_conversation_records (l : list ConvMsg) :
  map_conversation (map Some l) = Ok (map chat_message_of l).
Proof. induction l as [|m l IH]; [reflexivity|]. cbn [map map_conversation]. now rewrite IH. Qed.


Lemma find_context_message_records (l : list ConvMsg) :
  find_context_message (map Some l) = Ok (find carries_context l).
Proof.
  induction l as [|m l IH]; [reflexivity|]. cbn [map find_context_message find].
  now destruct (carries_context m).
Qed.

Lemma some_carries_context_records (l : list ConvMsg) :
  some_carries_context (map Some l) = Ok (existsb carries_context l).
Proof.
  induction l as [|m l IH]; [reflexivity|]. cbn [map some_carries_context existsb].
  now destruct (carries_context m).
Qed.

Lemma some_carries_context_false (l : Conversation) :
  some_carries_context l = Ok false ->
  exists l', l = map Some l' /\ find carries_context l' = None
             /\ find_context_message l = Ok None /\ some_has_data l = Ok false.
Proof.
  induction l as [|[m|] l IH]; cbn [some_carries_context]; intros E.
  - now exists [].
  - destruct (carries_context m) eqn:Hc; [discriminate|].
    destruct (IH E) as (l' & -> & Hf & Hfind & Hsome).
    exists (m :: l'). cbn [map find find_context_message some_has_data]. rewrite Hc.
    unfold carries_context in Hc. apply orb_false_iff in Hc as [Hu Hx].
    rewrite Hu. unfold mentions_profile. rewrite Hx. now repeat split.
  - discriminate.
Qed.

Section EndpointFacts.
Context `{Host}.
Variable Usage : Type.
Variable engine_text : string -> string.
Variable openai_create : list ChatMessage -> ApiResult Usage.

Lemma run_buildUserContext (b : Bundle) (clock : Clock) (w : World) :
  exists s n,
    buildUserContext (Val b) clock (w_reads w) = (Normal s, n)
    /\ run (buildUserContext (Val b)) clock w
       = (Ok s, {| w_reads := n; w_calls := w_calls w |})
    /\ (w_reads w <= n <= w_reads w + 5)%nat.
Proof.
  unfold run. rewrite buildUserContext_outcome.
  assert (jobs_reads (jobs b) <= 1)%nat by (unfold jobs_reads; destruct (none_or_empty _); lia).
  destruct (formatter_fails b); do 2 eexists; (split; [reflexivity|]);
    (split; [reflexivity | lia]).
Qed.

(** The selection sends nothing to the model and reads the clock only
    through [ContextService]. *)
Lemma select_context_effects (context : Json) (userData : Nullable UserData)
  (conversation : Nullable Conversation) (clock : Clock) (w : World) :
  let r := select_context context userData conversation clock w in
  w_calls (snd r) = w_calls w /\ (w_reads w <= w_reads (snd r) <= w_reads w + 5)%nat.
Proof.
  unfold select_context, hbind, hlift, hret.
  destruct (usable_context context); [cbn; split; [reflexivity | lia]|].
  destruct (has_keys userData).
  - destruct userData as [| |u]; try (cbn; split; [reflexivity | lia]).
    destruct (run_buildUserContext (ud_bundle u) clock w) as (s & n & _ & -> & Hn).
    cbn. split; [reflexivity | exact Hn].
  - destruct conversation as [| |[|x l]]; try (cbn; split; [reflexivity | lia]).
    destruct (find_context_message (x :: l)) as [[m|]|e];
      try (cbn; split; [reflexivity | lia]).
    destruct (msg_userData m) as [| |u].
    + destruct (truthy_json (json_prop (msg_fields m) "context")); cbn; split; (reflexivity || lia).
    + destruct (truthy_json (json_prop (msg_fields m) "context")); cbn; split; (reflexivity || lia).
    + destruct (run_buildUserContext (ud_bundle u) clock w) as (s & n & _ & -> & Hn).
      cbn. split; [reflexivity | exact Hn].
Qed.

(** The selection throws only a [TypeError]. *)
Lemma select_context_raises (context : Json) (userData : Nullable UserData)
  (conversation : Nullable Conversation) (clock : Clock) (w : World) (e : JsError) :
  fst (select_context context userData conversation clock w) = Raise e ->
  error_code e = JUndefined.
Proof.
  unfold select_context, hbind, hlift, hret.
  destruct (usable_context context); [discriminate|].
  destruct (has_keys userData).
  - destruct userData as [| |u]; try discriminate.
    destruct (run_buildUserContext (ud_bundle u) clock w) as (s & n & _ & -> & Hn).
    discriminate.
  - destruct conversation as [| |[|x l]]; try discriminate.
    assert (He : forall l0 e0, find_context_message l0 = Raise e0 -> error_code e0 = JUndefined).
    { induction l0 as [|[m|] l0 IH]; cbn [find_context_message]; intros e0 E.
      - discriminate.
      - destruct (carries_context m); [discriminate | now apply IH].
      - now injection E as <-. }
    destruct (find_context_message (x :: l)) as [[m|]|e0] eqn:E; cbn [fst].
    + destruct (msg_userData m) as [| |u].
      * destruct (truthy_json (json_prop (msg_fields m) "context")); discriminate.
      * destruct (truthy_json (json_prop (msg_fields m) "context")); discriminate.
      * destruct (run_buildUserContext (ud_bundle u) clock w) as (s & n & _ & -> & Hn).
        discriminate.
    + discriminate.
    + intros [= <-]. now apply (He _ _ E).
Qed.

Lemma chat_handler_steps (env : Env) (req : ChatRequest) (clock : Clock) (w : World) :
  truthy_json (req_message req) = true -> env_api_key env = true -> env_openai env = true ->
  let message := req_message req in
  let conversation := default_to [] (req_conversation req) in
  let userData := null_if_absent (req_userData req) in
  let context := null_if_undefined (req_context req) in
  let fail := error_response Usage engine_text env "INTERNAL_ERROR" in
  chat_handler Usage engine_text openai_create env req clock w
  = match select_context context userData conversation clock w with
    | (Raise e, w1) => (fail e, w1)
    | (Ok selected, w1) =>
        match prepare_messages (if truthy_json selected then selected else JPrim (JStr fallback_context))
                conversation message with
        | Raise e => (fail e, w1)
        | Ok messages =>
            let w2 := {| w_reads := w_reads w1; w_calls := (w_calls w1 ++ [messages])%list |} in
            match openai_create messages with
            | Failure code text => (fail (ApiError code text), w2)
            | Completion content usage model =>
                if truthy content then
                  match has_user_data userData context conversation with
                  | Raise e => (fail e, w2)
                  | Ok hasUserData =>
                      let w3 := {| w_reads := S (w_reads w1);
                                   w_calls := (w_calls w1 ++ [messages])%list |} in
                      match context_source context userData conversation with
                      | Raise e => (fail e, w3)
                      | Ok source =>
                          ({| res_status := 200;
                              res_body := ChatBody content usage model
                                            (toISOString (clock (w_reads w1)))
                                            hasUserData (negb hasUserData) source |}, w3)
                      end
                  end
                else (fail (PlainError "No response from OpenAI"), w2)
            end
        end
    end.
Proof.
  intros Hm Hk Ho. cbv zeta. unfold chat_handler. rewrite Hm, Hk, Ho. cbn [negb orb].
  unfold chat_body, hbind at 1.
  destruct (select_context _ _ _ clock w) as [[selected|e] w1]; [|reflexivity].
  unfold hbind at 1, hlift at 1.
  destruct (prepare_messages _ _ _) as [messages|e]; [|reflexivity].
  unfold hbind at 1, create.
  destruct (openai_create messages) as [content usage model|code text]; [|reflexivity].
  destruct (truthy content); cbn [negb]; [|reflexivity].
  unfold hbind at 1, hlift at 1.
  destruct (has_user_data _ _ _) as [h|e]; [|reflexivity].
  unfold hbind at 1, timestamp_now. cbn [w_reads w_calls].
  unfold hbind at 1, hlift at 1.
  destruct (context_source _ _ _) as [source|e]; reflexivity.
Qed.

Lemma chat_handler_rejects (env : Env) (req : ChatRequest) (clock : Clock) (w : World) :
  truthy_json (req_message req) && env_api_key env && env_openai env = false ->
  chat_handler Usage engine_text openai_create env req clock w
  = (if truthy_json (req_message req)
     then {| res_status := 500;
             res_body := ErrorBody "OpenAI API key not configured" "MISSING_API_KEY" None |}
     else {| res_status := 400;
             res_body := ErrorBody "Message is required" "MISSING_MESSAGE" None |}, w).
Proof.
  unfold chat_handler. destruct (truthy_json (req_message req)); [|reflexivity].
  destruct (env_api_key env), (env_openai env); try discriminate; reflexivity.
Qed.

Lemma prepare_messages_shape (sys : Json) (conversation : Nullable Conversation)
  (message : Json) (messages : list ChatMessage) :
  prepare_messages sys conversation message = Ok messages ->
  exists l ms,
    conversation = Val l /\ map_conversation l = Ok ms
    /\ messages = (system_message sys :: ms ++ [user_message message])%list.
Proof.
  unfold prepare_messages. destruct conversation as [| |l]; try discriminate.
  destruct (map_conversation l) as [ms|e] eqn:E; [|discriminate].
  intros [= <-]. now exists l, ms.
Qed.

Lemma prepare_messages_raises (sys : Json) (conversation : Nullable Conversation)
  (message : Json) (e : JsError) :
  prepare_messages sys conversation message = Raise e -> error_code e = JUndefined.
Proof.
  unfold prepare_messages. destruct conversation as [| |l]; try (now intros [= <-]).
  assert (He : forall l0 e0, map_conversation l0 = Raise e0 -> error_code e0 = JUndefined).
  { induction l0 as [|[m|] l0 IH]; cbn [map_conversation]; intros e0 E.
    - discriminate.
    - destruct (map_conversation l0); [discriminate|]. injection E as <-. now apply IH.
    - now injection E as <-. }
  destruct (map_conversation l) eqn:E; [discriminate|]. intros [= <-]. now apply (He _ _ E).
Qed.



Lemma is_string_true (v : JsVal) (text : string) : is_string v text = true -> v = JStr text.
Proof.
  destruct v; try discriminate. cbn [is_string]. intros E. now apply String.eqb_eq in E as ->.
Qed.

(** The four answers of the shared [catch] block. *)
Lemma error_response_cases (env : Env) (last_code : string) (e : JsError) :
  let resp := error_response Usage engine_text env last_code e in
  (error_code e = JStr "insufficient_quota"
   /\ resp = {| res_status := 429;
                res_body := ErrorBody "API quota exceeded. Please try again later."
                              "QUOTA_EXCEEDED" None |})
  \/ (error_code e = JStr "invalid_api_key"
      /\ resp = {| res_status := 401;
                   res_body := ErrorBody "Invalid API key" "INVALID_API_KEY" None |})
  \/ (error_code e = JStr "rate_limit_exceeded"
      /\ resp = {| res_status := 429;
                   res_body := ErrorBody "Rate limit exceeded. Please try again later."
                                 "RATE_LIMIT_EXCEEDED" None |})
  \/ resp = {| res_status := 500;
               res_body := ErrorBody "Internal server error" last_code
                             (Some (if env_development env then error_message engine_text e
                                    else JStr "Something went wrong")) |}.
Proof.
  cbv zeta. unfold error_response.
  destruct (is_string (error_code e) "insufficient_quota") eqn:E1;
    [left; split; [now apply is_string_true | reflexivity]|].
  destruct (is_string (error_code e) "invalid_api_key") eqn:E2;
    [right; left; split; [now apply is_string_true | reflexivity]|].
  destruct (is_string (error_code e) "rate_limit_exceeded") eqn:E3;
    [right; right; left; split; [now apply is_string_true | reflexivity]|].
  now right; right; right.
Qed.

(** An error that is not the client's is answered with status 500. *)
Lemma error_response_internal (env : Env) (last_code : string) (e : JsError) :
  error_code e = JUndefined ->
  error_response Usage engine_text env last_code e
  = {| res_status := 500;
       res_body := ErrorBody "Internal server error" last_code
                     (Some (if env_development env then error_message engine_text e
                            else JStr "Something went wrong")) |}.
Proof. intros E. unfold error_response. now rewrite E. Qed.

Lemma mentions_profile_raises (v : Json) (e : JsError) :
  mentions_profile v = Raise e -> error_code e = JUndefined.
Proof.
  unfold mentions_profile. destruct (truthy_json v); [|discriminate].
  destruct v as [[| | | |s]| |]; try discriminate; now intros [= <-].
Qed.

Lemma some_has_data_raises (l : Conversation) (e : JsError) :
  some_has_data l = Raise e -> error_code e = JUndefined.
Proof.
  induction l as [|[m|] l IH]; cbn [some_has_data]; intros E.
  - discriminate.
  - destruct (is_object (msg_userData m)); [discriminate|].
    destruct (mentions_profile _) as [[|]|e'] eqn:Em; [discriminate | now apply IH |].
    injection E as <-. now apply (mentions_profile_raises _ _ Em).
  - now injection E as <-.
Qed.

Lemma has_user_data_raises (userData : Nullable UserData) (context : Json)
  (conversation : Nullable Conversation) (e : JsError) :
  has_user_data userData context conversation = Raise e -> error_code e = JUndefined.
Proof.
  unfold has_user_data. destruct (has_keys userData); [discriminate|].
  destruct (mentions_profile context) as [[|]|e'] eqn:Em; [discriminate| |].
  - destruct conversation as [| |l]; try discriminate. apply some_has_data_raises.
  - intros [= <-]. now apply (mentions_profile_raises _ _ Em).
Qed.

Lemma some_carries_context_raises (l : Conversation) (e : JsError) :
  some_carries_context l = Raise e -> error_code e = JUndefined.
Proof.
  induction l as [|[m|] l IH]; cbn [some_carries_context]; intros E.
  - discriminate.
  - destruct (carries_context m); [discriminate | now apply IH].
  - now injection E as <-.
Qed.

Lemma context_source_raises (context : Json) (userData : Nullable UserData)
  (conversation : Nullable Conversation) (e : JsError) :
  context_source context userData conversation = Raise e -> error_code e = JUndefined.
Proof.
  unfold context_source. destruct (truthy_json context); [discriminate|].
  destruct (is_object userData); [discriminate|].
  destruct conversation as [| |l]; try (now intros [= <-]).
  destruct (some_carries_context l) as [[|]|e'] eqn:E; try discriminate.
  intros [= <-]. now apply (some_carries_context_raises _ _ E).
Qed.

(** The answers of [/api/chat]. The status is 200, 400, 401, 429 or 500,
    and 400 exactly when the message is missing. A 200 is given only
    after one request to the model that returned a non-empty content,
    which is the response; its timestamp is the last clock reading, and
    [contextLimited] is the negation of [hasUserData]. A 401 or a 429
    is given only after a request that the client failed with the code
    [invalid_api_key], or [insufficient_quota] or [rate_limit_exceeded].
    Outside development no answer carries the text of an error. *)
Theorem chat_status_codes (env : Env) (req : ChatRequest) (clock : Clock) (w : World) :
  let r := chat_handler Usage engine_text openai_create env req clock w in
  let status := res_status (fst r) in
  (status = 200 \/ status = 400 \/ status = 401 \/ status = 429 \/ status = 500)%nat
  /\ (status = 400%nat <-> truthy_json (req_message req) = false)
  /\ (status = 200%nat ->
      exists messages content usage model hasUserData source,
        w_calls (snd r) = (w_calls w ++ [messages])%list
        /\ openai_create messages = Completion content usage model
        /\ truthy content = true
        /\ res_body (fst r)
           = ChatBody content usage model (toISOString (clock (Nat.pred (w_reads (snd r)))))
               hasUserData (negb hasUserData) source)
  /\ (status = 401%nat \/ status = 429%nat ->
      exists messages code text,
        w_calls (snd r) = (w_calls w ++ [messages])%list
        /\ openai_create messages = Failure (JStr code) text
        /\ (status = 401%nat /\ code = "invalid_api_key"
            \/ status = 429%nat /\ (code = "insufficient_quota" \/ code = "rate_limit_exceeded")))
  /\ (env_development env = false ->
      (exists content usage model timestamp hasUserData limited source,
         res_body (fst r) = ChatBody content usage model timestamp hasUserData limited source)
      \/ (exists error code, res_body (fst r) = ErrorBody error code None)
      \/ (exists error code,
            res_body (fst r) = ErrorBody error code (Some (JStr "Something went wrong")))).
Proof.
  cbv zeta.
  destruct (truthy_json (req_message req) && env_api_key env && env_openai env) eqn:Hc.
  - apply andb_prop in Hc as [Hc Ho]. apply andb_prop in Hc as [Hm Hk].
    rewrite chat_handler_steps by assumption. cbv zeta.
    pose proof (select_context_effects
                  (null_if_undefined (req_context req))
                  (null_if_absent (req_userData req))
                  (default_to [] (req_conversation req)) clock w) as Hs.
    pose proof (select_context_raises
                  (null_if_undefined (req_context req))
                  (null_if_absent (req_userData req))
                  (default_to [] (req_conversation req)) clock w) as Hr.
    cbv zeta in Hs.
    assert (Hinternal : forall e (w' : World),
               error_code e = JUndefined ->
               let resp := error_response Usage engine_text env "INTERNAL_ERROR" e in
               (res_status resp = 200 \/ res_status resp = 400 \/ res_status resp = 401
                \/ res_status resp = 429 \/ res_status resp = 500)%nat
               /\ (res_status resp = 400%nat <-> truthy_json (req_message req) = false)
               /\ (res_status resp = 200%nat ->
                   exists messages content usage model hasUserData source,
                     w_calls w' = (w_calls w ++ [messages])%list
                     /\ openai_create messages = Completion content usage model
                     /\ truthy content = true
                     /\ res_body resp
                        = ChatBody content usage model
                            (toISOString (clock (Nat.pred (w_reads w'))))
                            hasUserData (negb hasUserData) source)
               /\ (res_status resp = 401%nat \/ res_status resp = 429%nat ->
                   exists messages code text,
                     w_calls w' = (w_calls w ++ [messages])%list
                     /\ openai_create messages = Failure (JStr code) text
                     /\ (res_status resp = 401%nat /\ code = "invalid_api_key"
                         \/ res_status resp = 429%nat
                            /\ (code = "insufficient_quota" \/ code = "rate_limit_exceeded")))
               /\ (env_development env = false ->
                   (exists content usage model timestamp hasUserData limited source,
                      res_body resp
                      = ChatBody content usage model timestamp hasUserData limited source)
                   \/ (exists error code, res_body resp = ErrorBody error code None)
                   \/ (exists error code,
                         res_body resp
                         = ErrorBody error code (Some (JStr "Something went wrong"))))).
    { intros e w' He. cbv zeta. rewrite (error_response_internal _ _ _ He).
      cbn [res_status res_body].
      split; [now repeat right|]. split; [split; [discriminate | congruence]|].
      split; [discriminate|]. split; [intros [?|?]; discriminate|].
      intros ->. right; right. now do 2 eexists. }
    destruct (select_context _ _ _ clock w) as [[selected|e] w1]; cbn [snd fst] in Hs, Hr |- *;
      destruct Hs as [Hcalls Hreads].
    2:{ apply Hinternal. now apply Hr. }
    destruct (prepare_messages _ _ _) as [messages|e] eqn:Hp; cbn [fst snd].
    2:{ apply Hinternal. now apply (prepare_messages_raises _ _ _ _ Hp). }
    destruct (openai_create messages) as [content usage model|code text] eqn:Hcreate;
      cbn [fst snd].
    2:{ destruct (error_response_cases env "INTERNAL_ERROR" (ApiError code text))
          as [[Hcode ->] | [[Hcode ->] | [[Hcode ->] | ->]]];
          cbn [error_code] in *; cbn [res_status res_body w_calls].
        - split; [now do 3 right; left|]. split; [split; [discriminate | congruence]|].
          split; [discriminate|]. split.
          + intros _. exists messages, "insufficient_quota", text. rewrite Hcalls. subst code.
            split; [reflexivity|]. split; [exact Hcreate|]. right. split; [reflexivity | now left].
          + intros _. right; left. now do 2 eexists.
        - split; [now do 2 right; left|]. split; [split; [discriminate | congruence]|].
          split; [discriminate|]. split.
          + intros _. exists messages, "invalid_api_key", text. rewrite Hcalls. subst code.
            split; [reflexivity|]. split; [exact Hcreate|]. now left.
          + intros _. right; left. now do 2 eexists.
        - split; [now do 3 right; left|]. split; [split; [discriminate | congruence]|].
          split; [discriminate|]. split.
          + intros _. exists messages, "rate_limit_exceeded", text. rewrite Hcalls. subst code.
            split; [reflexivity|]. split; [exact Hcreate|]. right. split; [reflexivity | now right].
          + intros _. right; left. now do 2 eexists.
        - split; [now repeat right|]. split; [split; [discriminate | congruence]|].
          split; [discriminate|]. split; [intros [?|?]; discriminate|].
          intros ->. right; right. now do 2 eexists. }
    destruct (truthy content) eqn:Hcontent; cbn [fst snd].
    2:{ now apply Hinternal. }
    destruct (has_user_data _ _ _) as [h|e] eqn:Hh; cbn [fst snd].
    2:{ apply Hinternal. now apply (has_user_data_raises _ _ _ _ Hh). }
    destruct (context_source _ _ _) as [source|e] eqn:Hsrc; cbn [fst snd].
    2:{ apply Hinternal. now apply (context_source_raises _ _ _ _ Hsrc). }
    cbn [res_status res_body w_calls w_reads Nat.pred].
    split; [now left|]. split; [split; [discriminate | congruence]|].
    split.
    + intros _. exists messages, content, usage, model, h, source. rewrite Hcalls.
      now repeat split.
    + split; [intros [?|?]; discriminate|]. intros _. left. now do 7 eexists.
  - rewrite chat_handler_rejects by assumption. cbn [fst snd].
    destruct (truthy_json (req_message req)) eqn:Hm; cbn [res_status res_body].
    + split; [now repeat right|]. split; [split; [discriminate | discriminate]|].
      split; [discriminate|]. split; [intros [?|?]; discriminate|].
      intros _. right; left. now do 2 eexists.
    + split; [now right; left|]. split; [split; reflexivity|].
      split; [discriminate|]. split; [intros [?|?]; discriminate|].
      intros _. right; left. now do 2 eexists.
Qed.

Lemma context_template_head (s : Sections) (d t : string) :
  exists r, context_template s d t = String "010" (String "Y" r).
Proof. eexists. reflexivity. Qed.

Lemma usable_context_truthy (v : Json) : usable_context v = true -> truthy_json v = true.
Proof. destruct v as [[| | | |[|c s]]| |]; try discriminate; reflexivity. Qed.

Lemma usable_context_received (v : Json) :
  usable_context (null_if_undefined v) = usable_context v.
Proof. now destruct v as [[]| |]. Qed.

Lemma truthy_received (v : Json) : truthy_json (null_if_undefined v) = truthy_json v.
Proof. now destruct v as [[]| |]. Qed.

Lemma has_keys_received (x : Nullable UserData) : has_keys (null_if_absent x) = has_keys x.
Proof. now destruct x. Qed.

Lemma is_object_received {A : Type} (x : Nullable A) : is_object (null_if_absent x) = is_object x.
Proof. now destruct x. Qed.

(** The text built by [ContextService] is never blank. *)
Lemma built_context_usable (b : Bundle) (clock : Clock) (n : nat) :
  usable_context (JPrim (JStr (text_of (fst (buildUserContext (Val b) clock n))))) = true.
Proof.
  rewrite buildUserContext_outcome. cbn [usable_context].
  destruct (formatter_fails b); cbn [fst text_of]; [reflexivity|].
  destruct (context_template_head (sections_of b clock n)
              (formatLongDate (clock (n + jobs_reads (jobs b) + 2)%nat))
              (formatHourMinute (clock (n + jobs_reads (jobs b) + 3)%nat))) as [r ->].
  reflexivity.
Qed.

Lemma run_buildUserContext_text (b : Bundle) (clock : Clock) (w : World) :
  fst (run (buildUserContext (Val b)) clock w)
  = Ok (text_of (fst (buildUserContext (Val b) clock (w_reads w)))).
Proof.
  destruct (run_buildUserContext b clock w) as (s & n & E & -> & _). now rewrite E.
Qed.

(** The selection among the entries of a conversation of records. *)
Lemma select_context_records (context : Json) (userData : Nullable UserData)
  (l : list ConvMsg) (clock : Clock) (w : World) :
  let built u :=
    JPrim (JStr (text_of (fst (buildUserContext (Val (ud_bundle u)) clock (w_reads w))))) in
  fst (select_context context userData (Val (map Some l)) clock w)
  = Ok (if usable_context context then context
        else match (if has_keys userData then userData else Null) with
             | Val u => built u
             | _ =>
                 match find carries_context l with
                 | Some m =>
                     match msg_userData m with
                     | Val u => built u
                     | _ => json_prop (msg_fields m) "context"
                     end
                 | None => JPrim JUndefined
                 end
             end).
Proof.
  cbv zeta. unfold select_context.
  destruct (usable_context context); [reflexivity|].
  destruct (has_keys userData) eqn:Hk.
  - destruct userData as [| |u]; try discriminate.
    unfold hbind. pose proof (run_buildUserContext_text (ud_bundle u) clock w) as E.
    destruct (run _ clock w) as [[s|e] w1]; cbn [fst] in E; [|discriminate].
    now injection E as ->.
  - destruct l as [|m0 l]; [reflexivity|].
    cbn [map]. change (Some m0 :: map Some l) with (map Some (m0 :: l)).
    unfold hbind at 1, hlift. rewrite find_context_message_records.
    destruct (find carries_context (m0 :: l)) as [m|] eqn:Hf; [|reflexivity].
    apply find_some in Hf as [_ Hc]. unfold carries_context in Hc.
    destruct (msg_userData m) as [| |u]; cbn [is_object orb] in Hc.
    + now rewrite Hc.
    + now rewrite Hc.
    + unfold hbind. pose proof (run_buildUserContext_text (ud_bundle u) clock w) as E.
      destruct (run _ clock w) as [[s|e] w1]; cbn [fst] in E; [|discriminate].
      now injection E as ->.
Qed.

Lemma chat_system_message (env : Env) (req : ChatRequest) (l : list ConvMsg)
  (clock : Clock) (w : World) :
  truthy_json (req_message req) = true -> env_api_key env = true -> env_openai env = true ->
  default_to [] (req_conversation req) = Val (map Some l) ->
  let built u :=
    JPrim (JStr (text_of (fst (buildUserContext (Val (ud_bundle u)) clock (w_reads w))))) in
  let from_conversation :=
    match find carries_context l with
    | Some m =>
        match msg_userData m with
        | Val u => built u
        | _ => json_prop (msg_fields m) "context"
        end
    | None => JPrim (JStr fallback_context)
    end in
  let sys :=
    if usable_context (req_context req) then req_context req
    else match req_userData req with
         | Val u => if Nat.ltb 0 (key_count u) then built u else from_conversation
         | _ => from_conversation
         end in
  w_calls (snd (chat_handler Usage engine_text openai_create env req clock w))
  = (w_calls w ++ [system_message sys :: map chat_message_of l
                   ++ [user_message (req_message req)]])%list.
Proof.
  intros Hm Hk Ho Hl. cbv zeta.
  rewrite chat_handler_steps by assumption. cbv zeta. rewrite Hl.
  pose proof (select_context_effects
                (null_if_undefined (req_context req))
                (null_if_absent (req_userData req))
                (Val (map Some l)) clock w) as Hs.
  pose proof (select_context_records
                (null_if_undefined (req_context req))
                (null_if_absent (req_userData req))
                l clock w) as Hv.
  cbv beta zeta in Hs, Hv. rewrite usable_context_received, has_keys_received in Hv.
  destruct (select_context _ _ _ clock w) as [[selected|e] w1]; cbn [fst snd] in Hs, Hv;
    [|discriminate].
  destruct Hs as [Hcalls _]. injection Hv as Hv.
  unfold prepare_messages. rewrite map_conversation_records.
  pose proof (fun b => usable_context_truthy _ (built_context_usable b clock (w_reads w)))
    as Hb.
  match goal with
  | |- w_calls (snd match ?o with _ => _ end) = (_ ++ [system_message ?sys :: _])%list =>
      assert (Hsys : (if truthy_json selected then selected
                      else JPrim (JStr fallback_context)) = sys)
  end.
  { destruct (usable_context (req_context req)) eqn:Hu.
    - subst selected. destruct (req_context req) as [[| | | |s]| |]; try discriminate.
      cbn [null_if_undefined]. now rewrite (usable_context_truthy _ Hu).
    - assert (Hconv : forall v,
                 v = match find carries_context l with
                     | Some m =>
                         match msg_userData m with
                         | Val u =>
                             JPrim (JStr (text_of (fst (buildUserContext (Val (ud_bundle u))
                                                          clock (w_reads w)))))
                         | _ => json_prop (msg_fields m) "context"
                         end
                     | None => JPrim JUndefined
                     end ->
                 (if truthy_json v then v else JPrim (JStr fallback_context))
                 = match find carries_context l with
                   | Some m =>
                       match msg_userData m with
                       | Val u =>
                           JPrim (JStr (text_of (fst (buildUserContext (Val (ud_bundle u))
                                                        clock (w_reads w)))))
                       | _ => json_prop (msg_fields m) "context"
                       end
                   | None => JPrim (JStr fallback_context)
                   end).
      { intros v ->. destruct (find carries_context l) as [m|] eqn:Hf; [|reflexivity].
        apply find_some in Hf as [_ Hc]. unfold carries_context in Hc.
        destruct (msg_userData m) as [| |u]; cbn [is_object orb] in Hc;
          [now rewrite Hc | now rewrite Hc | now rewrite Hb]. }
      destruct (req_userData req) as [| |u]; cbn [has_keys null_if_absent] in Hv;
        try (now apply Hconv).
      destruct (Nat.ltb 0 (key_count u)); [|now apply Hconv].
      subst selected. now rewrite Hb. }
  rewrite Hsys, Hcalls.
  destruct (openai_create _) as [content usage model|code text]; [|reflexivity].
  destruct (truthy content); [|reflexivity].
  destruct (has_user_data _ _ _) as [h|e]; [|reflexivity].
  destruct (context_source _ _ _) as [source|e]; reflexivity.
Qed.

(** The messages of [/api/chat], for an accepted request whose
    conversation is an array of objects. The system message is the
    request's context when that is a string with more than white space;
    otherwise the text built from the request's [userData] when that has
    a key; otherwise what the first entry of the conversation with a
    [userData] or a truthy context gives, the text built from its
    [userData] or else its context; otherwise the fallback text. Every
    entry of the conversation follows as [{ role: role || 'user',
    content: content || message }], and the user's message comes last. *)
Theorem chat_context_priority (env : Env) (req : ChatRequest) (l : list ConvMsg)
  (clock : Clock) (w : World) :
  truthy_json (req_message req) = true -> env_api_key env = true -> env_openai env = true ->
  default_to [] (req_conversation req) = Val (map Some l) ->
  let built u :=
    JPrim (JStr (text_of (fst (buildUserContext (Val (ud_bundle u)) clock (w_reads w))))) in
  let usable :=
    match req_context req with
    | JPrim (JStr s) => negb (all_space s)
    | _ => false
    end in
  let carries m :=
    match msg_userData m with
    | Val _ => true
    | _ => truthy_json (json_prop (msg_fields m) "context")
    end in
  let from_conversation :=
    match find carries l with
    | Some m =>
        match msg_userData m with
        | Val u => built u
        | _ => json_prop (msg_fields m) "context"
        end
    | None => JPrim (JStr fallback_context)
    end in
  let sys :=
    if usable then req_context req
    else match req_userData req with
         | Val u => if Nat.ltb 0 (key_count u) then built u else from_conversation
         | _ => from_conversation
         end in
  let sent m :=
    {| cm_role := if truthy_json (json_prop (msg_fields m) "role")
                  then json_prop (msg_fields m) "role"
                  else JPrim (JStr "user");
       cm_content := if truthy_json (json_prop (msg_fields m) "content")
                     then json_prop (msg_fields m) "content"
                     else json_prop (msg_fields m) "message" |} in
  w_calls (snd (chat_handler Usage engine_text openai_create env req clock w))
  = (w_calls w
     ++ [{| cm_role := JPrim (JStr "system"); cm_content := sys |}
         :: map sent l
         ++ [{| cm_role := JPrim (JStr "user"); cm_content := req_message req |}]])%list.
Proof.
  intros Hm Hk Ho Hl. cbv zeta.
  rewrite (chat_system_message env req l clock w Hm Hk Ho Hl). cbv zeta.
  assert (Hfind : forall l0 : list ConvMsg,
             find carries_context l0
             = find (fun m => match msg_userData m with
                              | Val _ => true
                              | _ => truthy_json (json_prop (msg_fields m) "context")
                              end) l0).
  { induction l0 as [|m l0 IH]; [reflexivity|]. cbn [find]. rewrite IH.
    unfold carries_context. now destruct (msg_userData m). }
  rewrite Hfind. reflexivity.
Qed.

Lemma error_response_body (env : Env) (last_code : string) (e : JsError) :
  exists error code message,
    res_body (error_response Usage engine_text env last_code e) = ErrorBody error code message.
Proof.
  destruct (error_response_cases env last_code e) as [[_ ->] | [[_ ->] | [[_ ->] | ->]]];
    now do 3 eexists.
Qed.

Lemma not_object_no_keys (x : Nullable UserData) : is_object x = false -> has_keys x = false.
Proof. now destruct x. Qed.

Lemma not_truthy_not_usable (v : Json) : truthy_json v = false -> usable_context v = false.
Proof.
  intros E. destruct (usable_context v) eqn:Hu; [|reflexivity].
  apply usable_context_truthy in Hu. congruence.
Qed.

(** Nothing in the request gives a context. *)
Lemma select_context_nothing (context : Json) (userData : Nullable UserData)
  (l : Conversation) (clock : Clock) (w : World) :
  usable_context context = false -> has_keys userData = false ->
  some_carries_context l = Ok false ->
  select_context context userData (Val l) clock w = (Ok (JPrim JUndefined), w).
Proof.
  intros Hu Hk Hc. apply some_carries_context_false in Hc as (l' & -> & _ & Hf & _).
  unfold select_context. rewrite Hu, Hk.
  destruct l' as [|m l']; [reflexivity|]. cbn [map] in *.
  unfold hbind, hlift. now rewrite Hf.
Qed.

(** An answer of [/api/chat] whose [contextSource] is [fallback] tells
    the truth: the model was sent the fallback text as its system
    message, [hasUserData] is false and [contextLimited] is true. *)
Theorem fallback_label_is_sound (env : Env) (req : ChatRequest) (clock : Clock) (w : World)
  (content : JsVal) (usage : Usage) (model : JsVal) (timestamp : string)
  (hasUserData contextLimited : bool) :
  let r := chat_handler Usage engine_text openai_create env req clock w in
  res_body (fst r)
  = ChatBody content usage model timestamp hasUserData contextLimited "fallback" ->
  hasUserData = false /\ contextLimited = true
  /\ exists ms,
       w_calls (snd r)
       = (w_calls w ++ [system_message (JPrim (JStr fallback_context)) :: ms
                        ++ [user_message (req_message req)]])%list.
Proof.
  cbv zeta.
  destruct (truthy_json (req_message req) && env_api_key env && env_openai env) eqn:Hc.
  2:{ rewrite chat_handler_rejects by assumption.
      destruct (truthy_json (req_message req)); discriminate. }
  apply andb_prop in Hc as [Hc Ho]. apply andb_prop in Hc as [Hm Hk].
  rewrite chat_handler_steps by assumption. cbv zeta.
  assert (Herr : forall e (w' : World),
             res_body (fst (error_response Usage engine_text env "INTERNAL_ERROR" e, w'))
             = ChatBody content usage model timestamp hasUserData contextLimited "fallback" ->
             hasUserData = false /\ contextLimited = true
             /\ exists ms,
                  w_calls (snd (error_response Usage engine_text env "INTERNAL_ERROR" e, w'))
                  = (w_calls w ++ [system_message (JPrim (JStr fallback_context)) :: ms
                                   ++ [user_message (req_message req)]])%list).
  { intros e w'. cbn [fst].
    destruct (error_response_body env "INTERNAL_ERROR" e) as (a & b & c & ->). discriminate. }
  destruct (context_source _ _ _) as [source|e0] eqn:Hsrc.
  2:{ destruct (select_context _ _ _ clock w) as [[selected|e] w1]; [|apply Herr].
      destruct (prepare_messages _ _ _) as [messages|e]; [|apply Herr].
      destruct (openai_create messages) as [c u m|code text]; [|apply Herr].
      destruct (truthy c); [|apply Herr].
      destruct (has_user_data _ _ _) as [h|e]; apply Herr. }
  destruct (String.eqb source "fallback") eqn:Hfb.
  2:{ destruct (select_context _ _ _ clock w) as [[selected|e] w1]; [|apply Herr].
      destruct (prepare_messages _ _ _) as [messages|e]; [|apply Herr].
      destruct (openai_create messages) as [c u m|code text]; [|apply Herr].
      destruct (truthy c); [|apply Herr].
      destruct (has_user_data _ _ _) as [h|e]; [|apply Herr].
      cbn [fst res_body]. intros [= _ _ _ _ _ _ E]. rewrite E in Hfb. discriminate. }
  apply String.eqb_eq in Hfb as ->.
  unfold context_source in Hsrc. rewrite truthy_received, is_object_received in Hsrc.
  destruct (truthy_json (req_context req)) eqn:Ht; [discriminate|].
  destruct (is_object (req_userData req)) eqn:Hobj; [discriminate|].
  destruct (default_to [] (req_conversation req)) as [| |l] eqn:Hl; try discriminate.
  destruct (some_carries_context l) as [[|]|e] eqn:Hsome; try discriminate.
  rewrite select_context_nothing;
    [| now rewrite usable_context_received; apply not_truthy_not_usable
     | now rewrite has_keys_received; apply not_object_no_keys
     | assumption].
  cbn [truthy].
  destruct (prepare_messages _ _ _) as [messages|e] eqn:Hp; [|apply Herr].
  apply prepare_messages_shape in Hp as (l0 & ms & _ & _ & ->).
  destruct (openai_create _) as [c u m|code text]; [|apply Herr].
  destruct (truthy c); [|apply Herr].
  unfold has_user_data. rewrite has_keys_received, (not_object_no_keys _ Hobj).
  unfold mentions_profile. rewrite truthy_received, Ht.
  apply some_carries_context_false in Hsome as (l' & _ & _ & _ & ->).
  cbn [fst snd res_body w_calls negb]. intros [= _ _ _ _ <- <-].
  split; [reflexivity|]. split; [reflexivity|]. now exists ms.
Qed.

(** What a white space character is made of. *)
Lemma space_width_cases (s : string) :
  match space_width s with
  | 0%nat => True
  | 1%nat => exists a r, s = String a r /\ a <> "U"%char
  | 2%nat => exists a b r, s = String a (String b r) /\ a <> "U"%char /\ b <> "U"%char
  | 3%nat =>
      exists a b c r,
        s = String a (String b (String c r))
        /\ a <> "U"%char /\ b <> "U"%char /\ c <> "U"%char
  | _ => False
  end.
Proof.
  unfold space_width. destruct s as [|a s1]; [exact I|].
  destruct (Nat.leb 9 (nat_of_ascii a) && Nat.leb (nat_of_ascii a) 13
            || Nat.eqb (nat_of_ascii a) 32)%bool eqn:E1.
  { exists a, s1. split; [reflexivity|]. intros ->. discriminate E1. }
  destruct (Nat.ltb (nat_of_ascii a) 194) eqn:E2; [exact I|].
  assert (Ha : a <> "U"%char) by (intros ->; discriminate E2).
  destruct s1 as [|b s2]; [exact I|].
  destruct (Nat.eqb (nat_of_ascii a) 194 && Nat.eqb (nat_of_ascii b) 160)%bool eqn:E3.
  { exists a, b, s2. split; [reflexivity|]. split; [exact Ha|].
    intros ->. rewrite andb_comm in E3. discriminate E3. }
  destruct s2 as [|c s3]; [exact I|].
  match goal with |- match (if ?t then _ else _) with _ => _ end => destruct t eqn:E4 end;
    [|exact I].
  exists a, b, c, s3. split; [reflexivity|]. split; [exact Ha|].
  split; intros ->; cbn in E4; rewrite ?andb_false_r, ?orb_false_r in E4;
    try discriminate E4;
    repeat match type of E4 with
           | context [Nat.eqb ?x ?y] => destruct (Nat.eqb x y); cbn in E4; try discriminate E4
           end.
Qed.

Lemma blank_has_no_profile (s : string) : all_space s = true -> includes "USER PROFILE:" s = false.
Proof.
  assert (Hstep : forall a r, a <> "U"%char ->
                    includes "USER PROFILE:" (String a r) = includes "USER PROFILE:" r).
  { intros a r Ha. cbn [includes prefix].
    destruct (Ascii.ascii_dec "U" a) as [E|_]; [now elim Ha | reflexivity]. }
  remember (String.length s) as n eqn:Hn. revert s Hn.
  induction n as [n IH] using lt_wf_ind. intros s Hn.
  destruct s as [|a0 s0]; [reflexivity|]. cbn [all_space].
  pose proof (space_width_cases (String a0 s0)) as Hw.
  destruct (space_width (String a0 s0)) as [|[|[|[|k]]]]; try discriminate;
    try (now destruct s0 as [|? [|? ?]]).
  - destruct Hw as (a & r & E & Ha). injection E as -> ->. intros Hs.
    rewrite Hstep by exact Ha. apply (IH (String.length r)); [|reflexivity|exact Hs].
    subst n. cbn. lia.
  - destruct Hw as (a & b & r & E & Ha & Hb). injection E as -> ->. intros Hs.
    rewrite !Hstep by assumption. apply (IH (String.length r)); [|reflexivity|exact Hs].
    subst n. cbn. lia.
  - destruct Hw as (a & b & c & r & E & Ha & Hb & Hc). injection E as -> ->. intros Hs.
    rewrite !Hstep by assumption. apply (IH (String.length r)); [|reflexivity|exact Hs].
    subst n. cbn. lia.
Qed.

(** An empty [userData] object is reported as the source of the context
    although nothing is built from it: with no context and no
    conversation, the model is sent the fallback text, and the answer
    says [contextSource: "userData"] together with [hasUserData: false]
    and [contextLimited: true]. *)
Theorem empty_userData_is_labelled_userData (env : Env) (req : ChatRequest) (u : UserData)
  (clock : Clock) (w : World) (content : JsVal) (usage : Usage) (model : JsVal) :
  truthy_json (req_message req) = true -> env_api_key env = true -> env_openai env = true ->
  req_userData req = Val u -> key_count u = 0%nat ->
  truthy_json (req_context req) = false ->
  default_to [] (req_conversation req) = Val [] ->
  openai_create [system_message (JPrim (JStr fallback_context)); user_message (req_message req)]
  = Completion content usage model ->
  truthy content = true ->
  chat_handler Usage engine_text openai_create env req clock w
  = ({| res_status := 200;
        res_body := ChatBody content usage model (toISOString (clock (w_reads w)))
                      false true "userData" |},
     {| w_reads := S (w_reads w);
        w_calls := (w_calls w ++ [[system_message (JPrim (JStr fallback_context));
                                   user_message (req_message req)]])%list |}).
Proof.
  intros Hm Hk Ho Hu Hkeys Ht Hl Hcreate Hcontent.
  rewrite chat_handler_steps by assumption. cbv zeta. rewrite Hl, Hu.
  rewrite select_context_nothing;
    [| now rewrite usable_context_received; apply not_truthy_not_usable
     | cbn [null_if_absent has_keys]; now rewrite Hkeys
     | reflexivity].
  cbn [truthy_json truthy prepare_messages map_conversation app].
  fold (system_message (JPrim (JStr fallback_context))). fold (user_message (req_message req)).
  rewrite Hcreate, Hcontent.
  unfold has_user_data, mentions_profile, context_source.
  rewrite truthy_received, Ht. cbn [null_if_absent has_keys is_object some_has_data].
  now rewrite Hkeys.
Qed.

(** A context of white space only is reported as pre-built although it
    is not used: with no [userData] key and no conversation, the model is
    sent the fallback text, and the answer says [contextSource:
    "pre-built"] together with [contextLimited: true]. *)
Theorem blank_context_is_labelled_prebuilt (env : Env) (req : ChatRequest) (s : string)
  (clock : Clock) (w : World) (content : JsVal) (usage : Usage) (model : JsVal) :
  truthy_json (req_message req) = true -> env_api_key env = true -> env_openai env = true ->
  req_context req = JPrim (JStr s) -> s <> "" -> all_space s = true ->
  has_keys (req_userData req) = false ->
  default_to [] (req_conversation req) = Val [] ->
  openai_create [system_message (JPrim (JStr fallback_context)); user_message (req_message req)]
  = Completion content usage model ->
  truthy content = true ->
  chat_handler Usage engine_text openai_create env req clock w
  = ({| res_status := 200;
        res_body := ChatBody content usage model (toISOString (clock (w_reads w)))
                      false true "pre-built" |},
     {| w_reads := S (w_reads w);
        w_calls := (w_calls w ++ [[system_message (JPrim (JStr fallback_context));
                                   user_message (req_message req)]])%list |}).
Proof.
  intros Hm Hk Ho Hc Hne Hblank Hkeys Hl Hcreate Hcontent.
  assert (Ht : truthy_json (JPrim (JStr s)) = true).
  { cbn [truthy_json truthy]. destruct (String.eqb s "") eqn:E; [|reflexivity].
    now apply String.eqb_eq in E. }
  rewrite chat_handler_steps by assumption. cbv zeta. rewrite Hl, Hc.
  rewrite select_context_nothing;
    [| cbn [null_if_undefined usable_context]; now rewrite Hblank
     | now rewrite has_keys_received
     | reflexivity].
  cbn [prepare_messages map_conversation app]. change (truthy_json (JPrim JUndefined)) with false.
  cbv iota.
  fold (system_message (JPrim (JStr fallback_context))). fold (user_message (req_message req)).
  rewrite Hcreate, Hcontent.
  unfold has_user_data, mentions_profile, context_source.
  rewrite has_keys_received, Hkeys. cbn [null_if_undefined]. rewrite Ht.
  now rewrite (blank_has_no_profile s Hblank).
Qed.

Lemma select_context_returns (context : Json) (userData : Nullable UserData)
  (l : list ConvMsg) (clock : Clock) (w : World) :
  exists selected w1,
    select_context context userData (Val (map Some l)) clock w = (Ok selected, w1)
    /\ w_calls w1 = w_calls w.
Proof.
  pose proof (select_context_records context userData l clock w) as Hv.
  pose proof (select_context_effects context userData (Val (map Some l)) clock w) as [Hc _].
  cbv zeta in Hv.
  destruct (select_context _ _ _ clock w) as [[selected|e] w1]; [|discriminate].
  now exists selected, w1.
Qed.

(** A truthy context that is neither a string nor an array (a number,
    [true], an object) is passed over by the selection but not by the
    computation of [hasUserData], which calls [includes] on it; a string
    and an array have that method, the others do not. When the request
    carries no [userData] key and its conversation is an array of
    objects, the model is asked all the same, and its answer is lost: the
    status is never 200, and it is 500 with the code [INTERNAL_ERROR]
    when the model returned a content. *)
Theorem non_string_context_loses_the_answer (env : Env) (req : ChatRequest)
  (l : list ConvMsg) (clock : Clock) (w : World) :
  truthy_json (req_message req) = true -> env_api_key env = true -> env_openai env = true ->
  default_to [] (req_conversation req) = Val (map Some l) ->
  truthy_json (req_context req) = true ->
  (forall s, req_context req <> JPrim (JStr s)) ->
  (forall elements, req_context req <> JArr elements) ->
  has_keys (req_userData req) = false ->
  let r := chat_handler Usage engine_text openai_create env req clock w in
  exists messages,
    w_calls (snd r) = (w_calls w ++ [messages])%list
    /\ res_status (fst r) <> 200%nat
    /\ (forall content usage model,
          openai_create messages = Completion content usage model -> truthy content = true ->
          fst r = {| res_status := 500;
                     res_body := ErrorBody "Internal server error" "INTERNAL_ERROR"
                                   (Some (if env_development env
                                          then JStr (engine_text "context.includes")
                                          else JStr "Something went wrong")) |}).
Proof.
  intros Hm Hk Ho Hl Ht Hs Ha Hkeys. cbv zeta.
  rewrite chat_handler_steps by assumption. cbv zeta. rewrite Hl.
  destruct (select_context_returns (null_if_undefined (req_context req))
              (null_if_absent (req_userData req)) l clock w) as (selected & w1 & -> & Hcalls).
  unfold prepare_messages. rewrite map_conversation_records.
  match goal with |- context [openai_create ?m] => set (messages := m) end.
  exists messages. rewrite <- Hcalls.
  assert (Hh : has_user_data (null_if_absent (req_userData req))
                 (null_if_undefined (req_context req)) (Val (map Some l))
               = Raise (TypeError "context.includes")).
  { unfold has_user_data, mentions_profile.
    rewrite has_keys_received, Hkeys, truthy_received, Ht.
    destruct (req_context req) as [[| | | |s]|elements|fields]; try reflexivity.
    - now elim (Hs s).
    - now elim (Ha elements). }
  rewrite Hh.
  destruct (openai_create messages) as [content usage model|code text] eqn:Hcreate.
  - destruct (truthy content) eqn:Hcontent; cbn [fst snd w_calls].
    + rewrite error_response_internal by reflexivity. cbn [res_status error_message].
      split; [reflexivity|]. split; [discriminate|]. reflexivity.
    + rewrite error_response_internal by reflexivity. cbn [res_status].
      split; [reflexivity|]. split; [discriminate|].
      intros c u m [= -> _ _] E. congruence.
  - cbn [fst snd w_calls]. split; [reflexivity|]. split; [|discriminate].
    destruct (error_response_cases env "INTERNAL_ERROR" (ApiError code text))
      as [[_ ->] | [[_ ->] | [[_ ->] | ->]]]; discriminate.
Qed.

Lemma map_conversation_null_entry (l : Conversation) :
  In None l -> exists e, map_conversation l = Raise e /\ error_code e = JUndefined.
Proof.
  induction l as [|[m|] l IH]; intros Hin.
  - destruct Hin.
  - destruct Hin as [E|Hin]; [discriminate|].
    destruct (IH Hin) as (e & He & Hc). exists e. cbn [map_conversation]. now rewrite He.
  - eexists. split; reflexivity.
Qed.

(** A conversation that is [null], or that holds a [null] entry, is an
    internal error: the answer is a 500 with the code [INTERNAL_ERROR],
    and the model is not asked. *)
Theorem malformed_conversation_is_an_internal_error (env : Env) (req : ChatRequest)
  (clock : Clock) (w : World) :
  truthy_json (req_message req) = true -> env_api_key env = true -> env_openai env = true ->
  req_conversation req = Null \/ In None (elements (req_conversation req)) ->
  let r := chat_handler Usage engine_text openai_create env req clock w in
  w_calls (snd r) = w_calls w
  /\ exists message,
       fst r = {| res_status := 500;
                  res_body := ErrorBody "Internal server error" "INTERNAL_ERROR"
                                (Some message) |}.
Proof.
  intros Hm Hk Ho Hbad. cbv zeta.
  rewrite chat_handler_steps by assumption. cbv zeta.
  pose proof (select_context_effects (null_if_undefined (req_context req))
                (null_if_absent (req_userData req))
                (default_to [] (req_conversation req)) clock w) as Hs.
  pose proof (select_context_raises (null_if_undefined (req_context req))
                (null_if_absent (req_userData req))
                (default_to [] (req_conversation req)) clock w) as Hr.
  cbv zeta in Hs.
  destruct (select_context _ _ _ clock w) as [[selected|e] w1]; cbn [fst snd] in Hs, Hr |- *;
    destruct Hs as [Hcalls _].
  2:{ rewrite error_response_internal by now apply Hr. split; [exact Hcalls | now eexists]. }
  assert (Hp : forall sys, exists e,
               prepare_messages sys (default_to [] (req_conversation req)) (req_message req)
               = Raise e /\ error_code e = JUndefined).
  { intros sys. unfold prepare_messages. destruct Hbad as [-> | Hin].
    - eexists. split; reflexivity.
    - destruct (req_conversation req) as [| |l]; cbn [elements] in Hin; try destruct Hin.
      cbn [default_to]. destruct (map_conversation_null_entry l Hin) as (e & -> & He).
      now exists e. }
  destruct (Hp (if truthy_json selected then selected else JPrim (JStr fallback_context))) as (e & -> & He).
  cbn [fst snd]. rewrite error_response_internal by exact He.
  split; [exact Hcalls | now eexists].
Qed.

Lemma context_endpoint_facts (env : Env) (u : UserData) (clock : Clock) (w : World) :
  let b := ud_bundle u in
  let r := context_handler Usage engine_text env (Val u) clock w in
  fst r
  = {| res_status := 200;
       res_body :=
         ContextBody (text_of (fst (buildUserContext (Val b) clock (w_reads w))))
           (toISOString (clock (Nat.pred (w_reads (snd r)))))
           {| ds_jobs := List.length (elements (jobs b));
              ds_events := List.length (elements (events b));
              ds_aiJobs := List.length (elements (aiJobs b));
              ds_agencies := List.length (elements (agencies b));
              ds_agents := List.length (elements (agents b));
              ds_meetings := List.length (elements (meetings b));
              ds_onStays := List.length (elements (onStays b));
              ds_shootings := List.length (elements (shootings b)) |} |}
  /\ w_calls (snd r) = w_calls w
  /\ (w_reads w < w_reads (snd r) <= w_reads w + 6)%nat.
Proof.
  cbv zeta. unfold context_handler, hbind, timestamp_now, hret, length_or_0.
  destruct (run_buildUserContext (ud_bundle u) clock w) as (s & n & E & -> & Hn).
  rewrite E. cbn [fst snd w_reads w_calls text_of Nat.pred].
  split; [reflexivity|]. split; [reflexivity | lia].
Qed.

(** [/api/context] answers 400 when [userData] is missing and 200
    otherwise, never 500, and never asks the model. The context of a 200
    is what [buildUserContext] returns for the reading of the clock at
    which it starts, be it the generic error line; the counts of
    [dataStats] are the lengths of the collections, null elements
    included; the timestamp is a later reading of the clock, the last
    one. *)
Theorem context_endpoint_answers (env : Env) (userData : Nullable UserData) (clock : Clock)
  (w : World) :
  let r := context_handler Usage engine_text env userData clock w in
  w_calls (snd r) = w_calls w
  /\ match userData with
     | Val u =>
         let b := ud_bundle u in
         fst r
         = {| res_status := 200;
              res_body :=
                ContextBody (text_of (fst (buildUserContext (Val b) clock (w_reads w))))
                  (toISOString (clock (Nat.pred (w_reads (snd r)))))
                  {| ds_jobs := List.length (elements (jobs b));
                     ds_events := List.length (elements (events b));
                     ds_aiJobs := List.length (elements (aiJobs b));
                     ds_agencies := List.length (elements (agencies b));
                     ds_agents := List.length (elements (agents b));
                     ds_meetings := List.length (elements (meetings b));
                     ds_onStays := List.length (elements (onStays b));
                     ds_shootings := List.length (elements (shootings b)) |} |}
         /\ (w_reads w < w_reads (snd r) <= w_reads w + 6)%nat
     | _ =>
         r = ({| res_status := 400;
                 res_body := ErrorBody "User data is required" "MISSING_USER_DATA" None |}, w)
     end.
Proof.
  cbv zeta. destruct userData as [| |u]; try (split; reflexivity).
  destruct (context_endpoint_facts env u clock w) as (Hf & Hc & Hr).
  split; [exact Hc|]. split; [exact Hf | exact Hr].
Qed.

(** [/api/chat-with-context] builds the context and drops it: the answer
    is a 400 when the message or [userData] is missing and otherwise a
    redirection to [/api/chat], the same whatever [userData] holds; it is
    never a 500, and the model is not asked. *)
Theorem chat_with_context_drops_the_context (env : Env) (message : Json)
  (userData : Nullable UserData) (clock : Clock) (w : World) :
  let r := chat_with_context_handler Usage engine_text env message userData clock w in
  w_calls (snd r) = w_calls w
  /\ (w_reads w <= w_reads (snd r) <= w_reads w + 5)%nat
  /\ fst r
     = if negb (truthy_json message)
       then {| res_status := 400;
               res_body := ErrorBody "Message is required" "MISSING_MESSAGE" None |}
       else if is_object userData
            then {| res_status := 307; res_body := Redirect "/api/chat" |}
            else {| res_status := 400;
                    res_body := ErrorBody "User data is required for this endpoint"
                                  "MISSING_USER_DATA" None |}.
Proof.
  cbv zeta. unfold chat_with_context_handler.
  destruct (truthy_json message); cbn [negb];
    [|cbn [fst snd]; split; [reflexivity | split; [lia | reflexivity]]].
  destruct userData as [| |u]; cbn [is_object];
    try (cbn [fst snd]; split; [reflexivity | split; [lia | reflexivity]]).
  destruct (run_buildUserContext (ud_bundle u) clock w) as (s & n & _ & -> & Hn).
  cbn [fst snd w_reads w_calls]. split; [reflexivity | split; [exact Hn | reflexivity]].
Qed.

(** The context returned by [/api/context] can be sent back: a chat
    request that carries it as [context] makes the model receive the
    same messages as the request that carries the [userData] it was built
    from, when that has a key and the clock readings are the same. *)
Theorem prebuilt_context_round_trip (env : Env) (req : ChatRequest) (u : UserData)
  (other : Nullable UserData) (clock : Clock) (w : World)
  (context timestamp : string) (dataStats : DataStats) :
  req_userData req = Val u -> (0 < key_count u)%nat ->
  usable_context (req_context req) = false ->
  res_body (fst (context_handler Usage engine_text env (Val u) clock w))
  = ContextBody context timestamp dataStats ->
  w_calls (snd (chat_handler Usage engine_text openai_create env
                  {| req_message := req_message req;
                     req_conversation := req_conversation req;
                     req_userData := other;
                     req_context := JPrim (JStr context) |} clock w))
  = w_calls (snd (chat_handler Usage engine_text openai_create env req clock w)).
Proof.
  intros Hu Hkeys Hc Hbody.
  destruct (context_endpoint_facts env u clock w) as [Hctx _].
  rewrite Hctx in Hbody. cbn [fst res_body] in Hbody. injection Hbody as <- _ _.
  destruct (truthy_json (req_message req) && env_api_key env && env_openai env) eqn:Hok.
  2:{ rewrite !chat_handler_rejects by assumption. reflexivity. }
  apply andb_prop in Hok as [Hok Ho]. apply andb_prop in Hok as [Hm Hk].
  rewrite !chat_handler_steps by assumption. cbv zeta.
  cbn [req_message req_conversation req_userData req_context null_if_undefined].
  pose proof (built_context_usable (ud_bundle u) clock (w_reads w)) as Hb.
  assert (E1 : select_context
                 (JPrim (JStr (text_of (fst (buildUserContext (Val (ud_bundle u)) clock
                                              (w_reads w))))))
                 (null_if_absent other) (default_to [] (req_conversation req)) clock w
               = (Ok (JPrim (JStr (text_of (fst (buildUserContext (Val (ud_bundle u)) clock
                                                   (w_reads w)))))), w)).
  { unfold select_context. now rewrite Hb. }
  rewrite E1.
  assert (E2 : exists w1,
             select_context (null_if_undefined (req_context req))
               (null_if_absent (req_userData req)) (default_to [] (req_conversation req))
               clock w
             = (Ok (JPrim (JStr (text_of (fst (buildUserContext (Val (ud_bundle u)) clock
                                                 (w_reads w)))))), w1)
             /\ w_calls w1 = w_calls w).
  { unfold select_context. rewrite usable_context_received, Hc, Hu.
    cbn [null_if_absent has_keys]. apply Nat.ltb_lt in Hkeys. rewrite Hkeys.
    unfold hbind. destruct (run_buildUserContext (ud_bundle u) clock w) as (s & n & E & -> & _).
    rewrite E. cbn [fst text_of hret]. eexists. split; reflexivity. }
  destruct E2 as (w1 & -> & Hcalls).
  destruct (prepare_messages _ _ _) as [messages|e];
    [|cbn [snd w_calls]; now rewrite ?Hcalls].
  destruct (openai_create messages) as [content usage model|code text];
    [|cbn [snd w_calls]; now rewrite ?Hcalls].
  destruct (truthy content); [|cbn [snd w_calls]; now rewrite ?Hcalls].
  destruct (has_user_data (null_if_absent other) _ _) as [h1|e1],
           (has_user_data (null_if_absent (req_userData req)) _ _) as [h2|e2];
    repeat match goal with
           | |- context [context_source ?c ?d ?v] => destruct (context_source c d v)
           end;
    cbn [snd w_calls]; now rewrite ?Hcalls.
Qed.

Lemma found_further (a s mid : string) :
  (exists before after, s = before ++ mid ++ after) ->
  exists before after, a ++ s = before ++ mid ++ after.
Proof. intros (b & c & ->). exists (a ++ b), c. now rewrite append_assoc. Qed.

(** The statistics inside the template. *)
Lemma statistics_in_template (s : Sections) (d t : string) :
  exists before after,
    context_template s d t = before ++ ("STATISTICS:" ++ nl ++ statistics s) ++ after.
Proof.
  unfold context_template. do 44 apply found_further.
  exists "". eexists. cbn [append]. now rewrite !append_assoc.
Qed.

(** The counts of [/api/context] agree with its text. When no formatter
    fails and the statistics are computed, the context holds the
    statistics section, whose heading comes twice, and the totals printed
    there for the jobs and the events are the counts [jobs] and [events]
    of [dataStats]. *)
Theorem context_counts_agree_with_its_text (env : Env) (u : UserData) (clock : Clock)
  (w : World) :
  formatter_fails (ud_bundle u) = false ->
  statistics_fails (jobs (ud_bundle u)) (events (ud_bundle u)) = false ->
  exists context timestamp stats before income upcoming completed after,
    res_body (fst (context_handler Usage engine_text env (Val u) clock w))
    = ContextBody context timestamp stats
    /\ context
       = before ++ "STATISTICS:" ++ nl
         ++ "STATISTICS:" ++ nl
         ++ "- Total Income: $" ++ income ++ " USD" ++ nl
         ++ "- Total Jobs: " ++ string_of_nat (ds_jobs stats) ++ nl
         ++ "- Upcoming Jobs: " ++ string_of_nat upcoming ++ nl
         ++ "- Completed Jobs: " ++ string_of_nat completed ++ nl
         ++ "- Total Events: " ++ string_of_nat (ds_events stats) ++ nl
         ++ after.
Proof.
  intros Hf Hs.
  destruct (context_endpoint_facts env u clock w) as [Hctx _]. cbv zeta in Hctx.
  rewrite Hctx. cbn [fst res_body].
  rewrite buildUserContext_outcome, Hf. cbn [fst text_of].
  match goal with
  | |- context [context_template ?S ?d ?t] =>
      destruct (statistics_in_template S d t) as (before & after & E)
  end.
  unfold sections_of in E at 2. cbn [statistics] in E.
  rewrite calculateStatistics_outcome, Hs in E. cbn [fst text_of] in E.
  unfold statistics_text in E. rewrite !append_assoc in E.
  do 3 eexists. exists before. do 4 eexists. split; [reflexivity|].
  cbn [ds_jobs ds_events]. exact E.
Qed.


(** Every text of the template mentions the profile. *)
Lemma template_mentions_profile (b : Bundle) (clock : Clock) (n : nat) (d t : string) :
  includes "USER PROFILE:" (context_template (sections_of b clock n) d t) = true.
Proof.
  unfold context_template. apply includes_append_r, includes_here.
  unfold sections_of. cbn [userProfileSection]. unfold _buildUserProfileSection.
  destruct (default_to [] (userProfile b)) as [| |[|p o]]; reflexivity.
Qed.

(** The flags of a chat on a pre-built context, when the request has no
    [userData] key and no conversation: the server tells a context that
    [ContextService] built from one that it failed to build. The answer
    says [contextSource: "pre-built"], and [contextLimited] exactly when
    a formatter failed, [hasUserData] exactly when none did. *)
Theorem prebuilt_context_flags (env : Env) (req : ChatRequest) (b : Bundle)
  (clock0 : Clock) (n0 : nat) (clock : Clock) (w : World) (content : JsVal) (usage : Usage)
  (model : JsVal) :
  truthy_json (req_message req) = true -> env_api_key env = true -> env_openai env = true ->
  req_context req = JPrim (JStr (text_of (fst (buildUserContext (Val b) clock0 n0)))) ->
  has_keys (req_userData req) = false ->
  default_to [] (req_conversation req) = Val [] ->
  openai_create [system_message (req_context req); user_message (req_message req)]
  = Completion content usage model ->
  truthy content = true ->
  chat_handler Usage engine_text openai_create env req clock w
  = ({| res_status := 200;
        res_body := ChatBody content usage model (toISOString (clock (w_reads w)))
                      (negb (formatter_fails b)) (formatter_fails b) "pre-built" |},
     {| w_reads := S (w_reads w);
        w_calls := (w_calls w ++ [[system_message (req_context req);
                                   user_message (req_message req)]])%list |}).
Proof.
  intros Hm Hk Ho Hc Hkeys Hl Hcreate Hcontent.
  pose proof (built_context_usable b clock0 n0) as Hu. rewrite <- Hc in Hu.
  pose proof (usable_context_truthy _ Hu) as Ht.
  rewrite chat_handler_steps by assumption. cbv zeta. rewrite Hl.
  assert (Hn : null_if_undefined (req_context req) = req_context req) by now rewrite Hc.
  rewrite Hn.
  assert (Hsel : select_context (req_context req) (null_if_absent (req_userData req)) (Val [])
                   clock w = (Ok (req_context req), w)).
  { unfold select_context. now rewrite Hu. }
  rewrite Hsel, Ht. cbn [prepare_messages map_conversation app].
  fold (system_message (req_context req)). fold (user_message (req_message req)).
  rewrite Hcreate, Hcontent.
  unfold has_user_data, mentions_profile, context_source.
  rewrite has_keys_received, Hkeys, Ht. cbn [fst snd w_reads w_calls].
  rewrite Hc, buildUserContext_outcome.
  destruct (formatter_fails b); cbn [fst text_of negb some_has_data].
  - reflexivity.
  - now rewrite template_mentions_profile.
Qed.

End EndpointFacts.

(** ** The endpoints on sample requests *)

(** The priority on a request whose context is a no-break space and a
    line separator, and whose conversation carries a context. *)
Lemma chat_context_priority_witness :
  let req := {| req_message := JPrim (JStr "Hi"); req_conversation := Val [Some context_entry];
                req_userData := Undefined;
                req_context := JPrim (JStr (utf8 [160; 8232])) |} in
  truthy_json (req_message req) = true
  /\ default_to [] (req_conversation req) = Val (map Some [context_entry])
  /\ w_calls (snd (@chat_handler RefHost.host unit sample_engine_text hello_client sample_env
                     req epoch_clock fresh_world))
     = [[system_message (JPrim (JStr "USER PROFILE: a model"));
         {| cm_role := JPrim (JStr "assistant"); cm_content := JPrim (JStr "Welcome") |};
         user_message (JPrim (JStr "Hi"))]].
Proof.
  intros req. split; [reflexivity|]. split; [reflexivity|].
  exact (@chat_context_priority RefHost.host unit sample_engine_text hello_client sample_env
           req [context_entry] epoch_clock fresh_world eq_refl eq_refl eq_refl eq_refl).
Defined.

(** The fallback on the request [{ message: "Hi" }]. *)
Lemma fallback_label_is_sound_witness :
  let r := @chat_handler RefHost.host unit sample_engine_text hello_client sample_env
             bare_request epoch_clock fresh_world in
  res_body (fst r)
  = ChatBody (JStr "Hello") tt (JStr "gpt-3.5-turbo") "1970-01-01T00:00:00.000Z"
      false true "fallback"
  /\ false = false /\ true = true
  /\ exists ms,
       w_calls (snd r)
       = (w_calls fresh_world ++ [system_message (JPrim (JStr fallback_context)) :: ms
                                  ++ [user_message (req_message bare_request)]])%list.
Proof.
  intros r. assert (E : res_body (fst r)
                        = ChatBody (JStr "Hello") tt (JStr "gpt-3.5-turbo")
                            "1970-01-01T00:00:00.000Z" false true "fallback")
    by reflexivity.
  split; [exact E|].
  exact (@fallback_label_is_sound RefHost.host unit sample_engine_text hello_client sample_env
           bare_request epoch_clock fresh_world _ _ _ _ _ _ E).
Defined.

(** The request [{ message: "Hi", userData: {} }]. *)
Lemma empty_userData_is_labelled_userData_witness :
  let req := {| req_message := JPrim (JStr "Hi"); req_conversation := Undefined;
                req_userData := Val empty_user; req_context := JPrim JUndefined |} in
  key_count empty_user = 0%nat
  /\ @chat_handler RefHost.host unit sample_engine_text hello_client sample_env req
       epoch_clock fresh_world
     = ({| res_status := 200;
           res_body := ChatBody (JStr "Hello") tt (JStr "gpt-3.5-turbo")
                         (toISOString (epoch_clock 0%nat)) false true "userData" |},
        {| w_reads := 1;
           w_calls := [[system_message (JPrim (JStr fallback_context)); user_message (JPrim (JStr "Hi"))]] |}).
Proof.
  intros req. split; [reflexivity|].
  exact (@empty_userData_is_labelled_userData RefHost.host unit sample_engine_text hello_client
           sample_env req empty_user epoch_clock fresh_world _ _ _
           eq_refl eq_refl eq_refl eq_refl eq_refl eq_refl eq_refl eq_refl eq_refl).
Defined.

(** The request [{ message: "Hi", context: "  " }]. *)
Lemma blank_context_is_labelled_prebuilt_witness :
  let req := {| req_message := JPrim (JStr "Hi"); req_conversation := Undefined;
                req_userData := Undefined; req_context := JPrim (JStr "  ") |} in
  "  " <> "" /\ all_space "  " = true
  /\ @chat_handler RefHost.host unit sample_engine_text hello_client sample_env req
       epoch_clock fresh_world
     = ({| res_status := 200;
           res_body := ChatBody (JStr "Hello") tt (JStr "gpt-3.5-turbo")
                         (toISOString (epoch_clock 0%nat)) false true "pre-built" |},
        {| w_reads := 1;
           w_calls := [[system_message (JPrim (JStr fallback_context)); user_message (JPrim (JStr "Hi"))]] |}).
Proof.
  intros req. assert (Hne : "  " <> "") by discriminate.
  split; [exact Hne|]. split; [reflexivity|].
  exact (@blank_context_is_labelled_prebuilt RefHost.host unit sample_engine_text hello_client
           sample_env req "  " epoch_clock fresh_world _ _ _
           eq_refl eq_refl eq_refl eq_refl Hne eq_refl eq_refl eq_refl eq_refl eq_refl).
Defined.

(** The request [{ message: "Hi", context: true }]. *)
Lemma non_string_context_loses_the_answer_witness :
  let req := {| req_message := JPrim (JStr "Hi"); req_conversation := Undefined;
                req_userData := Undefined; req_context := JPrim (JBool true) |} in
  let r := @chat_handler RefHost.host unit sample_engine_text hello_client sample_env req
             epoch_clock fresh_world in
  truthy_json (req_context req) = true
  /\ (forall s, req_context req <> JPrim (JStr s))
  /\ (forall elements, req_context req <> JArr elements)
  /\ exists messages,
       w_calls (snd r) = (w_calls fresh_world ++ [messages])%list
       /\ res_status (fst r) <> 200%nat
       /\ (forall content usage model,
             hello_client messages = Completion content usage model ->
             truthy content = true ->
             fst r = {| res_status := 500;
                        res_body := ErrorBody "Internal server error" "INTERNAL_ERROR"
                                      (Some (if env_development sample_env
                                             then JStr (sample_engine_text "context.includes")
                                             else JStr "Something went wrong")) |}).
Proof.
  intros req r.
  assert (Hs : forall s, req_context req <> JPrim (JStr s)) by (intros s; discriminate).
  assert (Ha : forall elements, req_context req <> JArr elements)
    by (intros elements; discriminate).
  split; [reflexivity|]. split; [exact Hs|]. split; [exact Ha|].
  exact (@non_string_context_loses_the_answer RefHost.host unit sample_engine_text hello_client
           sample_env req [] epoch_clock fresh_world
           eq_refl eq_refl eq_refl eq_refl eq_refl Hs Ha eq_refl).
Defined.

(** The request [{ message: "Hi", conversation: null }]. *)
Lemma malformed_conversation_is_an_internal_error_witness :
  let req := {| req_message := JPrim (JStr "Hi"); req_conversation := Null;
                req_userData := Undefined; req_context := JPrim JUndefined |} in
  let r := @chat_handler RefHost.host unit sample_engine_text hello_client sample_env req
             epoch_clock fresh_world in
  req_conversation req = Null
  /\ w_calls (snd r) = w_calls fresh_world
  /\ exists message,
       fst r = {| res_status := 500;
                  res_body := ErrorBody "Internal server error" "INTERNAL_ERROR"
                                (Some message) |}.
Proof.
  intros req r. split; [reflexivity|].
  exact (@malformed_conversation_is_an_internal_error RefHost.host unit sample_engine_text
           hello_client sample_env req epoch_clock fresh_world
           eq_refl eq_refl eq_refl (or_introl eq_refl)).
Defined.

(** The context of [{ jobs: [{ date: "1970-01-02" }] }], sent back. *)
Lemma prebuilt_context_round_trip_witness :
  let req := {| req_message := JPrim (JStr "Hi"); req_conversation := Undefined;
                req_userData := Val sample_user; req_context := JPrim JUndefined |} in
  let context :=
    text_of (fst (@buildUserContext RefHost.host (Val one_dated_job_bundle) epoch_clock 0%nat)) in
  (0 < key_count sample_user)%nat
  /\ (exists timestamp dataStats,
        res_body (fst (@context_handler RefHost.host unit sample_engine_text sample_env
                         (Val sample_user) epoch_clock fresh_world))
        = ContextBody context timestamp dataStats)
  /\ w_calls (snd (@chat_handler RefHost.host unit sample_engine_text hello_client sample_env
                     {| req_message := JPrim (JStr "Hi"); req_conversation := Undefined;
                        req_userData := Null; req_context := JPrim (JStr context) |}
                     epoch_clock fresh_world))
     = w_calls (snd (@chat_handler RefHost.host unit sample_engine_text hello_client sample_env
                       req epoch_clock fresh_world)).
Proof.
  intros req context. assert (Hk : (0 < key_count sample_user)%nat) by (cbv; lia).
  split; [exact Hk|]. split; [do 2 eexists; vm_compute; reflexivity|].
  refine (@prebuilt_context_round_trip RefHost.host unit sample_engine_text hello_client
            sample_env req sample_user Null epoch_clock fresh_world context _ _
            eq_refl Hk eq_refl _).
  vm_compute. reflexivity.
Defined.

(** The counts and the text for [{ jobs: [{ date: "1970-01-02" }] }]. *)
Lemma context_counts_agree_with_its_text_witness :
  formatter_fails (ud_bundle sample_user) = false
  /\ statistics_fails (jobs (ud_bundle sample_user)) (events (ud_bundle sample_user)) = false
  /\ exists context timestamp stats before income upcoming completed after,
       res_body (fst (@context_handler RefHost.host unit sample_engine_text sample_env
                        (Val sample_user) epoch_clock fresh_world))
       = ContextBody context timestamp stats
       /\ context
          = before ++ "STATISTICS:" ++ nl
            ++ "STATISTICS:" ++ nl
            ++ "- Total Income: $" ++ income ++ " USD" ++ nl
            ++ "- Total Jobs: " ++ string_of_nat (ds_jobs stats) ++ nl
            ++ "- Upcoming Jobs: " ++ string_of_nat upcoming ++ nl
            ++ "- Completed Jobs: " ++ string_of_nat completed ++ nl
            ++ "- Total Events: " ++ string_of_nat (ds_events stats) ++ nl
            ++ after.
Proof.
  split; [reflexivity|]. split; [reflexivity|].
  exact (@context_counts_agree_with_its_text RefHost.host unit sample_engine_text sample_env
           sample_user epoch_clock fresh_world eq_refl eq_refl).
Defined.


(** The context of [{ jobs: [null] }], sent as a pre-built context. *)
Lemma prebuilt_context_flags_witness :
  let b := jobs_events_bundle (Val [None]) Undefined in
  let req := {| req_message := JPrim (JStr "Hi"); req_conversation := Undefined;
                req_userData := Undefined;
                req_context :=
                  JPrim (JStr (text_of (fst (@buildUserContext RefHost.host (Val b)
                                               epoch_clock 0%nat)))) |} in
  formatter_fails b = true
  /\ @chat_handler RefHost.host unit sample_engine_text hello_client sample_env req
       epoch_clock fresh_world
     = ({| res_status := 200;
           res_body := ChatBody (JStr "Hello") tt (JStr "gpt-3.5-turbo")
                         (toISOString (epoch_clock 0%nat)) false true "pre-built" |},
        {| w_reads := 1;
           w_calls := [[system_message (JPrim (JStr generic_error_line));
                        user_message (JPrim (JStr "Hi"))]] |}).
Proof.
  intros b req. split; [reflexivity|].
  exact (@prebuilt_context_flags RefHost.host unit sample_engine_text hello_client sample_env
           req b epoch_clock 0%nat epoch_clock fresh_world _ _ _
           eq_refl eq_refl eq_refl eq_refl eq_refl eq_refl eq_refl eq_refl).
Defined.

(** The request [{ message: "Hi", context: ["x"] }]: an array has a
    method [includes], nothing throws, and the answer is a 200 labelled
    pre-built whose system message is the fallback text. *)
Example array_context_is_answered :
  @chat_handler RefHost.host unit sample_engine_text hello_client sample_env
    {| req_message := JPrim (JStr "Hi"); req_conversation := Undefined;
       req_userData := Undefined; req_context := JArr [JPrim (JStr "x")] |}
    epoch_clock fresh_world
  = ({| res_status := 200;
        res_body := ChatBody (JStr "Hello") tt (JStr "gpt-3.5-turbo")
                      "1970-01-01T00:00:00.000Z" false true "pre-built" |},
     {| w_reads := 1;
        w_calls := [[system_message (JPrim (JStr fallback_context));
                     user_message (JPrim (JStr "Hi"))]] |}).
Proof. vm_compute. reflexivity. Qed.
